(** * Bilibili subtitle tool: identifier codec, request signing, facade

    A shallow embedding of [utils/bilibili_enhanced_tool.py].

    Conventions of the embedding.
    - A Python [int] is a [Z]; [%] and [//] are floor operations, as
      [Z.modulo] and [Z.div] are for a positive divisor; [|], [&] and [^]
      are [Z.lor], [Z.land] and [Z.lxor] (two's complement on negatives,
      as in Python).
    - A Python [str] is a [string]; a character is an [ascii], read as a
      code point below 256.  A one-byte [bytes] object such as [b"F"] is
      the [ascii] of that byte, and [ch.encode()] of a character below 128
      is that same byte; a character from 128 on encodes to two bytes and
      so is equal to no entry of the alphabet table, which is also what
      comparing [ascii] values gives, since the table is pure 7-bit.
    - A raised exception is a value [Raise e]; a [try]/[except] is a match
      on it.  What a function prints is the list of messages it returns
      next to its result.
    - A decoded JSON document is a [value]; numbers are integers.
    - The text of a subtitle is of any characters: the lines that trim and
      join it are also given on lists of code points of any size, in
      [Wide], with the white space of Unicode.

    Outside the embedding: [parse_cookies], the body of [_make_request]
    and [main]; the HTTP client, the JSON decoder, the clock, [urlencode]
    and [md5], which the functions that use them take as parameters. *)

From Stdlib Require Import ZArith String Ascii List Bool Lia DecimalString OrderedTypeEx.
From stdpp Require Import base list sorting.
Import ListNotations.

Local Open Scope string_scope.
Local Open Scope Z_scope.

(** ** Exceptions and results *)

(** The exception classes the modelled code can raise.  [FuelExhausted] is
    not a Python exception: it is what a bounded unrolling of a [while]
    loop returns when its bound is reached, and [aid2bvid_never_out_of_fuel]
    shows that it never comes out of [aid2bvid]. *)
Inductive exn : Type :=
  | IndexError
  | ValueError
  | KeyError
  | TypeError
  | AttributeError
  | RequestFailed
  | FuelExhausted.

Inductive result (A : Type) : Type :=
  | Ok (a : A)
  | Raise (e : exn).

Arguments Ok {A} a.
Arguments Raise {A} e.

Definition bind {A B : Type} (r : result A) (k : A -> result B) : result B :=
  match r with
  | Ok a => k a
  | Raise e => Raise e
  end.

Notation "'let*' x ':=' e 'in' k" := (bind e (fun x => k))
  (at level 10, x name, e at level 100, k at level 200).

(** ** Python sequence indexing *)

(** [l[i]] on a sequence of length [len]: a negative index counts from the
    end, anything outside [-len, len) raises [IndexError]. *)
Definition py_norm_index (len : nat) (i : Z) : result nat :=
  if (0 <=? i) && (i <? Z.of_nat len) then Ok (Z.to_nat i)
  else if (- Z.of_nat len <=? i) && (i <? 0) then Ok (Z.to_nat (Z.of_nat len + i))
  else Raise IndexError.

Definition py_getitem {A : Type} (l : list A) (i : Z) : result A :=
  let* n := py_norm_index (length l) i in
  match l !! n with
  | Some x => Ok x
  | None => Raise IndexError
  end.

Definition py_setitem {A : Type} (l : list A) (i : Z) (x : A) : result (list A) :=
  let* n := py_norm_index (length l) i in
  Ok (<[n := x]> l).

(** [l[i], l[j] = l[j], l[i]]: the right-hand side is evaluated first, left
    to right ([l[j]] then [l[i]]), then the two stores are made. *)
Definition py_swap {A : Type} (l : list A) (i j : Z) : result (list A) :=
  let* a := py_getitem l j in
  let* b := py_getitem l i in
  let* l1 := py_setitem l i a in
  py_setitem l1 j b.

(** [l.index(x)]: position of the first occurrence, [ValueError] if none. *)
Fixpoint index_from (x : ascii) (l : list ascii) (pos : Z) : result Z :=
  match l with
  | [] => Raise ValueError
  | y :: l' => if Ascii.eqb y x then Ok pos else index_from x l' (pos + 1)
  end.

Definition py_index (l : list ascii) (x : ascii) : result Z := index_from x l 0.

(** ** Identifier codec *)

Module Codec.

Definition XOR_CODE : Z := 23442827791579.
Definition MASK_CODE : Z := 2251799813685247.
Definition MAX_AID : Z := Z.shiftl 1 51.
Definition BASE : Z := 58.
Definition BV_LEN : Z := 12.

(** The 58-entry table [data], the same in both methods. *)
Definition data : list ascii :=
  list_ascii_of_string "FcwAPNKTMug3GV5Lj7EJnHpWsx4tb8haYeviqBz6rkCy12mUSDQX9RdoZf".

(** [data[d]] for an index known to be in range; the default is never used
    there. *)
Definition digit (d : Z) : ascii := default "F"%char (data !! Z.to_nat d).

(** [for i in bvid: idx = data.index(i.encode()); tmp = tmp * BASE + idx] *)
Fixpoint bvid2aid_loop (bvid : list ascii) (tmp : Z) : result Z :=
  match bvid with
  | [] => Ok tmp
  | i :: rest =>
      let* idx := py_index data i in
      bvid2aid_loop rest (tmp * BASE + idx)
  end.

Definition bvid2aid (bvid : string) : result Z :=
  let bvid := list_ascii_of_string bvid in
  let* bvid := py_swap bvid 3 9 in
  let* bvid := py_swap bvid 4 7 in
  let bvid := drop 3 bvid in
  let* tmp := bvid2aid_loop bvid 0 in
  Ok (Z.lxor (Z.land tmp MASK_CODE) XOR_CODE).

(** The value of [tmp] when the loop of [bvid2aid] ends, before the mask and
    the exclusive or of the [return] line. *)
Definition bvid2aid_tmp (bvid : string) : result Z :=
  let bvid := list_ascii_of_string bvid in
  let* bvid := py_swap bvid 3 9 in
  let* bvid := py_swap bvid 4 7 in
  let bvid := drop 3 bvid in
  bvid2aid_loop bvid 0.

(** [while int(tmp) != 0: bytes_list[bv_idx] = data[int(tmp % BASE)];
    tmp //= BASE; bv_idx -= 1], unrolled at most [fuel] times. *)
Fixpoint aid2bvid_loop (fuel : nat) (tmp bv_idx : Z) (bytes_list : list ascii)
  : result (list ascii) :=
  match fuel with
  | O => Raise FuelExhausted
  | S fuel' =>
      if tmp =? 0 then Ok bytes_list
      else
        let* c := py_getitem data (tmp mod BASE) in
        let* bytes_list := py_setitem bytes_list bv_idx c in
        aid2bvid_loop fuel' (tmp / BASE) (bv_idx - 1) bytes_list
  end.

(** Every pass of the loop stores at [bv_idx], which starts at 11 and goes
    down by one; a store is possible at 11, ..., -12 only.  So the body runs
    at most 24 times and the 25th test of the condition is the last. *)
Definition aid2bvid_fuel : nat := 25.

Definition aid2bvid (aid : Z) : result string :=
  let bytes_list := list_ascii_of_string "BV1000000000" in
  let bv_idx := BV_LEN - 1 in
  let tmp := Z.lxor (Z.lor MAX_AID aid) XOR_CODE in
  let* bytes_list := aid2bvid_loop aid2bvid_fuel tmp bv_idx bytes_list in
  let* bytes_list := py_swap bytes_list 3 9 in
  let* bytes_list := py_swap bytes_list 4 7 in
  Ok (string_of_list_ascii bytes_list).

End Codec.

(** ** Base-58 readings used to state what the codec computes *)

Module CodecSpec.
Import Codec.

(** The base-58 digit of weight [58^i]. *)
Definition nth_digit (t : Z) (i : Z) : Z := (t / 58 ^ i) mod 58.

(** The buffer after the loop, for a value of exactly nine digits. *)
Definition filled (t : Z) : list ascii :=
  list_ascii_of_string "BV1" ++
  map (fun i => digit (nth_digit t i)) [8; 7; 6; 5; 4; 3; 2; 1; 0].

(** The accumulator of the decoder on a list of digits. *)
Definition horner (ds : list Z) (acc : Z) : Z :=
  fold_left (fun a d => a * 58 + d) ds acc.

(** The string the encoder builds from the value [t] it divides. *)
Definition coded (t : Z) : string :=
  let D := fun i => digit (nth_digit t i) in
  string_of_list_ascii
    [ "B"; "V"; "1"; D 2; D 4; D 6; D 5; D 7; D 3; D 8; D 1; D 0 ]%char.

End CodecSpec.

(** ** Python strings *)

(** [sub in s] for two [str]: [sub] occurs in [s] as a contiguous run of
    characters, compared exactly. *)
Fixpoint py_in_str (sub s : string) : bool :=
  String.prefix sub s ||
  match s with
  | EmptyString => false
  | String _ s' => py_in_str sub s'
  end.

(** [sep.join(l)] *)
Definition py_join (sep : string) (l : list string) : string := String.concat sep l.

(** [str(n)] for an [int] *)
Definition py_str_int (n : Z) : string := NilZero.string_of_int (Z.to_int n).

(** ** Construction of the tool *)

Module Tool.

(** An argument of the constructor: [None] or a [str]. *)
Definition arg : Type := option string.

(** [not x]: [None] and the empty string are false values. *)
Definition py_not (x : arg) : bool :=
  match x with
  | None => true
  | Some EmptyString => true
  | Some (String _ _) => false
  end.

(** An argument is missing when it is [None] or the empty string. *)
Definition missing (x : arg) : Prop := x = None \/ x = Some "".

(** The value of a true argument. *)
Definition value (x : arg) : string := default "" x.

Record tool : Type := {
  cookies : list (string * string);
  has_credentials : bool
}.

Inductive init_result : Type :=
  | Constructed (self : tool)
  | RaiseValueError (message : string).

(** The fixed head of the message of the [ValueError], as UTF-8 bytes. *)
Definition message_head : string := "所有凭证参数都是必需的。缺少: ".

Definition init (sessdata bili_jct buvid3 : arg) : init_result :=
  if py_not sessdata || py_not bili_jct || py_not buvid3 then
    let missing_credentials : list string := [] in
    let missing_credentials :=
      if py_not sessdata then (missing_credentials ++ ["sessdata"])%list
      else missing_credentials in
    let missing_credentials :=
      if py_not bili_jct then (missing_credentials ++ ["bili_jct"])%list
      else missing_credentials in
    let missing_credentials :=
      if py_not buvid3 then (missing_credentials ++ ["buvid3"])%list
      else missing_credentials in
    RaiseValueError (message_head ++ py_join ", " missing_credentials)
  else
    Constructed
      {| cookies := [ ("SESSDATA", value sessdata);
                      ("bili_jct", value bili_jct);
                      ("buvid3", value buvid3) ];
         has_credentials := true |}.

End Tool.

(** ** Request signing *)

Module Signer.

(** A value of a parameter: what the callers of this file put in a
    parameter dictionary ([str], [int], and [None] for an absent [cid]). *)
Inductive param : Type :=
  | PNone
  | PBool (b : bool)
  | PInt (n : Z)
  | PStr (s : string).

(** [str(v)] *)
Definition py_str (v : param) : string :=
  match v with
  | PNone => "None"
  | PBool true => "True"
  | PBool false => "False"
  | PInt n => py_str_int n
  | PStr s => s
  end.

(** A [dict] with [str] keys, in insertion order; no key occurs twice. *)
Definition dict (V : Type) : Type := list (string * V).

(** [d[k] = v]: a present key keeps its place, a new key goes last. *)
Fixpoint dict_set {V : Type} (d : dict V) (k : string) (v : V) : dict V :=
  match d with
  | [] => [(k, v)]
  | (k', v') :: d' =>
      if String.eqb k' k then (k', v) :: d' else (k', v') :: dict_set d' k v
  end.

(** [dict(items)] *)
Definition py_dict {V : Type} (items : list (string * V)) : dict V :=
  fold_left (fun d kv => dict_set d (fst kv) (snd kv)) items [].

(** [sorted(items)] on the items of a dictionary: the keys are distinct, so
    the order of two items is the order of their keys, by code point.
    Insertion from the right is stable, as Python's sort is. *)
Fixpoint insert_item {V : Type} (x : string * V) (l : list (string * V))
  : list (string * V) :=
  match l with
  | [] => [x]
  | y :: l' => if String.leb (fst x) (fst y) then x :: l else y :: insert_item x l'
  end.

Fixpoint py_sorted {V : Type} (l : list (string * V)) : list (string * V) :=
  match l with
  | [] => []
  | x :: l' => insert_item x (py_sorted l')
  end.

(** The order [sorted] puts two items in. *)
Definition key_le {V : Type} (x y : string * V) : Prop :=
  String.leb (fst x) (fst y) = true.

(** ["".join(filter(lambda chr: chr not in "!'()*", s))] *)
Definition strip_chars (s : string) : string :=
  string_of_list_ascii
    (List.filter (fun chr => negb (existsb (Ascii.eqb chr) (list_ascii_of_string "!'()*")))
                 (list_ascii_of_string s)).

Definition mixinKeyEncTab : list Z :=
  [ 46; 47; 18; 2; 53; 8; 23; 32; 15; 50; 10; 31; 58; 3; 45; 35; 27; 43; 5; 49;
    33; 9; 42; 19; 29; 28; 14; 39; 12; 38; 41; 13; 37; 48; 7; 16; 24; 55; 40;
    61; 26; 17; 0; 1; 60; 51; 30; 4; 22; 25; 54; 21; 56; 59; 6; 63; 57; 62; 11;
    36; 20; 34; 44; 52 ].

(** [reduce(lambda s, i: s + orig[i], mixinKeyEncTab, "")] *)
Fixpoint getMixinKey_reduce (orig : list ascii) (tab : list Z) (s : list ascii)
  : result (list ascii) :=
  match tab with
  | [] => Ok s
  | i :: tab' =>
      let* c := py_getitem orig i in
      getMixinKey_reduce orig tab' (s ++ [c])%list
  end.

Definition getMixinKey (orig : string) : result string :=
  let* s := getMixinKey_reduce (list_ascii_of_string orig) mixinKeyEncTab [] in
  Ok (string_of_list_ascii (take 32 s)).

(** An item of the dictionary comprehension of [encWbi]. *)
Definition render (kv : string * param) : string * string :=
  (fst kv, strip_chars (py_str (snd kv))).

Section EncWbi.

(** The two library calls of [encWbi]: [urllib.parse.urlencode] on a
    dictionary of strings, and [md5(s.encode()).hexdigest()]. *)
Variable urlencode : dict string -> string.
Variable md5_hexdigest : string -> string.

(** The parameters as they are when the query string is formed: [wts]
    added, sorted, every value turned into a string and stripped. *)
Definition canonical (params : dict param) (curr_time : Z) : dict string :=
  let params := dict_set params "wts" (PInt curr_time) in
  let params := py_dict (py_sorted params) in
  map (fun kv => (fst kv, strip_chars (py_str (snd kv)))) params.

(** [curr_time] is [round(time.time())]. *)
Definition encWbi (params : dict param) (img_key sub_key : string) (curr_time : Z)
  : result (dict string) :=
  let* mixin_key := getMixinKey (img_key ++ sub_key) in
  let params := dict_set params "wts" (PInt curr_time) in
  let params := py_dict (py_sorted params) in
  let params := map (fun kv => (fst kv, strip_chars (py_str (snd kv)))) params in
  let query := urlencode params in
  let wbi_sign := md5_hexdigest (query ++ mixin_key) in
  let params := dict_set params "w_rid" wbi_sign in
  Ok params.

End EncWbi.

End Signer.

(** ** Readings used to state what the signer computes *)

Module SignerSpec.

(** The character [orig[i]] for an index in range. *)
Definition at_index (orig : list ascii) (i : Z) : ascii :=
  default "000"%char (orig !! Z.to_nat i).

End SignerSpec.

(** ** Python values and the operations the facade applies to them *)

(** What a decoded JSON document can be, and [None].  A [dict] is the list
    of its items, with distinct keys; numbers are integers. *)
#[warnings="-register-all"]
Inductive value : Type :=
  | VNone
  | VBool (b : bool)
  | VInt (n : Z)
  | VStr (s : string)
  | VList (l : list value)
  | VDict (items : list (string * value)).

(** Truth value of an object, as [if x] and [not x] take it. *)
Definition py_truthy (v : value) : bool :=
  match v with
  | VNone => false
  | VBool b => b
  | VInt n => negb (n =? 0)
  | VStr s => negb (String.eqb s "")
  | VList l => match l with [] => false | _ :: _ => true end
  | VDict items => match items with [] => false | _ :: _ => true end
  end.

Fixpoint assoc (k : string) (items : list (string * value)) : option value :=
  match items with
  | [] => None
  | (k', v) :: rest => if String.eqb k' k then Some v else assoc k rest
  end.

(** [d.get(k, dflt)]; only a [dict] has the method. *)
Definition py_get (d : value) (k : string) (dflt : value) : result value :=
  match d with
  | VDict items => Ok (default dflt (assoc k items))
  | _ => Raise AttributeError
  end.

(** [v != 0]: [0] and [False] are equal to [0], nothing else is. *)
Definition py_ne_zero (v : value) : bool :=
  match v with
  | VInt n => negb (n =? 0)
  | VBool b => b
  | _ => true
  end.

(** [len(v)] *)
Definition py_len (v : value) : result Z :=
  match v with
  | VStr s => Ok (Z.of_nat (String.length s))
  | VList l => Ok (Z.of_nat (length l))
  | VDict items => Ok (Z.of_nat (length items))
  | _ => Raise TypeError
  end.

(** [v[i]] for an [int] index: lists and strings are indexed from either
    end; the keys of a [dict] are strings, so an [int] is never found. *)
Definition py_subscript (v : value) (i : Z) : result value :=
  match v with
  | VList l => py_getitem l i
  | VStr s =>
      let* c := py_getitem (list_ascii_of_string s) i in
      Ok (VStr (String c EmptyString))
  | VDict _ => Raise KeyError
  | _ => Raise TypeError
  end.

(** The objects a [for] loop over [v] goes through. *)
Definition py_iter (v : value) : result (list value) :=
  match v with
  | VList l => Ok l
  | VStr s => Ok (map (fun c => VStr (String c EmptyString)) (list_ascii_of_string s))
  | VDict items => Ok (map (fun kv => VStr (fst kv)) items)
  | _ => Raise TypeError
  end.

(** [x in v] for a [str] [x]: substring of a string, element of a list, key
    of a [dict]. *)
Definition py_in (x : string) (v : value) : result bool :=
  match v with
  | VStr s => Ok (py_in_str x s)
  | VList l =>
      Ok (existsb (fun y => match y with VStr s => String.eqb s x | _ => false end) l)
  | VDict items => Ok (existsb (fun kv => String.eqb (fst kv) x) items)
  | _ => Raise TypeError
  end.

(** [c.isspace()] for a code point below 256.  The white space from 256
    on is in [Wide.py_isspace], which is this test below 256
    ([WideFacts.py_isspace_narrow]). *)
Definition py_isspace (c : ascii) : bool :=
  let n := nat_of_ascii c in
  ((9 <=? n) && (n <=? 13) || (28 <=? n) && (n <=? 32) || (n =? 133) || (n =? 160))%nat.

Fixpoint py_lstrip (s : string) : string :=
  match s with
  | EmptyString => EmptyString
  | String c s' => if py_isspace c then py_lstrip s' else s
  end.

Definition string_rev (s : string) : string :=
  string_of_list_ascii (rev (list_ascii_of_string s)).

(** [s.strip()] *)
Definition py_strip (s : string) : string :=
  string_rev (py_lstrip (string_rev (py_lstrip s))).

(** [c.isdigit()] for a code point below 256: the ten digits and the
    superscripts one, two and three. *)
Definition py_isdigit_char (c : ascii) : bool :=
  let n := nat_of_ascii c in
  ((48 <=? n) && (n <=? 57) || (n =? 178) || (n =? 179) || (n =? 185))%nat.

(** [s.isdigit()] *)
Definition py_isdigit (s : string) : bool :=
  negb (String.eqb s "") && forallb py_isdigit_char (list_ascii_of_string s).

(** [s.replace('av', '')] *)
Fixpoint replace_av (s : string) : string :=
  match s with
  | EmptyString => EmptyString
  | String c s' =>
      match s' with
      | String c' s'' =>
          if Ascii.eqb c "a" && Ascii.eqb c' "v" then replace_av s''
          else String c (replace_av s')
      | EmptyString => s
      end
  end.

(** [v[k]] for a [str] key [k]: a [dict] gives the value stored under
    the key or raises [KeyError]; nothing else is subscripted by a string. *)
Definition py_subscript_key (v : value) (k : string) : result value :=
  match v with
  | VDict items =>
      match assoc k items with
      | Some x => Ok x
      | None => Raise KeyError
      end
  | _ => Raise TypeError
  end.

(** [s.split(sep)] for a separator of one character: the pieces between
    the occurrences of [sep], in order; there is always one piece. *)
Fixpoint py_split (sep : ascii) (s : string) : list string :=
  match s with
  | EmptyString => [EmptyString]
  | String c s' =>
      if Ascii.eqb c sep then EmptyString :: py_split sep s'
      else
        match py_split sep s' with
        | piece :: pieces => String c piece :: pieces
        | [] => [String c EmptyString]
        end
  end.

(** The two sides of the last occurrence of [sep] in [s], if there is
    one. *)
Fixpoint rsplit_once (sep : ascii) (s : string) : option (string * string) :=
  match s with
  | EmptyString => None
  | String c s' =>
      match rsplit_once sep s' with
      | Some (before, after) => Some (String c before, after)
      | None => if Ascii.eqb c sep then Some (EmptyString, s') else None
      end
  end.

(** [s.rsplit(sep, 1)] for a separator of one character. *)
Definition py_rsplit1 (sep : ascii) (s : string) : list string :=
  match rsplit_once sep s with
  | Some (before, after) => [before; after]
  | None => [s]
  end.

(** ** The signing keys *)

Module WbiKeys.

(** [url.rsplit("/", 1)[1].split(".")[0]]; only a [str] has [rsplit]. *)
Definition key_of_url (url : value) : result string :=
  match url with
  | VStr url =>
      let* name := py_getitem (py_rsplit1 "/" url) 1 in
      py_getitem (py_split "." name) 0
  | _ => Raise AttributeError
  end.

Section GetWbiKeys.

(** The exchange with the [nav] endpoint: [httpx.get(...)],
    [resp.raise_for_status()] and [resp.json()], which give the decoded
    document or raise. *)
Variable nav : result value.

Definition getWbiKeys : result (string * string) :=
  let* json_content := nav in
  let* data := py_subscript_key json_content "data" in
  let* wbi_img := py_subscript_key data "wbi_img" in
  let* img_url := py_subscript_key wbi_img "img_url" in
  let* data := py_subscript_key json_content "data" in
  let* wbi_img := py_subscript_key data "wbi_img" in
  let* sub_url := py_subscript_key wbi_img "sub_url" in
  let* img_key := key_of_url img_url in
  let* sub_key := key_of_url sub_url in
  Ok (img_key, sub_key).

Variable urlencode : Signer.dict string -> string.
Variable md5_hexdigest : string -> string.

(** [curr_time] is the [round(time.time())] of the call of [encWbi]. *)
Definition get_signed_params (params : Signer.dict Signer.param) (curr_time : Z)
  : result (Signer.dict string) :=
  let* keys := getWbiKeys in
  let (img_key, sub_key) := (keys : string * string) in
  Signer.encWbi urlencode md5_hexdigest params img_key sub_key curr_time.

End GetWbiKeys.

End WbiKeys.

(** ** The facade *)

Module Facade.

(** What the operations print, one constructor per [print] call of the
    source, with the values its f-string shows. *)
Inductive message : Type :=
  | InvalidVideoId (video_id : string)
  | ApiError (msg : value)
  | VideoInfoFailed (e : exn)
  | PagesFailed (e : exn)
  | WbiApiError (msg : value)
  | PlayerInfoFailed (e : exn)
  | FallbackApiError (msg : value)
  | FallbackFailed (e : exn)
  | SubtitleInfoFailed (e : exn)
  | DownloadFailed (e : exn)
  | InvalidPage (page : Z)
  | LanguageFallback (lang : string) (lan_doc : value)
  | NoSubtitle
  | EmptyUrl
  | SubtitleTextFailed (e : exn).

(** A computation that prints and then returns or raises. *)
Definition io (A : Type) : Type := (list message * result A)%type.

Definition ret {A : Type} (a : A) : io A := ([], Ok a).
Definition lift {A : Type} (r : result A) : io A := ([], r).
Definition print (m : message) : io unit := ([m], Ok tt).

Definition io_bind {A B : Type} (m : io A) (k : A -> io B) : io B :=
  match m with
  | (log, Ok a) => let (log', r) := k a in ((log ++ log')%list, r)
  | (log, Raise e) => (log, Raise e)
  end.

Notation "'let+' x ':=' e 'in' k" := (io_bind e (fun x => k))
  (at level 10, x name, e at level 100, k at level 200).

(** [try: body  except Exception as e: handler e] *)
Definition try_except {A : Type} (body : io A) (handler : exn -> io A) : io A :=
  match body with
  | (log, Ok a) => (log, Ok a)
  | (log, Raise e) => let (log', r) := handler e in ((log ++ log')%list, r)
  end.


(** The default of [data.get('message', ...)] and of
    [target_subtitle.get('lan_doc', ...)]. *)
Definition unknown_error : value := VStr "未知错误".
Definition unknown_language : value := VStr "未知语言".

Section Operations.

(** [self._make_request(url, params, use_wbi)]: the signing round trip,
    the HTTP exchange and the JSON decoding are outside the model.  The
    method returns the decoded document or raises [Exception], whatever
    failed inside; that is [Raise RequestFailed]. *)
Variable make_request :
  string -> option (list (string * value)) -> bool -> result value.

(** The built-in [int] on a [str]. *)
Variable py_int : string -> result Z.

Definition get_video_info_body (video_id : string) : io value :=
  let rest (bvid : string) (aid : Z) : io value :=
    let url := "https://api.bilibili.com/x/web-interface/view" in
    let params := [("bvid", VStr bvid)] in
    let+ data := lift (make_request url (Some params) true) in
    let+ code := lift (py_get data "code" VNone) in
    if py_ne_zero code then
      let+ msg := lift (py_get data "message" unknown_error) in
      let+ _ := print (ApiError msg) in
      ret VNone
    else
      let+ video_data := lift (py_get data "data" (VDict [])) in
      let+ v_aid := lift (py_get video_data "aid" VNone) in
      let+ v_bvid := lift (py_get video_data "bvid" VNone) in
      let+ v_title := lift (py_get video_data "title" VNone) in
      let+ v_desc := lift (py_get video_data "desc" VNone) in
      let+ v_duration := lift (py_get video_data "duration" VNone) in
      let+ v_pubdate := lift (py_get video_data "pubdate" VNone) in
      let+ v_owner := lift (py_get video_data "owner" (VDict [])) in
      let+ v_stat := lift (py_get video_data "stat" (VDict [])) in
      let+ v_pages := lift (py_get video_data "pages" (VList [])) in
      ret (VDict [ ("aid", v_aid); ("bvid", v_bvid); ("title", v_title);
                   ("desc", v_desc); ("duration", v_duration);
                   ("pubdate", v_pubdate); ("owner", v_owner);
                   ("stat", v_stat); ("pages", v_pages) ])
  in
  if String.prefix "BV" video_id then
    let bvid := video_id in
    let+ aid := lift (Codec.bvid2aid bvid) in
    rest bvid aid
  else if String.prefix "av" video_id || py_isdigit video_id then
    let+ aid := lift (py_int (replace_av video_id)) in
    let+ bvid := lift (Codec.aid2bvid aid) in
    rest bvid aid
  else
    let+ _ := print (InvalidVideoId video_id) in
    ret VNone.

Definition get_video_info (video_id : string) : io value :=
  try_except (get_video_info_body video_id)
    (fun e => let+ _ := print (VideoInfoFailed e) in ret VNone).

Definition get_video_pages_body (video_id : string) : io value :=
  let rest (bvid : string) (aid : Z) : io value :=
    let url := "https://api.bilibili.com/x/player/pagelist" in
    let params := [("bvid", VStr bvid)] in
    let+ data := lift (make_request url (Some params) false) in
    let+ code := lift (py_get data "code" VNone) in
    if py_ne_zero code then
      let+ msg := lift (py_get data "message" unknown_error) in
      let+ _ := print (ApiError msg) in
      ret VNone
    else
      lift (py_get data "data" (VList []))
  in
  if String.prefix "BV" video_id then
    let bvid := video_id in
    let+ aid := lift (Codec.bvid2aid bvid) in
    rest bvid aid
  else if String.prefix "av" video_id || py_isdigit video_id then
    let+ aid := lift (py_int (replace_av video_id)) in
    let+ bvid := lift (Codec.aid2bvid aid) in
    rest bvid aid
  else
    let+ _ := print (InvalidVideoId video_id) in
    ret VNone.

Definition get_video_pages (video_id : string) : io value :=
  try_except (get_video_pages_body video_id)
    (fun e => let+ _ := print (PagesFailed e) in ret VNone).

Definition _get_player_info_fallback_body (aid : Z) (cid : value) : io value :=
  let url := "https://api.bilibili.com/x/player/v2" in
  let params := [("aid", VInt aid); ("cid", cid)] in
  let+ data := lift (make_request url (Some params) false) in
  let+ code := lift (py_get data "code" VNone) in
  if py_ne_zero code then
    let+ msg := lift (py_get data "message" unknown_error) in
    let+ _ := print (FallbackApiError msg) in
    ret VNone
  else
    lift (py_get data "data" (VDict [])).

Definition _get_player_info_fallback (aid : Z) (cid : value) : io value :=
  try_except (_get_player_info_fallback_body aid cid)
    (fun e => let+ _ := print (FallbackFailed e) in ret VNone).

(** The [except] branch of [get_player_info].  [aid_local] is the local
    variable [aid] if the [try] block had assigned it when the exception
    came; otherwise the handler calls [bvid2aid] itself, outside any
    [try]: an exception of that call leaves [get_player_info]. *)
Definition get_player_info_handler (video_id : string) (cid : value)
    (aid_local : option Z) (e : exn) : io value :=
  let+ _ := print (PlayerInfoFailed e) in
  let+ aid := match aid_local with
              | Some aid => ret aid
              | None => lift (Codec.bvid2aid video_id)
              end in
  _get_player_info_fallback aid cid.

Definition get_player_info (video_id : string) (cid : value) : io value :=
  let rest (bvid : string) (aid : Z) : io value :=
    let url := "https://api.bilibili.com/x/player/wbi/v2" in
    let params := [("bvid", VStr bvid); ("cid", cid)] in
    let+ data := lift (make_request url (Some params) true) in
    let+ code := lift (py_get data "code" VNone) in
    if py_ne_zero code then
      let+ msg := lift (py_get data "message" unknown_error) in
      let+ _ := print (WbiApiError msg) in
      _get_player_info_fallback aid cid
    else
      lift (py_get data "data" (VDict []))
  in
  if String.prefix "av" video_id || py_isdigit video_id then
    match py_int (replace_av video_id) with
    | Raise e => get_player_info_handler video_id cid None e
    | Ok aid =>
        try_except
          (let+ bvid := lift (Codec.aid2bvid aid) in rest bvid aid)
          (get_player_info_handler video_id cid (Some aid))
    end
  else
    let bvid := video_id in
    match Codec.bvid2aid video_id with
    | Raise e => get_player_info_handler video_id cid None e
    | Ok aid =>
        try_except (rest bvid aid)
          (get_player_info_handler video_id cid (Some aid))
    end.

Definition get_subtitle_info_body (video_id : string) (cid : value) : io value :=
  let+ player_info := get_player_info video_id cid in
  if negb (py_truthy player_info) then ret VNone
  else
    let+ subtitle_info := lift (py_get player_info "subtitle" (VDict [])) in
    let+ subtitles := lift (py_get subtitle_info "subtitles" (VList [])) in
    ret subtitles.

Definition get_subtitle_info (video_id : string) (cid : value) : io value :=
  try_except (get_subtitle_info_body video_id cid)
    (fun e => let+ _ := print (SubtitleInfoFailed e) in ret VNone).

(** [subtitle_url] is whatever [target_subtitle.get('subtitle_url')]
    gave; only a [str] has [startswith]. *)
Definition download_subtitle_body (subtitle_url : value) : io value :=
  match subtitle_url with
  | VStr url =>
      let url := if String.prefix "//" url then "https:" ++ url else url in
      let+ data := lift (make_request url None true) in
      lift (py_get data "body" (VList []))
  | _ => lift (Raise AttributeError)
  end.

Definition download_subtitle (subtitle_url : value) : io value :=
  try_except (download_subtitle_body subtitle_url)
    (fun e => let+ _ := print (DownloadFailed e) in ret VNone).

(** [for subtitle in subtitle_info: if lang in subtitle.get('lan', ''):
    target_subtitle = subtitle; break], from [target_subtitle = None]. *)
Fixpoint find_subtitle (lang : string) (subtitle_info : list value) : result value :=
  match subtitle_info with
  | [] => Ok VNone
  | subtitle :: rest =>
      let* lan := py_get subtitle "lan" (VStr "") in
      let* found := py_in lang lan in
      if found then Ok subtitle else find_subtitle lang rest
  end.

(** The choice of the track: the loop, then the replacement of a false
    [target_subtitle] by [subtitle_info[0]]. *)
Definition select_subtitle (lang : string) (subtitle_info : value) : io value :=
  let+ subtitles := lift (py_iter subtitle_info) in
  let+ target_subtitle := lift (find_subtitle lang subtitles) in
  if negb (py_truthy target_subtitle) && py_truthy subtitle_info then
    let+ target_subtitle := lift (py_subscript subtitle_info 0) in
    let+ lan_doc := lift (py_get target_subtitle "lan_doc" unknown_language) in
    let+ _ := print (LanguageFallback lang lan_doc) in
    ret target_subtitle
  else
    ret target_subtitle.

(** [for item in subtitle_content: content = item.get('content',
    '').strip(); if content: subtitle_text += content + '\n'] *)
Fixpoint join_contents (subtitle_content : list value) (subtitle_text : string)
  : result string :=
  match subtitle_content with
  | [] => Ok subtitle_text
  | item :: rest =>
      let* raw := py_get item "content" (VStr "") in
      match raw with
      | VStr raw =>
          let content := py_strip raw in
          if negb (String.eqb content "")
          then join_contents rest (subtitle_text ++ content ++ String "010" "")
          else join_contents rest subtitle_text
      | _ => Raise AttributeError
      end
  end.

(** From the chosen track to the text: the end of [get_video_subtitle],
    after the choice. *)
Definition fetch_text (target_subtitle : value) : io value :=
  if negb (py_truthy target_subtitle) then
    let+ _ := print NoSubtitle in
    ret VNone
  else
    let+ subtitle_url := lift (py_get target_subtitle "subtitle_url" VNone) in
    if negb (py_truthy subtitle_url) then
      let+ _ := print EmptyUrl in
      ret VNone
    else
      let+ subtitle_content := download_subtitle subtitle_url in
      if negb (py_truthy subtitle_content) then ret VNone
      else
        let+ items := lift (py_iter subtitle_content) in
        let+ subtitle_text := lift (join_contents items "") in
        ret (VStr (py_strip subtitle_text)).

Definition get_video_subtitle_body (video_id : string) (page : Z) (lang : string)
  : io value :=
  let+ pages := get_video_pages video_id in
  let+ too_large :=
    if negb (py_truthy pages) then ret true
    else let+ n := lift (py_len pages) in ret (page >? n) in
  if (too_large : bool) then
    let+ _ := print (InvalidPage page) in
    ret VNone
  else
    let+ the_page := lift (py_subscript pages (page - 1)) in
    let+ cid := lift (py_get the_page "cid" VNone) in
    let+ subtitle_info := get_subtitle_info video_id cid in
    if negb (py_truthy subtitle_info) then ret VNone
    else
      let+ target_subtitle := select_subtitle lang subtitle_info in
      fetch_text target_subtitle.

Definition get_video_subtitle (video_id : string) (page : Z) (lang : string)
  : io value :=
  try_except (get_video_subtitle_body video_id page lang)
    (fun e => let+ _ := print (SubtitleTextFailed e) in ret VNone).

End Operations.

End Facade.

(** ** The subtitle file read directly *)

Module Content.

(** What [get_subtitle_content] prints: the one [print] of its [except]
    branch. *)
Inductive message : Type :=
  | ContentFailed (e : exn).

(** [item['content'] + "\n"]: a [str] is extended, any other object makes
    [+] raise [TypeError]. *)
Definition add_newline (v : value) : result string :=
  match v with
  | VStr s => Ok (s ++ String "010" "")
  | _ => Raise TypeError
  end.

(** [for item in subtitle_data['body']: if 'content' in item:
    subtitle_text += item['content'] + "\n"] *)
Fixpoint concat_contents (body : list value) (subtitle_text : string)
  : result string :=
  match body with
  | [] => Ok subtitle_text
  | item :: rest =>
      let* present := py_in "content" item in
      if (present : bool) then
        let* raw := py_subscript_key item "content" in
        let* line := add_newline raw in
        concat_contents rest (subtitle_text ++ line)
      else concat_contents rest subtitle_text
  end.


Section GetSubtitleContent.

(** [client.get(url)], [response.raise_for_status()] and [response.text]
    on a client built from the headers and the cookies; then
    [json.loads]. *)
Variable http_get_text : string -> result string.
Variable json_loads : string -> result value.



End GetSubtitleContent.

End Content.

(** ** The state of the credentials *)

Module Status.


End Status.

(** ** Text of any characters *)

(** The facade above reads a [str] as a string of code points below 256,
    which is all an identifier, a key or an address needs.  The text of a
    subtitle is of any characters: the definitions below read a [str] as
    the list of its code points, of any size, for the lines of
    [get_video_subtitle] and of [get_subtitle_content] that build the
    text.  [widen] carries the values above into these, and on them the two
    readings agree ([WideFacts.join_contents_widen]). *)

Module Wide.

(** A [str]: its code points, in order. *)
Definition ustring : Type := list N.

(** The code points of a string of the narrow reading; a literal of the
    source is written so. *)
Definition of_string (s : string) : ustring :=
  map N_of_ascii (list_ascii_of_string s).

#[warnings="-register-all"]
Inductive uvalue : Type :=
  | UNone
  | UBool (b : bool)
  | UInt (n : Z)
  | UStr (s : ustring)
  | UList (l : list uvalue)
  | UDict (items : list (ustring * uvalue)).

Fixpoint widen (v : value) : uvalue :=
  match v with
  | VNone => UNone
  | VBool b => UBool b
  | VInt n => UInt n
  | VStr s => UStr (of_string s)
  | VList l => UList (map widen l)
  | VDict items => UDict (map (fun kv => (of_string (fst kv), widen (snd kv))) items)
  end.

Fixpoint ustring_eqb (a b : ustring) : bool :=
  match a, b with
  | [], [] => true
  | x :: a', y :: b' => N.eqb x y && ustring_eqb a' b'
  | _, _ => false
  end.

Fixpoint uassoc (k : ustring) (items : list (ustring * uvalue)) : option uvalue :=
  match items with
  | [] => None
  | (k', v) :: rest => if ustring_eqb k' k then Some v else uassoc k rest
  end.

(** [d.get(k, dflt)]; only a [dict] has the method. *)
Definition py_get (d : uvalue) (k : ustring) (dflt : uvalue) : result uvalue :=
  match d with
  | UDict items => Ok (default dflt (uassoc k items))
  | _ => Raise AttributeError
  end.

(** [v[k]] for a [str] key. *)
Definition py_subscript_key (v : uvalue) (k : ustring) : result uvalue :=
  match v with
  | UDict items =>
      match uassoc k items with
      | Some x => Ok x
      | None => Raise KeyError
      end
  | _ => Raise TypeError
  end.

(** The objects a [for] loop over [v] goes through. *)
Definition py_iter (v : uvalue) : result (list uvalue) :=
  match v with
  | UList l => Ok l
  | UStr s => Ok (map (fun c => UStr [c]) s)
  | UDict items => Ok (map (fun kv => UStr (fst kv)) items)
  | _ => Raise TypeError
  end.

Fixpoint uprefix (a b : ustring) : bool :=
  match a, b with
  | [], _ => true
  | x :: a', y :: b' => N.eqb x y && uprefix a' b'
  | _ :: _, [] => false
  end.

(** [sub in s] for two [str]. *)
Fixpoint py_in_str (sub s : ustring) : bool :=
  uprefix sub s ||
  match s with
  | [] => false
  | _ :: s' => py_in_str sub s'
  end.

(** [x in v] for a [str] [x]. *)
Definition py_in (x : ustring) (v : uvalue) : result bool :=
  match v with
  | UStr s => Ok (py_in_str x s)
  | UList l =>
      Ok (existsb (fun y => match y with UStr s => ustring_eqb s x | _ => false end) l)
  | UDict items => Ok (existsb (fun kv => ustring_eqb (fst kv) x) items)
  | _ => Raise TypeError
  end.

(** [c.isspace()], which is also the test of [strip]: the 29 white space
    characters of Unicode. *)
Definition py_isspace (c : N) : bool :=
  ((9 <=? c) && (c <=? 13) || (28 <=? c) && (c <=? 32) ||
   (c =? 133) || (c =? 160) || (c =? 5760) ||
   (8192 <=? c) && (c <=? 8202) ||
   (c =? 8232) || (c =? 8233) || (c =? 8239) || (c =? 8287) || (c =? 12288))%N.

Fixpoint py_lstrip (s : ustring) : ustring :=
  match s with
  | [] => []
  | c :: s' => if py_isspace c then py_lstrip s' else s
  end.

(** [s.strip()] *)
Definition py_strip (s : ustring) : ustring :=
  rev (py_lstrip (rev (py_lstrip s))).

(** The line feed. *)
Definition newline : ustring := [10%N].

(** [sep.join(l)] *)
Fixpoint py_join (sep : ustring) (l : list ustring) : ustring :=
  match l with
  | [] => []
  | x :: l' =>
      match l' with
      | [] => x
      | _ :: _ => (x ++ sep ++ py_join sep l')%list
      end
  end.

(** [not s] for a [str] *)
Definition is_empty (s : ustring) : bool :=
  match s with
  | [] => true
  | _ :: _ => false
  end.

(** In [get_video_subtitle]: [for item in subtitle_content: content =
    item.get('content', '').strip(); if content: subtitle_text += content +
    '\n'] *)
Fixpoint join_contents (subtitle_content : list uvalue) (subtitle_text : ustring)
  : result ustring :=
  match subtitle_content with
  | [] => Ok subtitle_text
  | item :: rest =>
      let* raw := py_get item (of_string "content") (UStr []) in
      match raw with
      | UStr raw =>
          let content := py_strip raw in
          if negb (is_empty content)
          then join_contents rest (subtitle_text ++ content ++ newline)%list
          else join_contents rest subtitle_text
      | _ => Raise AttributeError
      end
  end.

(** The end of [get_video_subtitle], from [subtitle_text = ''] to
    [return subtitle_text.strip()], on the body that was downloaded. *)
Definition flatten (subtitle_content : uvalue) : result ustring :=
  let subtitle_text := [] in
  let* items := py_iter subtitle_content in
  let* subtitle_text := join_contents items subtitle_text in
  Ok (py_strip subtitle_text).

(** [item['content'] + "\n"] *)
Definition add_newline (v : uvalue) : result ustring :=
  match v with
  | UStr s => Ok (s ++ newline)%list
  | _ => Raise TypeError
  end.

(** In [get_subtitle_content]: [for item in subtitle_data['body']: if
    'content' in item: subtitle_text += item['content'] + "\n"] *)
Fixpoint concat_contents (body : list uvalue) (subtitle_text : ustring)
  : result ustring :=
  match body with
  | [] => Ok subtitle_text
  | item :: rest =>
      let* present := py_in (of_string "content") item in
      if (present : bool) then
        let* raw := py_subscript_key item (of_string "content") in
        let* line := add_newline raw in
        concat_contents rest (subtitle_text ++ line)%list
      else concat_contents rest subtitle_text
  end.

(** The end of the [try] block of [get_subtitle_content], from
    [subtitle_text = ""] to [return subtitle_text.strip()], on the document
    that [json.loads] gave. *)
Definition text_of_document (subtitle_data : uvalue) : result ustring :=
  let subtitle_text := [] in
  let* has_body := py_in (of_string "body") subtitle_data in
  let* subtitle_text :=
    if (has_body : bool) then
      let* body := py_subscript_key subtitle_data (of_string "body") in
      let* items := py_iter body in
      concat_contents items subtitle_text
    else Ok subtitle_text in
  Ok (py_strip subtitle_text).

(** *** Readings of a body *)

(** The text of an item, [item.get('content', '')]. *)
Definition content_of (item : uvalue) : ustring :=
  match item with
  | UDict items =>
      match uassoc (of_string "content") items with
      | Some (UStr s) => s
      | _ => []
      end
  | _ => []
  end.

(** An item of a subtitle body: a [dict] whose text, if present, is a
    [str]. *)
Definition is_line (item : uvalue) : Prop :=
  exists items,
    item = UDict items /\
    (uassoc (of_string "content") items = None \/
     exists s, uassoc (of_string "content") items = Some (UStr s)).

(** The lines of the flattened text: the trimmed texts that are not
    empty. *)
Definition lines_of (items : list uvalue) : list ustring :=
  List.filter (fun s => negb (is_empty s))
              (map (fun item => py_strip (content_of item)) items).

(** A text whose first character is not white space. *)
Definition starts_black (s : ustring) : Prop :=
  match s with
  | [] => False
  | c :: _ => py_isspace c = false
  end.

(** A text that is not empty and has no white space at either end. *)
Definition solid (s : ustring) : Prop :=
  starts_black s /\ starts_black (rev s).


(** What a computation on the narrow reading gives, widened. *)
Definition widen_text (r : result string) : result ustring :=
  match r with
  | Ok s => Ok (of_string s)
  | Raise e => Raise e
  end.

End Wide.

(** ** Specification-side readings of a track list *)

Module Tracks.

(** The language tag of a track, [subtitle.get('lan', '')]. *)
Definition lan_of (track : value) : string :=
  match track with
  | VDict items =>
      match assoc "lan" items with
      | Some (VStr s) => s
      | _ => ""
      end
  | _ => ""
  end.

(** A track descriptor: a [dict] whose language tag, if present, is a
    string. *)
Definition is_track (track : value) : Prop :=
  exists items,
    track = VDict items /\
    (assoc "lan" items = None \/ exists s, assoc "lan" items = Some (VStr s)).

(** The first track whose tag contains [lang], else the first track. *)
Definition chosen (lang : string) (tracks : list value) : value :=
  default (hd VNone tracks)
          (List.find (fun track => py_in_str lang (lan_of track)) tracks).

End Tracks.

(** ** Specification-side reading of the result of [get_video_info] *)

Module InfoSpec.

(** The keys of the [dict] that [get_video_info] builds, in order. *)
Definition info_keys : list string :=
  [ "aid"; "bvid"; "title"; "desc"; "duration"; "pubdate"; "owner"; "stat"; "pages" ].

(** [None], or a [dict] with exactly these keys. *)
Definition is_info (v : value) : Prop :=
  v = VNone \/ exists items, v = VDict items /\ map fst items = info_keys.

(** A computation that, when it returns, returns such a value. *)
Definition returns_info (m : Facade.io value) : Prop :=
  forall log v, m = (log, Ok v) -> is_info v.

End InfoSpec.

(** ** A remote side to run the operations against *)

Module Scenario.

(** [int(s)] on a string of ASCII digits; every other string is refused
    here, which is all the scenarios below need. *)
Fixpoint parse_digits (s : list ascii) (acc : Z) : result Z :=
  match s with
  | [] => Ok acc
  | c :: rest =>
      let n := Z.of_nat (nat_of_ascii c) in
      if (48 <=? n) && (n <=? 57) then parse_digits rest (acc * 10 + (n - 48))
      else Raise ValueError
  end.

Definition py_int (s : string) : result Z :=
  match s with
  | EmptyString => Raise ValueError
  | _ => parse_digits (list_ascii_of_string s) 0
  end.

Definition ok_response (data : value) : value :=
  VDict [("code", VInt 0); ("message", VStr "0"); ("data", data)].

Definition track (lan lan_doc url : string) : value :=
  VDict [("lan", VStr lan); ("lan_doc", VStr lan_doc); ("subtitle_url", VStr url)].

Definition player (tracks : list value) : value :=
  ok_response (VDict [("subtitle", VDict [("subtitles", VList tracks)])]).

Definition body (lines : list string) : value :=
  VDict [("body", VList (map (fun s => VDict [("content", VStr s)]) lines))].

(** A video of two parts, with one Chinese track each. *)
Definition two_parts (url : string) (params : option (list (string * value)))
    (use_wbi : bool) : result value :=
  if String.eqb url "https://api.bilibili.com/x/player/pagelist" then
    Ok (ok_response (VList [ VDict [("cid", VInt 101); ("page", VInt 1)];
                             VDict [("cid", VInt 102); ("page", VInt 2)] ]))
  else if String.eqb url "https://api.bilibili.com/x/player/wbi/v2" then
    match assoc "cid" (default [] params) with
    | Some (VInt 101) => Ok (player [track "zh-CN" "Chinese" "//subtitle.example/1.json"])
    | Some (VInt 102) => Ok (player [track "zh-CN" "Chinese" "//subtitle.example/2.json"])
    | _ => Raise RequestFailed
    end
  else if String.eqb url "https://subtitle.example/1.json" then
    Ok (body ["part one"])
  else if String.eqb url "https://subtitle.example/2.json" then
    Ok (body ["part two"])
  else Raise RequestFailed.

(** A video of one part with three tracks. *)
Definition three_tracks (url : string) (params : option (list (string * value)))
    (use_wbi : bool) : result value :=
  if String.eqb url "https://api.bilibili.com/x/player/pagelist" then
    Ok (ok_response (VList [ VDict [("cid", VInt 101); ("page", VInt 1)] ]))
  else if String.eqb url "https://api.bilibili.com/x/player/wbi/v2" then
    Ok (player [ track "en-US" "English" "//subtitle.example/e.json";
                 track "ai-zh" "Chinese (auto)" "//subtitle.example/a.json";
                 track "zh-CN" "Chinese" "//subtitle.example/z.json" ])
  else if String.eqb url "https://subtitle.example/e.json" then
    Ok (body ["english"])
  else if String.eqb url "https://subtitle.example/a.json" then
    Ok (body ["generated chinese"])
  else if String.eqb url "https://subtitle.example/z.json" then
    Ok (body ["chinese"])
  else Raise RequestFailed.

(** A video of one part without any subtitle track. *)
Definition no_tracks (url : string) (params : option (list (string * value)))
    (use_wbi : bool) : result value :=
  if String.eqb url "https://api.bilibili.com/x/player/pagelist" then
    Ok (ok_response (VList [ VDict [("cid", VInt 101); ("page", VInt 1)] ]))
  else if String.eqb url "https://api.bilibili.com/x/player/wbi/v2" then
    Ok (player [])
  else Raise RequestFailed.

(** A remote side that answers nothing. *)
Definition unreachable (url : string) (params : option (list (string * value)))
    (use_wbi : bool) : result value :=
  Raise RequestFailed.

(** A digest that ignores its input and a query string that ignores the
    parameters, to run [encWbi] where neither matters. *)
Definition constant_digest (s : string) : string := "00000000000000000000000000000000".
Definition constant_query (params : Signer.dict string) : string := "".

Definition img_key : string := "7cd084941338484aae1ad9425b84077c".
Definition sub_key : string := "4932caff0ff746eab6f01bf08b70ac45".

(** The document of the [nav] endpoint, with the two addresses the keys
    above are the file names of. *)
Definition nav_document : value :=
  VDict [ ("code", VInt 0);
          ("data",
           VDict [ ("isLogin", VBool true);
                   ("wbi_img",
                    VDict [ ("img_url",
                             VStr "https://i0.hdslb.com/bfs/wbi/7cd084941338484aae1ad9425b84077c.png");
                            ("sub_url",
                             VStr "https://i0.hdslb.com/bfs/wbi/4932caff0ff746eab6f01bf08b70ac45.png") ]) ]) ].

(** A remote side that knows the title of one video and nothing else. *)
Definition titled (url : string) (params : option (list (string * value)))
    (use_wbi : bool) : result value :=
  if String.eqb url "https://api.bilibili.com/x/web-interface/view" then
    Ok (ok_response (VDict [("aid", VInt 80433022); ("title", VStr "A title")]))
  else Raise RequestFailed.



End Scenario.

(* ================================================================== *)
(** * Properties *)

(** ** Known vectors *)

Example bvid2aid_demo : Codec.bvid2aid "BV1GJ411x7h7" = Ok 80433022.
Proof. vm_compute. reflexivity. Qed.

Example aid2bvid_demo : Codec.aid2bvid 80433022 = Ok "BV1GJ411x7h7".
Proof. vm_compute. reflexivity. Qed.

Example aid2bvid_170001 : Codec.aid2bvid 170001 = Ok "BV17x411w7KC".
Proof. vm_compute. reflexivity. Qed.

(** ** Codec: arithmetic of the mask *)

Module CodecFacts.
Import Codec CodecSpec.

Lemma MAX_AID_pow2 : MAX_AID = 2 ^ 51.
Proof. reflexivity. Qed.

Lemma MASK_CODE_ones : MASK_CODE = Z.ones 51.
Proof. reflexivity. Qed.

Lemma XOR_CODE_small : XOR_CODE mod 2 ^ 51 = XOR_CODE.
Proof. reflexivity. Qed.

Lemma lxor_mod_pow2 (a b : Z) :
  Z.lxor a b mod 2 ^ 51 = Z.lxor (a mod 2 ^ 51) (b mod 2 ^ 51).
Proof.
  rewrite <- !Z.land_ones by lia.
  apply Z.bits_inj'. intros n Hn.
  rewrite Z.lxor_spec, !Z.land_spec, Z.lxor_spec.
  destruct (Z.testbit (Z.ones 51) n); rewrite ?andb_true_r, ?andb_false_r; reflexivity.
Qed.

Lemma lxor_small (a : Z) :
  0 <= a < 2 ^ 51 -> 0 <= Z.lxor a XOR_CODE < 2 ^ 51.
Proof.
  intros Ha.
  assert (E : Z.lxor a XOR_CODE = Z.lxor a XOR_CODE mod 2 ^ 51).
  { rewrite lxor_mod_pow2, XOR_CODE_small, Z.mod_small by lia. reflexivity. }
  rewrite E. apply Z.mod_pos_bound. lia.
Qed.

Lemma land_top_small (a : Z) : 0 <= a < 2 ^ 51 -> Z.land (2 ^ 51) a = 0.
Proof.
  intros Ha. apply Z.bits_inj'. intros n Hn.
  rewrite Z.land_spec, Z.bits_0, Z.pow2_bits_eqb by lia.
  destruct (Z.eqb_spec 51 n) as [<- | Hne]; [ | reflexivity ].
  replace a with (a mod 2 ^ 51) by (apply Z.mod_small; lia).
  rewrite Z.mod_pow2_bits_high by lia. reflexivity.
Qed.

Lemma top_plus (a : Z) : 0 <= a < 2 ^ 51 -> Z.lor (2 ^ 51) a = 2 ^ 51 + a.
Proof.
  intros Ha. rewrite Z.add_nocarry_lxor by (apply land_top_small; exact Ha).
  symmetry. apply Z.lxor_lor, land_top_small, Ha.
Qed.

(** The value the encoder divides: [2^51] plus the masked identifier. *)
Lemma encoder_tmp (aid : Z) :
  0 <= aid < 2 ^ 51 ->
  Z.lxor (Z.lor MAX_AID aid) XOR_CODE = 2 ^ 51 + Z.lxor aid XOR_CODE.
Proof.
  intros Ha. rewrite MAX_AID_pow2, top_plus by exact Ha.
  rewrite (Z.add_nocarry_lxor (2 ^ 51) aid) by (apply land_top_small; exact Ha).
  rewrite Z.lxor_assoc.
  symmetry. apply Z.add_nocarry_lxor, land_top_small, lxor_small, Ha.
Qed.

(** What the decoder makes of an accumulator in the encoder's range. *)
Lemma decoder_unmask (aid : Z) :
  0 <= aid < 2 ^ 51 ->
  Z.lxor (Z.land (2 ^ 51 + Z.lxor aid XOR_CODE) MASK_CODE) XOR_CODE = aid.
Proof.
  intros Ha. pose proof (lxor_small aid Ha) as Hx.
  rewrite MASK_CODE_ones, Z.land_ones by lia.
  replace (2 ^ 51 + Z.lxor aid XOR_CODE) with (Z.lxor aid XOR_CODE + 1 * 2 ^ 51) by lia.
  rewrite Z.mod_add, Z.mod_small by lia.
  rewrite Z.lxor_assoc, Z.lxor_nilpotent, Z.lxor_0_r. reflexivity.
Qed.

(** ** Codec: the digit table *)

Lemma data_length : length data = 58%nat.
Proof. reflexivity. Qed.

Lemma getitem_data (d : Z) :
  0 <= d < 58 -> py_getitem data d = Ok (digit d).
Proof.
  intros Hd. unfold py_getitem, py_norm_index, digit.
  rewrite data_length.
  replace (0 <=? d) with true by (symmetry; apply Z.leb_le; lia).
  replace (d <? Z.of_nat 58) with true by (symmetry; apply Z.ltb_lt; lia).
  cbn [andb bind].
  destruct (data !! Z.to_nat d) as [c | ] eqn:E; [ reflexivity | ].
  apply lookup_ge_None in E. rewrite data_length in E. lia.
Qed.

(** [data.index] undoes [data[...]]: the table has no repeated entry. *)
Lemma index_digit_nat (n : nat) :
  (n < 58)%nat -> py_index data (digit (Z.of_nat n)) = Ok (Z.of_nat n).
Proof.
  intros Hn.
  do 58 (destruct n as [ | n]; [ vm_compute; reflexivity | ]).
  lia.
Qed.

Lemma index_digit (d : Z) :
  0 <= d < 58 -> py_index data (digit d) = Ok d.
Proof.
  intros Hd. rewrite <- (Z2Nat.id d) by lia. apply index_digit_nat. lia.
Qed.

Lemma index_from_bounds (x : ascii) (l : list ascii) (pos d : Z) :
  index_from x l pos = Ok d ->
  pos <= d < pos + Z.of_nat (length l) /\ l !! Z.to_nat (d - pos) = Some x.
Proof.
  revert pos. induction l as [ | y l IH]; intros pos H; cbn in H.
  - discriminate.
  - destruct (Ascii.eqb_spec y x) as [-> | Hne].
    + injection H as <-. rewrite Z.sub_diag. cbn. split; [ lia | reflexivity ].
    + apply IH in H. destruct H as [Hb Hl]. cbn [length]. split; [ lia | ].
      replace (Z.to_nat (d - pos)) with (S (Z.to_nat (d - (pos + 1)))) by lia.
      exact Hl.
Qed.

(** [data[...]] undoes [data.index]. *)
Lemma digit_index (c : ascii) (d : Z) :
  py_index data c = Ok d -> 0 <= d < 58 /\ digit d = c.
Proof.
  intros H. apply index_from_bounds in H. rewrite data_length in H.
  destruct H as [Hb Hl]. split; [ lia | ].
  unfold digit. rewrite Z.sub_0_r in Hl. rewrite Hl. reflexivity.
Qed.

(** ** Codec: the encoder's loop *)

Lemma aid2bvid_loop_step (fuel : nat) (tmp bv_idx : Z) (l : list ascii) :
  tmp <> 0 ->
  aid2bvid_loop (S fuel) tmp bv_idx l =
  (let* c := py_getitem data (tmp mod BASE) in
   let* l' := py_setitem l bv_idx c in
   aid2bvid_loop fuel (tmp / BASE) (bv_idx - 1) l').
Proof.
  intros H. cbn [aid2bvid_loop].
  destruct (Z.eqb_spec tmp 0); [ contradiction | reflexivity ].
Qed.

Lemma div58_bounds (a b t : Z) :
  58 * a <= t < 58 * b -> a <= t / 58 < b.
Proof.
  intros [Hl Hu]. split.
  - apply Z.div_le_lower_bound; lia.
  - apply Z.div_lt_upper_bound; lia.
Qed.


Lemma nth_digit_range (t i : Z) : 0 <= nth_digit t i < 58.
Proof. unfold nth_digit. apply Z.mod_pos_bound. lia. Qed.


Lemma aid2bvid_loop_nine (t : Z) :
  58 ^ 8 <= t < 58 ^ 9 ->
  aid2bvid_loop aid2bvid_fuel t (BV_LEN - 1) (list_ascii_of_string "BV1000000000")
  = Ok (filled t).
Proof.
  intros Ht. unfold aid2bvid_fuel, BV_LEN, BASE.
  change (58 ^ 8) with 128063081718016 in Ht.
  change (58 ^ 9) with 7427658739644928 in Ht.
  assert (H0 : 2207984167552 <= t / 58 < 128063081718016)
    by (apply div58_bounds; lia).
  assert (H1 : 38068692544 <= t / 58 / 58 < 2207984167552)
    by (apply div58_bounds; lia).
  assert (H2 : 656356768 <= t / 58 / 58 / 58 < 38068692544)
    by (apply div58_bounds; lia).
  assert (H3 : 11316496 <= t / 58 / 58 / 58 / 58 < 656356768)
    by (apply div58_bounds; lia).
  assert (H4 : 195112 <= t / 58 / 58 / 58 / 58 / 58 < 11316496)
    by (apply div58_bounds; lia).
  assert (H5 : 3364 <= t / 58 / 58 / 58 / 58 / 58 / 58 < 195112)
    by (apply div58_bounds; lia).
  assert (H6 : 58 <= t / 58 / 58 / 58 / 58 / 58 / 58 / 58 < 3364)
    by (apply div58_bounds; lia).
  assert (H7 : 1 <= t / 58 / 58 / 58 / 58 / 58 / 58 / 58 / 58 < 58)
    by (apply div58_bounds; lia).
  assert (H9 : t / 58 / 58 / 58 / 58 / 58 / 58 / 58 / 58 / 58 = 0)
    by (apply Z.div_small; lia).
  do 9 (rewrite aid2bvid_loop_step by lia;
        rewrite getitem_data by (apply Z.mod_pos_bound; lia);
        cbn [bind]; unfold BASE;
        match goal with
        | |- context [py_setitem ?l ?i ?c] =>
            change (py_setitem l i c) with (Ok (<[Z.to_nat i := c]> l))
        end;
        cbn [bind]).
  cbn [aid2bvid_loop]. rewrite H9. cbn.
  unfold filled, nth_digit. cbn [map app list_ascii_of_string].
  rewrite !Z.div_div by lia. rewrite Z.div_1_r.
  reflexivity.
Qed.

(** ** Codec: the loop of the decoder *)


Lemma bvid2aid_loop_digits (ds : list Z) (acc : Z) :
  Forall (fun d => 0 <= d < 58) ds ->
  bvid2aid_loop (map digit ds) acc = Ok (horner ds acc).
Proof.
  intros H. revert acc. induction H as [ | d ds Hd _ IH]; intros acc.
  - reflexivity.
  - cbn [map bvid2aid_loop]. rewrite index_digit by exact Hd.
    cbn [bind]. rewrite IH. reflexivity.
Qed.

(** The decoder's loop succeeds exactly on lists of table entries, and then
    the list is the image of its digits. *)
Lemma bvid2aid_loop_inv (cs : list ascii) (acc r : Z) :
  bvid2aid_loop cs acc = Ok r ->
  exists ds, Forall (fun d => 0 <= d < 58) ds /\ cs = map digit ds /\ r = horner ds acc.
Proof.
  revert acc. induction cs as [ | c cs IH]; intros acc H; cbn [bvid2aid_loop] in H.
  - injection H as <-. exists []. repeat split. constructor.
  - destruct (py_index data c) as [d | e] eqn:E; cbn [bind] in H; [ | discriminate ].
    apply digit_index in E. destruct E as [Hd Hc].
    apply IH in H. destruct H as (ds & Hds & -> & ->).
    exists (d :: ds). repeat split.
    + constructor; assumption.
    + cbn. rewrite Hc. reflexivity.
Qed.

Lemma index_from_total (x : ascii) (l : list ascii) (pos : Z) :
  In x l -> exists d, index_from x l pos = Ok d.
Proof.
  revert pos. induction l as [ | y l IH]; intros pos H; cbn.
  - destruct H.
  - destruct (Ascii.eqb_spec y x) as [_ | Hne]; [ eexists; reflexivity | ].
    destruct H as [H | H]; [ contradiction | ]. apply IH, H.
Qed.

Lemma index_from_absent (x : ascii) (l : list ascii) (pos : Z) :
  ~ In x l -> index_from x l pos = Raise ValueError.
Proof.
  revert pos. induction l as [ | y l IH]; intros pos H; cbn.
  - reflexivity.
  - destruct (Ascii.eqb_spec y x) as [-> | Hne].
    + exfalso. apply H. left. reflexivity.
    + apply IH. intros Hin. apply H. right. exact Hin.
Qed.

Lemma bvid2aid_loop_total (cs : list ascii) (acc : Z) :
  Forall (fun c => In c data) cs -> exists r, bvid2aid_loop cs acc = Ok r.
Proof.
  intros H. revert acc.
  induction H as [ | c cs Hc _ IH]; intros acc; cbn [bvid2aid_loop].
  - eexists. reflexivity.
  - destruct (index_from_total c data 0 Hc) as [d Hd].
    unfold py_index. rewrite Hd. cbn [bind]. apply IH.
Qed.

Lemma bvid2aid_loop_bad (cs : list ascii) (acc : Z) :
  Exists (fun c => ~ In c data) cs -> bvid2aid_loop cs acc = Raise ValueError.
Proof.
  intros H. revert acc. induction cs as [ | c cs IH]; intros acc.
  - inversion H.
  - cbn [bvid2aid_loop]. unfold py_index.
    destruct (in_dec ascii_dec c data) as [Hin | Hout].
    + destruct (index_from_total c data 0 Hin) as [d Hd]. rewrite Hd. cbn [bind].
      apply IH. inversion H; subst; [ contradiction | assumption ].
    + rewrite index_from_absent by exact Hout. reflexivity.
Qed.

(** ** Codec: base-58 digits *)

Lemma nth_digits_nested (t : Z) :
  map (nth_digit t) [8; 7; 6; 5; 4; 3; 2; 1; 0] =
  [ t / 58 / 58 / 58 / 58 / 58 / 58 / 58 / 58 mod 58;
    t / 58 / 58 / 58 / 58 / 58 / 58 / 58 mod 58;
    t / 58 / 58 / 58 / 58 / 58 / 58 mod 58;
    t / 58 / 58 / 58 / 58 / 58 mod 58;
    t / 58 / 58 / 58 / 58 mod 58;
    t / 58 / 58 / 58 mod 58;
    t / 58 / 58 mod 58;
    t / 58 mod 58;
    t mod 58 ].
Proof.
  unfold nth_digit. cbn [map].
  rewrite !Z.div_div by lia. rewrite Z.div_1_r. reflexivity.
Qed.

Lemma div_step (a d : Z) : 0 <= d < 58 -> (a * 58 + d) / 58 = a.
Proof.
  intros Hd. rewrite Z.div_add_l by lia. rewrite Z.div_small by lia. lia.
Qed.

Lemma mod_step (a d : Z) : 0 <= d < 58 -> (a * 58 + d) mod 58 = d.
Proof.
  intros Hd. rewrite Z.add_comm, Z.mod_add by lia. apply Z.mod_small, Hd.
Qed.

Lemma undo_step (q : Z) : q / 58 * 58 + q mod 58 = q.
Proof. pose proof (Z.div_mod q 58). lia. Qed.

(** Digits of a number below [58^9] sum back to it. *)
Lemma horner_nth_digits (t : Z) :
  0 <= t < 58 ^ 9 ->
  horner (map (nth_digit t) [8; 7; 6; 5; 4; 3; 2; 1; 0]) 0 = t.
Proof.
  intros Ht.
  assert (H9 : t / 58 / 58 / 58 / 58 / 58 / 58 / 58 / 58 / 58 = 0).
  { rewrite !Z.div_div by lia. apply Z.div_small. exact Ht. }
  rewrite nth_digits_nested. unfold horner. cbn [fold_left].
  rewrite <- H9. rewrite !undo_step. reflexivity.
Qed.

(** Nine digits are the digits of their sum. *)
Lemma nth_digits_horner (d8 d7 d6 d5 d4 d3 d2 d1 d0 : Z) :
  Forall (fun d => 0 <= d < 58) [d8; d7; d6; d5; d4; d3; d2; d1; d0] ->
  map (nth_digit (horner [d8; d7; d6; d5; d4; d3; d2; d1; d0] 0))
      [8; 7; 6; 5; 4; 3; 2; 1; 0]
  = [d8; d7; d6; d5; d4; d3; d2; d1; d0].
Proof.
  intros H. repeat (apply Forall_cons_1 in H; destruct H as [? H]).
  rewrite nth_digits_nested. unfold horner. cbn [fold_left].
  rewrite !div_step by assumption. rewrite !mod_step by assumption.
  reflexivity.
Qed.

(** ** Codec: the two swaps and the whole functions *)

Lemma swaps_12 (a0 a1 a2 a3 a4 a5 a6 a7 a8 a9 a10 a11 : ascii) :
  (let* l := py_swap [a0; a1; a2; a3; a4; a5; a6; a7; a8; a9; a10; a11] 3 9 in
   py_swap l 4 7)
  = Ok [a0; a1; a2; a9; a7; a5; a6; a4; a8; a3; a10; a11].
Proof. reflexivity. Qed.

(** The decoder on a twelve-character string: only the characters at
    positions 3 to 11 reach the loop. *)
Lemma bvid2aid_12 (a0 a1 a2 a3 a4 a5 a6 a7 a8 a9 a10 a11 : ascii) :
  bvid2aid (string_of_list_ascii [a0; a1; a2; a3; a4; a5; a6; a7; a8; a9; a10; a11])
  = (let* tmp := bvid2aid_loop [a9; a7; a5; a6; a4; a8; a3; a10; a11] 0 in
     Ok (Z.lxor (Z.land tmp MASK_CODE) XOR_CODE)).
Proof.
  unfold bvid2aid. rewrite list_ascii_of_string_of_list_ascii. reflexivity.
Qed.


Lemma aid2bvid_coded (aid : Z) :
  0 <= aid < 2 ^ 51 ->
  aid2bvid aid = Ok (coded (2 ^ 51 + Z.lxor aid XOR_CODE)).
Proof.
  intros Ha. pose proof (lxor_small aid Ha) as Hx.
  unfold aid2bvid. cbv zeta. rewrite encoder_tmp by exact Ha.
  rewrite aid2bvid_loop_nine.
  2:{ change (58 ^ 8) with 128063081718016.
      change (58 ^ 9) with 7427658739644928.
      change (2 ^ 51) with 2251799813685248 in *. lia. }
  reflexivity.
Qed.

Lemma bvid2aid_coded (t : Z) :
  0 <= t < 58 ^ 9 ->
  bvid2aid (coded t) = Ok (Z.lxor (Z.land t MASK_CODE) XOR_CODE).
Proof.
  intros Ht. unfold coded. cbv zeta. rewrite bvid2aid_12.
  change [digit (nth_digit t 8); digit (nth_digit t 7); digit (nth_digit t 6);
          digit (nth_digit t 5); digit (nth_digit t 4); digit (nth_digit t 3);
          digit (nth_digit t 2); digit (nth_digit t 1); digit (nth_digit t 0)]
    with (map digit (map (nth_digit t) [8; 7; 6; 5; 4; 3; 2; 1; 0])).
  rewrite bvid2aid_loop_digits.
  2:{ cbn [map]. repeat constructor; apply nth_digit_range. }
  rewrite horner_nth_digits by exact Ht. reflexivity.
Qed.

Lemma index_in_data (c : ascii) (d pos : Z) :
  index_from c data pos = Ok d -> In c data.
Proof.
  intros H. apply index_from_bounds in H. destruct H as [_ H].
  apply list_elem_of_In. eapply list_elem_of_lookup_2. exact H.
Qed.

Lemma digit_in_data (d : Z) : 0 <= d < 58 -> In (digit d) data.
Proof.
  intros Hd. unfold digit.
  destruct (data !! Z.to_nat d) as [c | ] eqn:E.
  - apply list_elem_of_In. eapply list_elem_of_lookup_2. exact E.
  - apply lookup_ge_None in E. rewrite data_length in E. lia.
Qed.

Lemma digit_proper (d : Z) :
  0 <= d < 58 -> In (digit d) data /\ digit d <> "0"%char.
Proof.
  intros Hd. pose proof (digit_in_data d Hd) as Hin. split; [ exact Hin | ].
  intros E. rewrite E in Hin. apply (index_from_total _ _ 0) in Hin.
  destruct Hin as [i Hi]. vm_compute in Hi. discriminate.
Qed.

Lemma zero_not_in_data : ~ In "0"%char data.
Proof.
  intros H. apply (index_from_total _ _ 0) in H. destruct H as [d Hd].
  vm_compute in Hd. discriminate.
Qed.

Lemma bvid2aid_via_tmp (s : string) :
  bvid2aid s =
  (let* tmp := bvid2aid_tmp s in Ok (Z.lxor (Z.land tmp MASK_CODE) XOR_CODE)).
Proof.
  unfold bvid2aid, bvid2aid_tmp. cbv zeta.
  destruct (py_swap (list_ascii_of_string s) 3 9) as [l1 | e]; [ | reflexivity ].
  cbn [bind]. destruct (py_swap l1 4 7) as [l2 | e]; reflexivity.
Qed.

Lemma string_12 (s : string) :
  String.length s = 12%nat ->
  exists a0 a1 a2 a3 a4 a5 a6 a7 a8 a9 a10 a11,
    s = string_of_list_ascii [a0; a1; a2; a3; a4; a5; a6; a7; a8; a9; a10; a11].
Proof.
  intros H.
  do 12 (destruct s as [ | ? s]; [ discriminate | ]).
  destruct s; [ | discriminate ].
  repeat eexists.
Qed.

(** Two twelve-character strings that agree from position 3 on have the same
    outcome, whatever it is. *)
Lemma bvid2aid_ignores_prefix (s1 s2 : string) :
  String.length s1 = 12%nat -> String.length s2 = 12%nat ->
  (forall i, (3 <= i <= 11)%nat -> String.get i s1 = String.get i s2) ->
  bvid2aid s1 = bvid2aid s2.
Proof.
  intros L1 L2 H.
  destruct (string_12 s1 L1) as (a0 & a1 & a2 & a3 & a4 & a5 & a6 & a7 & a8 & a9 & a10 & a11 & ->).
  destruct (string_12 s2 L2) as (b0 & b1 & b2 & b3 & b4 & b5 & b6 & b7 & b8 & b9 & b10 & b11 & ->).
  pose proof (H 3%nat ltac:(lia)) as E3. pose proof (H 4%nat ltac:(lia)) as E4.
  pose proof (H 5%nat ltac:(lia)) as E5. pose proof (H 6%nat ltac:(lia)) as E6.
  pose proof (H 7%nat ltac:(lia)) as E7. pose proof (H 8%nat ltac:(lia)) as E8.
  pose proof (H 9%nat ltac:(lia)) as E9. pose proof (H 10%nat ltac:(lia)) as E10.
  pose proof (H 11%nat ltac:(lia)) as E11.
  cbn in E3, E4, E5, E6, E7, E8, E9, E10, E11.
  injection E3 as <-. injection E4 as <-. injection E5 as <-.
  injection E6 as <-. injection E7 as <-. injection E8 as <-.
  injection E9 as <-. injection E10 as <-. injection E11 as <-.
  rewrite !bvid2aid_12. reflexivity.
Qed.

End CodecFacts.

(** ** Codec: the claims *)

(** C1.  For every numeric id [n] with [0 <= n < 2^51], the encoder returns
    a string and the decoder maps that string back to [n]. *)
Theorem C1_decode_encode (n : Z) :
  0 <= n < 2 ^ 51 ->
  (let* s := Codec.aid2bvid n in Codec.bvid2aid s) = Ok n.
Proof.
  intros Hn. pose proof (CodecFacts.lxor_small n Hn) as Hx.
  rewrite CodecFacts.aid2bvid_coded by exact Hn. cbn [bind].
  rewrite CodecFacts.bvid2aid_coded.
  2:{ change (58 ^ 9) with 7427658739644928.
      change (2 ^ 51) with 2251799813685248 in *. lia. }
  rewrite CodecFacts.decoder_unmask by exact Hn. reflexivity.
Qed.

Lemma C1_decode_encode_witness :
  0 <= 80433022 < 2 ^ 51 /\
  (let* s := Codec.aid2bvid 80433022 in Codec.bvid2aid s) = Ok 80433022.
Proof.
  assert (H : 0 <= 80433022 < 2 ^ 51) by (split; [ discriminate | reflexivity ]).
  split; [ exact H | exact (C1_decode_encode 80433022 H) ].
Defined.

(** C9.  For every numeric id [aid] with [0 <= aid < 2^51] the value the
    encoder divides is at least [2^51], which is above [58^8]; the encoder
    returns a string of exactly 12 characters that starts with "BV1" and
    whose other nine characters are entries of the table, none of them the
    filler character '0'. *)
Theorem C9_aid2bvid_shape (aid : Z) :
  0 <= aid < 2 ^ 51 ->
  58 ^ 8 < 2 ^ 51 <= Z.lxor (Z.lor Codec.MAX_AID aid) Codec.XOR_CODE /\
  exists s,
    Codec.aid2bvid aid = Ok s /\
    String.length s = 12%nat /\
    String.substring 0 3 s = "BV1" /\
    Forall (fun c => In c Codec.data /\ c <> "0"%char)
           (drop 3 (list_ascii_of_string s)).
Proof.
  intros Ha. pose proof (CodecFacts.lxor_small aid Ha) as Hx. split.
  - rewrite CodecFacts.encoder_tmp by exact Ha.
    split; [ reflexivity | lia ].
  - eexists. split; [ apply CodecFacts.aid2bvid_coded, Ha | ].
    unfold CodecSpec.coded. cbv zeta.
    split; [ reflexivity | ]. split; [ reflexivity | ].
    rewrite list_ascii_of_string_of_list_ascii. cbn [drop].
    repeat (constructor;
            [ apply CodecFacts.digit_proper, CodecFacts.nth_digit_range | ]).
    constructor.
Qed.

Lemma C9_aid2bvid_shape_witness :
  58 ^ 8 < 2 ^ 51 <= Z.lxor (Z.lor Codec.MAX_AID 0) Codec.XOR_CODE /\
  exists s,
    Codec.aid2bvid 0 = Ok s /\
    String.length s = 12%nat /\
    String.substring 0 3 s = "BV1" /\
    Forall (fun c => In c Codec.data /\ c <> "0"%char)
           (drop 3 (list_ascii_of_string s)).
Proof.
  apply (C9_aid2bvid_shape 0). split; [ discriminate | reflexivity ].
Defined.

(** C10.  The decoder never looks at the first three characters: two
    twelve-character strings that agree on positions 3 to 11 and both decode
    give the same numeric id. *)
Theorem C10_prefix_never_inspected (s1 s2 : string) (n1 n2 : Z) :
  String.length s1 = 12%nat -> String.length s2 = 12%nat ->
  (forall i, (3 <= i <= 11)%nat -> String.get i s1 = String.get i s2) ->
  Codec.bvid2aid s1 = Ok n1 -> Codec.bvid2aid s2 = Ok n2 ->
  n1 = n2.
Proof.
  intros L1 L2 H D1 D2.
  rewrite (CodecFacts.bvid2aid_ignores_prefix s1 s2 L1 L2 H) in D1.
  congruence.
Qed.

(** ** Indexing lemmas *)

Module PyFacts.

Lemma length_list_ascii (s : string) :
  length (list_ascii_of_string s) = String.length s.
Proof. induction s as [ | c s IH]; cbn; congruence. Qed.

Lemma py_norm_index_in (len : nat) (i : Z) :
  0 <= i < Z.of_nat len -> py_norm_index len i = Ok (Z.to_nat i).
Proof.
  intros Hi. unfold py_norm_index.
  replace (0 <=? i) with true by (symmetry; apply Z.leb_le; lia).
  replace (i <? Z.of_nat len) with true by (symmetry; apply Z.ltb_lt; lia).
  reflexivity.
Qed.

Lemma py_norm_index_above (len : nat) (i : Z) :
  Z.of_nat len <= i -> py_norm_index len i = Raise IndexError.
Proof.
  intros Hi. unfold py_norm_index.
  replace (i <? Z.of_nat len) with false by (symmetry; apply Z.ltb_ge; lia).
  replace (i <? 0) with false by (symmetry; apply Z.ltb_ge; lia).
  rewrite !andb_false_r. reflexivity.
Qed.

(** The only exception of an index computation is [IndexError]. *)
Lemma py_norm_index_exn (len : nat) (i : Z) (e : exn) :
  py_norm_index len i = Raise e -> e = IndexError.
Proof.
  unfold py_norm_index.
  destruct ((0 <=? i) && (i <? Z.of_nat len)); [ discriminate | ].
  destruct ((- Z.of_nat len <=? i) && (i <? 0)); [ discriminate | ].
  congruence.
Qed.

Lemma py_norm_index_ok (len : nat) (i : Z) (n : nat) :
  py_norm_index len i = Ok n -> - Z.of_nat len <= i < Z.of_nat len /\ (n < len)%nat.
Proof.
  unfold py_norm_index.
  destruct ((0 <=? i) && (i <? Z.of_nat len)) eqn:E1.
  - apply andb_true_iff in E1. destruct E1 as [A B].
    apply Z.leb_le in A. apply Z.ltb_lt in B. intros [= <-]. lia.
  - destruct ((- Z.of_nat len <=? i) && (i <? 0)) eqn:E2; [ | discriminate ].
    apply andb_true_iff in E2. destruct E2 as [A B].
    apply Z.leb_le in A. apply Z.ltb_lt in B. intros [= <-]. lia.
Qed.

Lemma py_getitem_at {A : Type} (l : list A) (i : Z) (x : A) :
  0 <= i -> l !! Z.to_nat i = Some x -> py_getitem l i = Ok x.
Proof.
  intros Hi Hx. unfold py_getitem.
  rewrite py_norm_index_in.
  - cbn [bind]. rewrite Hx. reflexivity.
  - apply lookup_lt_Some in Hx. lia.
Qed.

Lemma py_getitem_above {A : Type} (l : list A) (i : Z) :
  Z.of_nat (length l) <= i -> py_getitem l i = Raise IndexError.
Proof.
  intros Hi. unfold py_getitem. rewrite py_norm_index_above by exact Hi. reflexivity.
Qed.

Lemma py_getitem_exn {A : Type} (l : list A) (i : Z) (e : exn) :
  py_getitem l i = Raise e -> e = IndexError.
Proof.
  unfold py_getitem. destruct (py_norm_index (length l) i) as [n | e'] eqn:E; cbn [bind].
  - destruct (l !! n); [ discriminate | congruence ].
  - intros [= <-]. eapply py_norm_index_exn, E.
Qed.

Lemma py_setitem_at {A : Type} (l : list A) (i : Z) (x : A) :
  0 <= i < Z.of_nat (length l) -> py_setitem l i x = Ok (<[Z.to_nat i := x]> l).
Proof.
  intros Hi. unfold py_setitem. rewrite py_norm_index_in by exact Hi. reflexivity.
Qed.

Lemma py_setitem_exn {A : Type} (l : list A) (i : Z) (x : A) (e : exn) :
  py_setitem l i x = Raise e -> e = IndexError.
Proof.
  unfold py_setitem. destruct (py_norm_index (length l) i) as [n | e'] eqn:E; cbn [bind].
  - discriminate.
  - intros [= <-]. eapply py_norm_index_exn, E.
Qed.

Lemma py_setitem_ok {A : Type} (l l' : list A) (i : Z) (x : A) :
  py_setitem l i x = Ok l' ->
  - Z.of_nat (length l) <= i < Z.of_nat (length l) /\ length l' = length l.
Proof.
  unfold py_setitem. destruct (py_norm_index (length l) i) as [n | e'] eqn:E; cbn [bind].
  - intros [= <-]. apply py_norm_index_ok in E. rewrite length_insert. lia.
  - discriminate.
Qed.

Lemma py_swap_exn {A : Type} (l : list A) (i j : Z) (e : exn) :
  py_swap l i j = Raise e -> e = IndexError.
Proof.
  unfold py_swap.
  destruct (py_getitem l j) as [a | e1] eqn:E1; cbn [bind];
    [ | intros [= <-]; eapply py_getitem_exn, E1 ].
  destruct (py_getitem l i) as [b | e2] eqn:E2; cbn [bind];
    [ | intros [= <-]; eapply py_getitem_exn, E2 ].
  destruct (py_setitem l i a) as [l1 | e3] eqn:E3; cbn [bind];
    [ | intros [= <-]; eapply py_setitem_exn, E3 ].
  apply py_setitem_exn.
Qed.

Lemma py_swap_at {A : Type} (l : list A) (i j : Z) (x y : A) :
  0 <= i -> 0 <= j ->
  l !! Z.to_nat i = Some x -> l !! Z.to_nat j = Some y ->
  py_swap l i j = Ok (<[Z.to_nat j := x]> (<[Z.to_nat i := y]> l)).
Proof.
  intros Hi Hj Hx Hy. unfold py_swap.
  rewrite (py_getitem_at l j y Hj Hy). cbn [bind].
  rewrite (py_getitem_at l i x Hi Hx). cbn [bind].
  apply lookup_lt_Some in Hx. apply lookup_lt_Some in Hy.
  rewrite py_setitem_at by lia. cbn [bind].
  apply py_setitem_at. rewrite length_insert. lia.
Qed.

End PyFacts.

(** ** Codec: totality of the encoder, inputs the decoder rejects *)

Module CodecEdges.
Import Codec.

(** With more fuel than index slots left, the loop ends by its own test or
    by the [IndexError] of a store, never by the bound of the unrolling. *)
Lemma aid2bvid_loop_fuel (fuel : nat) (tmp bv_idx : Z) (l : list ascii) :
  bv_idx + Z.of_nat (length l) + 1 < Z.of_nat (S fuel) ->
  aid2bvid_loop (S fuel) tmp bv_idx l <> Raise FuelExhausted.
Proof.
  revert tmp bv_idx l. induction fuel as [ | fuel IH]; intros tmp bv_idx l Hf.
  - cbn [aid2bvid_loop]. destruct (tmp =? 0); [ discriminate | ].
    destruct (py_getitem data (tmp mod BASE)) as [c | e] eqn:E; cbn [bind].
    + destruct (py_setitem l bv_idx c) as [l' | e] eqn:E'; cbn [bind].
      * apply PyFacts.py_setitem_ok in E'. lia.
      * apply PyFacts.py_setitem_exn in E'. subst e. discriminate.
    + apply PyFacts.py_getitem_exn in E. subst e. discriminate.
  - remember (S fuel) as f eqn:Ef. cbn [aid2bvid_loop].
    destruct (tmp =? 0); [ discriminate | ].
    destruct (py_getitem data (tmp mod BASE)) as [c | e] eqn:E; cbn [bind].
    + destruct (py_setitem l bv_idx c) as [l' | e] eqn:E'; cbn [bind].
      * apply PyFacts.py_setitem_ok in E'. destruct E' as [Hb Hl].
        subst f. apply IH. rewrite Hl. lia.
      * apply PyFacts.py_setitem_exn in E'. subst e. discriminate.
    + apply PyFacts.py_getitem_exn in E. subst e. discriminate.
Qed.

(** The encoder is total: whatever the integer, it returns a string or
    raises [IndexError]; the bound of the unrolling is never what stops it. *)
Lemma aid2bvid_never_out_of_fuel (aid : Z) :
  aid2bvid aid <> Raise FuelExhausted.
Proof.
  unfold aid2bvid. cbv zeta.
  pose proof (aid2bvid_loop_fuel 24 (Z.lxor (Z.lor MAX_AID aid) XOR_CODE)
                (BV_LEN - 1) (list_ascii_of_string "BV1000000000")) as H.
  change (S 24) with aid2bvid_fuel in H.
  destruct (aid2bvid_loop aid2bvid_fuel _ _ _) as [l | e]; cbn [bind].
  - destruct (py_swap l 3 9) as [l1 | e] eqn:E1; cbn [bind].
    + destruct (py_swap l1 4 7) as [l2 | e] eqn:E2; cbn [bind]; [ discriminate | ].
      apply PyFacts.py_swap_exn in E2. subst e. discriminate.
    + apply PyFacts.py_swap_exn in E1. subst e. discriminate.
  - intros [= ->]. apply H; reflexivity.
Qed.

(** The decoder on a string of at least ten characters. *)
Lemma bvid2aid_tmp_10 (a0 a1 a2 a3 a4 a5 a6 a7 a8 a9 : ascii) (rest : list ascii) :
  bvid2aid_tmp (string_of_list_ascii
                  (a0 :: a1 :: a2 :: a3 :: a4 :: a5 :: a6 :: a7 :: a8 :: a9 :: rest))
  = bvid2aid_loop (a9 :: a7 :: a5 :: a6 :: a4 :: a8 :: a3 :: rest) 0.
Proof.
  unfold bvid2aid_tmp. cbv zeta. rewrite list_ascii_of_string_of_list_ascii.
  rewrite (PyFacts.py_swap_at _ 3 9 a3 a9) by (lia || reflexivity).
  cbn [bind Z.to_nat Pos.to_nat Pos.iter_op Nat.add].
  rewrite (PyFacts.py_swap_at _ 4 7 a4 a7) by (lia || reflexivity).
  reflexivity.
Qed.

Lemma bvid2aid_short (s : string) :
  (String.length s < 10)%nat -> bvid2aid s = Raise IndexError.
Proof.
  intros H. unfold bvid2aid. cbv zeta. unfold py_swap.
  rewrite PyFacts.py_getitem_above.
  - reflexivity.
  - rewrite PyFacts.length_list_ascii. lia.
Qed.

Lemma list_10 (l : list ascii) :
  (10 <= length l)%nat ->
  exists a0 a1 a2 a3 a4 a5 a6 a7 a8 a9 rest,
    l = a0 :: a1 :: a2 :: a3 :: a4 :: a5 :: a6 :: a7 :: a8 :: a9 :: rest.
Proof.
  intros H.
  do 10 (destruct l as [ | ? l]; [ cbn in H; lia | ]).
  repeat eexists.
Qed.

Lemma bvid2aid_bad_char (s : string) :
  (10 <= String.length s)%nat ->
  Exists (fun c => ~ In c data) (drop 3 (list_ascii_of_string s)) ->
  bvid2aid s = Raise ValueError.
Proof.
  intros Hlen Hbad.
  rewrite <- PyFacts.length_list_ascii in Hlen.
  rewrite <- (string_of_list_ascii_of_string s).
  destruct (list_10 _ Hlen)
    as (a0 & a1 & a2 & a3 & a4 & a5 & a6 & a7 & a8 & a9 & rest & E).
  rewrite E in Hbad |- *. cbn [drop] in Hbad.
  rewrite CodecFacts.bvid2aid_via_tmp, bvid2aid_tmp_10.
  rewrite CodecFacts.bvid2aid_loop_bad; [ reflexivity | ].
  apply List.Exists_exists in Hbad. destruct Hbad as (c & Hin & Hc).
  apply List.Exists_exists. exists c. split; [ | exact Hc ].
  cbn [In] in Hin |- *. tauto.
Qed.

End CodecEdges.

(** C4 (as amended).  A string of fewer than 10 characters makes the decoder
    raise [IndexError]; a string of at least 10 characters with a character
    outside the table at position 3 or later makes it raise [ValueError].
    In both cases no number is returned. *)
Theorem C4_decoder_rejects (s : string) :
  (String.length s < 10)%nat \/
  Exists (fun c => ~ In c Codec.data) (drop 3 (list_ascii_of_string s)) ->
  Codec.bvid2aid s =
  Raise (if (String.length s <? 10)%nat then IndexError else ValueError).
Proof.
  intros H. destruct (Nat.ltb_spec (String.length s) 10) as [Hs | Hl].
  - apply CodecEdges.bvid2aid_short, Hs.
  - destruct H as [H | H]; [ lia | ].
    apply CodecEdges.bvid2aid_bad_char; assumption.
Qed.

Lemma C4_decoder_rejects_witness :
  Codec.bvid2aid "BV1GJ411x" = Raise IndexError /\
  Codec.bvid2aid "BV1GJ411x!h7" = Raise ValueError.
Proof.
  split.
  - apply (C4_decoder_rejects "BV1GJ411x"). left. cbn. lia.
  - apply (C4_decoder_rejects "BV1GJ411x!h7"). right.
    cbn [list_ascii_of_string drop].
    do 6 apply Exists_cons_tl. apply Exists_cons_hd.
    intros Hin. apply (CodecFacts.index_from_total _ _ 0) in Hin.
    destruct Hin as [d Hd]. vm_compute in Hd. discriminate.
Defined.

(** C4 as stated fails: a ten-character string, shorter than the twelve
    expected, decodes to a number, and so does a twelve-character string
    whose first character is outside the table. *)
Lemma C4_counterexample :
  (String.length "BV1GJ411x7" < 12)%nat /\
  Codec.bvid2aid "BV1GJ411x7" = Ok 23980093415289 /\
  ~ In "!"%char Codec.data /\
  Codec.bvid2aid "!V1GJ411x7h7" = Ok 80433022.
Proof.
  split; [ cbn; lia | ]. split; [ vm_compute; reflexivity | ].
  split; [ | vm_compute; reflexivity ].
  intros Hin. apply (CodecFacts.index_from_total _ _ 0) in Hin.
  destruct Hin as [d Hd]. vm_compute in Hd. discriminate.
Qed.

(** ** Codec: re-encoding a decoded string *)

Module CodecReencode.
Import Codec CodecSpec.

(** An accumulator in the encoder's range is recovered from the id it is
    masked to. *)
Lemma remask (tmp : Z) :
  2 ^ 51 <= tmp < 2 ^ 52 ->
  0 <= Z.lxor (Z.land tmp MASK_CODE) XOR_CODE < 2 ^ 51 /\
  2 ^ 51 + Z.lxor (Z.lxor (Z.land tmp MASK_CODE) XOR_CODE) XOR_CODE = tmp.
Proof.
  intros Ht. change (2 ^ 52) with (2 * 2 ^ 51) in Ht.
  assert (Hm : Z.land tmp MASK_CODE = tmp - 2 ^ 51).
  { rewrite CodecFacts.MASK_CODE_ones, Z.land_ones by lia.
    replace tmp with (tmp - 2 ^ 51 + 1 * 2 ^ 51) at 1 by lia.
    rewrite Z.mod_add by lia. apply Z.mod_small. lia. }
  rewrite Hm. split.
  - apply CodecFacts.lxor_small. lia.
  - rewrite Z.lxor_assoc, Z.lxor_nilpotent, Z.lxor_0_r. lia.
Qed.

Lemma reencode (a3 a4 a5 a6 a7 a8 a9 a10 a11 : ascii) (tmp : Z) :
  let s := string_of_list_ascii
             ("B" :: "V" :: "1" :: a3 :: a4 :: a5 :: a6 :: a7 :: a8 :: a9 :: a10 :: [a11])%char in
  bvid2aid_tmp s = Ok tmp ->
  2 ^ 51 <= tmp < 2 ^ 52 ->
  (let* n := bvid2aid s in aid2bvid n) = Ok s.
Proof.
  intros s Htmp Hr. subst s.
  rewrite CodecFacts.bvid2aid_via_tmp, Htmp. cbn [bind].
  rewrite CodecEdges.bvid2aid_tmp_10 in Htmp.
  apply CodecFacts.bvid2aid_loop_inv in Htmp.
  destruct Htmp as (ds & Hds & Hmap & Hval).
  destruct ds as [ | d8 [ | d7 [ | d6 [ | d5 [ | d4 [ | d3 [ | d2 [ | d1 [ | d0 [ | ? ? ]]]]]]]]]];
    try discriminate.
  cbn [map] in Hmap. injection Hmap as -> -> -> -> -> -> -> -> ->.
  destruct (remask tmp Hr) as [Hn Hback].
  rewrite CodecFacts.aid2bvid_coded by exact Hn. rewrite Hback.
  unfold CodecSpec.coded. cbv zeta.
  pose proof (CodecFacts.nth_digits_horner _ _ _ _ _ _ _ _ _ Hds) as Hd.
  rewrite <- Hval in Hd. cbn [map] in Hd.
  injection Hd as -> -> -> -> -> -> -> -> ->.
  reflexivity.
Qed.

End CodecReencode.

(** C2 (as amended).  For every twelve-character string with prefix "BV1"
    and body drawn from the table, whose body the decoder accumulates to a
    value in [2^51, 2^52), encoding the decoded id gives the string back. *)
Theorem C2_encode_decode (s : string) (tmp : Z) :
  String.length s = 12%nat ->
  String.substring 0 3 s = "BV1" ->
  Forall (fun c => In c Codec.data) (drop 3 (list_ascii_of_string s)) ->
  Codec.bvid2aid_tmp s = Ok tmp ->
  2 ^ 51 <= tmp < 2 ^ 52 ->
  (let* n := Codec.bvid2aid s in Codec.aid2bvid n) = Ok s.
Proof.
  intros Hlen Hpre _ Htmp Hr.
  destruct (CodecFacts.string_12 s Hlen)
    as (a0 & a1 & a2 & a3 & a4 & a5 & a6 & a7 & a8 & a9 & a10 & a11 & ->).
  cbn in Hpre. injection Hpre as -> -> ->.
  apply (CodecReencode.reencode a3 a4 a5 a6 a7 a8 a9 a10 a11 tmp Htmp Hr).
Qed.

Lemma C2_encode_decode_witness :
  (let* n := Codec.bvid2aid "BV1GJ411x7h7" in Codec.aid2bvid n) = Ok "BV1GJ411x7h7".
Proof.
  apply (C2_encode_decode "BV1GJ411x7h7" 2275242578215845).
  - reflexivity.
  - reflexivity.
  - cbn [list_ascii_of_string drop].
    repeat (apply List.Forall_cons;
            [ eapply (CodecFacts.index_in_data _ _ 0); vm_compute; reflexivity | ]).
    apply List.Forall_nil.
  - vm_compute. reflexivity.
  - split; [ discriminate | reflexivity ].
Defined.

(** C2 as stated fails: "BV1FFFFFFFFF" has the prefix, a body drawn from the
    table and decodes to an id in range, yet the id encodes to another
    string. *)
Lemma C2_counterexample :
  String.length "BV1FFFFFFFFF" = 12%nat /\
  String.substring 0 3 "BV1FFFFFFFFF" = "BV1" /\
  Forall (fun c => In c Codec.data) (drop 3 (list_ascii_of_string "BV1FFFFFFFFF")) /\
  Codec.bvid2aid "BV1FFFFFFFFF" = Ok 23442827791579 /\
  0 <= 23442827791579 < 2 ^ 51 /\
  Codec.aid2bvid 23442827791579 = Ok "BV1JSSoei7Vg" /\
  (let* n := Codec.bvid2aid "BV1FFFFFFFFF" in Codec.aid2bvid n) <> Ok "BV1FFFFFFFFF".
Proof.
  split; [ reflexivity | ]. split; [ reflexivity | ]. split.
  { cbn [list_ascii_of_string drop].
    repeat (constructor; [ left; reflexivity | ]). constructor. }
  split; [ vm_compute; reflexivity | ].
  split; [ split; [ discriminate | reflexivity ] | ].
  split; [ vm_compute; reflexivity | ].
  vm_compute. discriminate.
Qed.

Lemma C10_prefix_never_inspected_witness :
  Codec.bvid2aid "BV1GJ411x7h7" = Ok 80433022 /\
  Codec.bvid2aid "xyzGJ411x7h7" = Ok 80433022.
Proof.
  assert (D1 : Codec.bvid2aid "BV1GJ411x7h7" = Ok 80433022) by (vm_compute; reflexivity).
  assert (D2 : Codec.bvid2aid "xyzGJ411x7h7" = Ok 80433022) by (vm_compute; reflexivity).
  assert (E : 80433022 = 80433022).
  { apply (C10_prefix_never_inspected "BV1GJ411x7h7" "xyzGJ411x7h7" 80433022 80433022).
    - reflexivity.
    - reflexivity.
    - intros i Hi.
      do 3 (destruct i as [ | i]; [ lia | ]).
      do 9 (destruct i as [ | i]; [ reflexivity | ]).
      lia.
    - exact D1.
    - exact D2. }
  split; [ exact D1 | exact D2 ].
Defined.

(** ** Construction of the tool *)

Module ToolFacts.
Import Tool.

Lemma py_not_missing (x : arg) : py_not x = true <-> missing x.
Proof.
  unfold missing. destruct x as [[ | c s] | ]; cbn; split; intros H;
    try reflexivity; try discriminate; auto;
    destruct H as [H | H]; discriminate.
Qed.


(** The message depends on which arguments are missing, not on the values
    of the others. *)
Lemma init_failure (sessdata bili_jct buvid3 : arg) :
  py_not sessdata || py_not bili_jct || py_not buvid3 = true ->
  exists message,
    init sessdata bili_jct buvid3 = RaiseValueError message /\
    py_in_str "sessdata" message = py_not sessdata /\
    py_in_str "bili_jct" message = py_not bili_jct /\
    py_in_str "buvid3" message = py_not buvid3.
Proof.
  intros H. unfold init. rewrite H. cbv zeta.
  eexists. split; [ reflexivity | ].
  destruct (py_not sessdata), (py_not bili_jct), (py_not buvid3);
    try discriminate H; vm_compute; repeat split.
Qed.

Lemma init_success (sessdata bili_jct buvid3 : arg) :
  py_not sessdata || py_not bili_jct || py_not buvid3 = false ->
  init sessdata bili_jct buvid3 =
  Constructed {| cookies := [ ("SESSDATA", value sessdata);
                              ("bili_jct", value bili_jct);
                              ("buvid3", value buvid3) ];
                 has_credentials := true |}.
Proof. intros H. unfold init. rewrite H. reflexivity. Qed.

End ToolFacts.

(** C7.  When one or more of the three tokens is [None] or empty, the
    constructor raises [ValueError] and the message names exactly the
    missing tokens, all of them; when the three are non-empty strings it
    returns the instance, with the three tokens stored as its cookies. *)
Theorem C7_credentials (sessdata bili_jct buvid3 : Tool.arg) :
  (Tool.missing sessdata \/ Tool.missing bili_jct \/ Tool.missing buvid3 ->
   exists message,
     Tool.init sessdata bili_jct buvid3 = Tool.RaiseValueError message /\
     (Tool.missing sessdata <-> py_in_str "sessdata" message = true) /\
     (Tool.missing bili_jct <-> py_in_str "bili_jct" message = true) /\
     (Tool.missing buvid3 <-> py_in_str "buvid3" message = true)) /\
  (forall s j b,
     sessdata = Some s -> bili_jct = Some j -> buvid3 = Some b ->
     s <> "" -> j <> "" -> b <> "" ->
     Tool.init sessdata bili_jct buvid3 =
     Tool.Constructed
       {| Tool.cookies := [("SESSDATA", s); ("bili_jct", j); ("buvid3", b)];
          Tool.has_credentials := true |}).
Proof.
  split.
  - intros H.
    assert (Hb : Tool.py_not sessdata || Tool.py_not bili_jct || Tool.py_not buvid3 = true).
    { rewrite !orb_true_iff, !ToolFacts.py_not_missing. tauto. }
    destruct (ToolFacts.init_failure _ _ _ Hb) as (message & Hi & H1 & H2 & H3).
    exists message. split; [ exact Hi | ].
    rewrite H1, H2, H3, !ToolFacts.py_not_missing. tauto.
  - intros s j b -> -> -> Hs Hj Hb.
    rewrite ToolFacts.init_success; [ reflexivity | ].
    destruct s; [ contradiction | ]. destruct j; [ contradiction | ].
    destruct b; [ contradiction | ]. reflexivity.
Qed.

Lemma C7_credentials_witness :
  (exists message,
     Tool.init (Some "") None (Some "device") = Tool.RaiseValueError message /\
     py_in_str "sessdata" message = true /\
     py_in_str "bili_jct" message = true /\
     py_in_str "buvid3" message = false) /\
  Tool.init (Some "session") (Some "csrf") (Some "device") =
  Tool.Constructed
    {| Tool.cookies := [("SESSDATA", "session"); ("bili_jct", "csrf"); ("buvid3", "device")];
       Tool.has_credentials := true |}.
Proof.
  split.
  - destruct (C7_credentials (Some "") None (Some "device")) as [H _].
    destruct H as (message & Hi & H1 & H2 & H3).
    { left. right. reflexivity. }
    exists message. split; [ exact Hi | ]. split; [ | split ].
    + apply H1. right. reflexivity.
    + apply H2. left. reflexivity.
    + destruct (py_in_str "buvid3" message) eqn:E; [ | reflexivity ].
      destruct (proj2 H3 eq_refl) as [E' | E']; discriminate E'.
  - destruct (C7_credentials (Some "session") (Some "csrf") (Some "device")) as [_ H].
    apply (H "session" "csrf" "device"); try reflexivity; discriminate.
Defined.

(** ** The facade: what a [try]/[except] that prints and returns [None] does *)

Module FacadeFacts.
Import Facade.


Lemma swallow_returns (body : io value) (M : exn -> message) :
  exists log v,
    try_except body (fun e => let+ _ := print (M e) in ret VNone) = (log, Ok v).
Proof.
  unfold try_except. destruct body as [log [v | e]].
  - exists log, v. reflexivity.
  - eexists. eexists. reflexivity.
Qed.

Section Pages.

Variable make_request :
  string -> option (list (string * value)) -> bool -> result value.
Variable py_int : string -> result Z.




(** A page list that could not be fetched is reported as an invalid page. *)
Lemma get_video_subtitle_without_pages (video_id lang : string) (page : Z)
      (log : list message) :
  get_video_pages make_request py_int video_id = (log, Ok VNone) ->
  get_video_subtitle make_request py_int video_id page lang
  = ((log ++ [InvalidPage page])%list, Ok VNone).
Proof.
  intros H. unfold get_video_subtitle, get_video_subtitle_body.
  rewrite H. reflexivity.
Qed.

End Pages.

End FacadeFacts.

(** ** The facade: the failures the bodies detect themselves *)

Module FailureFacts.
Import Facade.

Section Failures.

Variable make_request :
  string -> option (list (string * value)) -> bool -> result value.
Variable py_int : string -> result Z.







Lemma download_not_a_string (subtitle_url : value) :
  (forall url, subtitle_url <> VStr url) ->
  download_subtitle make_request subtitle_url
  = ([DownloadFailed AttributeError], Ok VNone).
Proof.
  intros H. unfold download_subtitle, download_subtitle_body.
  destruct subtitle_url; try reflexivity. exfalso. eapply H. reflexivity.
Qed.








End Failures.

End FailureFacts.




(** ** The facade: the page number *)

Module PageFacts.
Import Facade.

Section Page.

Variable make_request :
  string -> option (list (string * value)) -> bool -> result value.
Variable py_int : string -> result Z.

(** A page number above the number of parts is refused. *)
Lemma page_above (video_id lang : string) (page : Z)
      (log : list message) (parts : list value) :
  get_video_pages make_request py_int video_id = (log, Ok (VList parts)) ->
  Z.of_nat (length parts) < page ->
  get_video_subtitle make_request py_int video_id page lang
  = ((log ++ [InvalidPage page])%list, Ok VNone).
Proof.
  intros Hp Hlt. unfold get_video_subtitle, get_video_subtitle_body.
  rewrite Hp. cbn [io_bind].
  destruct parts as [ | p parts].
  - reflexivity.
  - cbn [py_truthy negb py_len lift ret io_bind].
    replace (page >? Z.of_nat (length (p :: parts))) with true
      by (symmetry; apply Z.gtb_lt; lia).
    reflexivity.
Qed.

(** A page number from [1 - len(pages)] to [0] passes the test and the
    subscript [pages[page - 1]] counts from the end. *)
Lemma page_wraps (parts : list value) (page : Z) (p : value) :
  1 - Z.of_nat (length parts) <= page <= 0 ->
  parts !! Z.to_nat (Z.of_nat (length parts) + (page - 1)) = Some p ->
  py_subscript (VList parts) (page - 1) = Ok p.
Proof.
  intros Hr Hp. cbn [py_subscript]. unfold py_getitem, py_norm_index.
  replace (0 <=? page - 1) with false by (symmetry; apply Z.leb_gt; lia).
  cbn [andb].
  replace (- Z.of_nat (length parts) <=? page - 1) with true
    by (symmetry; apply Z.leb_le; lia).
  replace (page - 1 <? 0) with true by (symmetry; apply Z.ltb_lt; lia).
  cbn [andb bind]. rewrite Hp. reflexivity.
Qed.

End Page.

End PageFacts.

(** C3 (the code at the failing input).  On a video of two parts, page 0
    passes the page test and the text returned is that of part two; page -1
    returns the text of part one; only page 3 is refused as an invalid page
    number, and page -2 fails on the subscript. *)
Theorem C3_page_zero_reads_last_part :
  let run := Facade.get_video_subtitle Scenario.two_parts Scenario.py_int "BV1GJ411x7h7" in
  run 2 "zh" = ([], Ok (VStr "part two")) /\
  run 0 "zh" = ([], Ok (VStr "part two")) /\
  run (-1) "zh" = ([], Ok (VStr "part one")) /\
  run (-2) "zh" = ([Facade.SubtitleTextFailed IndexError], Ok VNone) /\
  run 3 "zh" = ([Facade.InvalidPage 3], Ok VNone).
Proof. cbv zeta. repeat split; vm_compute; reflexivity. Qed.

(** ** The facade: the choice of the track *)

Module TrackFacts.
Import Facade Tracks.

Lemma py_in_str_empty (s : string) : py_in_str "" s = true.
Proof. destruct s; reflexivity. Qed.

Lemma py_in_str_of_empty (lang : string) : py_in_str lang "" = true -> lang = "".
Proof. destruct lang; [ reflexivity | discriminate ]. Qed.

(** On a track, the test of the loop is the substring test on its tag. *)
Lemma test_track (lang : string) (track : value) :
  is_track track ->
  (let* lan := py_get track "lan" (VStr "") in py_in lang lan)
  = Ok (py_in_str lang (lan_of track)).
Proof.
  intros (items & -> & [H | (s & H)]); cbn [py_get lan_of bind]; rewrite H; reflexivity.
Qed.

Lemma find_subtitle_tracks (lang : string) (tracks : list value) :
  Forall is_track tracks ->
  find_subtitle lang tracks
  = Ok (default VNone (List.find (fun track => py_in_str lang (lan_of track)) tracks)).
Proof.
  induction 1 as [ | track tracks Ht _ IH]; [ reflexivity | ].
  cbn [find_subtitle List.find].
  pose proof (test_track lang track Ht) as E.
  destruct (py_get track "lan" (VStr "")) as [lan | e]; cbn [bind] in E |- *;
    [ | discriminate ].
  rewrite E. cbn [bind].
  destruct (py_in_str lang (lan_of track)); [ reflexivity | exact IH ].
Qed.

(** A track that is a false value is the empty [dict]. *)
Lemma falsy_track (track : value) :
  is_track track -> py_truthy track = false -> track = VDict [].
Proof.
  intros (items & -> & _) H. destruct items; [ reflexivity | discriminate ].
Qed.

Lemma lan_doc_of_track (track : value) :
  is_track track -> exists doc, py_get track "lan_doc" unknown_language = Ok doc.
Proof. intros (items & -> & _). eexists. reflexivity. Qed.

Lemma first_track (track : value) (tracks : list value) :
  py_subscript (VList (track :: tracks)) 0 = Ok track.
Proof.
  cbn [py_subscript]. apply PyFacts.py_getitem_at; [ lia | reflexivity ].
Qed.

(** The two ways out of [select_subtitle] on a non-empty list. *)
Lemma select_subtitle_unfold (lang : string) (t0 : value) (rest : list value)
      (target doc : value) :
  find_subtitle lang (t0 :: rest) = Ok target ->
  py_get t0 "lan_doc" unknown_language = Ok doc ->
  select_subtitle lang (VList (t0 :: rest))
  = if py_truthy target then ([], Ok target)
    else ([LanguageFallback lang doc], Ok t0).
Proof.
  intros Hf Hdoc. unfold select_subtitle.
  cbn [py_iter lift io_bind]. rewrite Hf.
  cbn [py_truthy andb]. rewrite andb_true_r.
  destruct (py_truthy target); cbn [negb].
  - reflexivity.
  - rewrite first_track. cbn [io_bind]. rewrite Hdoc. reflexivity.
Qed.

Lemma select_subtitle_tracks (lang : string) (tracks : list value) :
  tracks <> [] -> Forall is_track tracks ->
  exists log, select_subtitle lang (VList tracks) = (log, Ok (chosen lang tracks)).
Proof.
  intros Hne Ht. destruct tracks as [ | t0 rest]; [ contradiction | ].
  pose proof (Forall_inv Ht) as Ht0.
  destruct (lan_doc_of_track t0 Ht0) as [doc Hdoc].
  rewrite (select_subtitle_unfold lang t0 rest _ doc
             (find_subtitle_tracks lang _ Ht) Hdoc).
  unfold chosen. cbn [List.find hd].
  destruct (py_in_str lang (lan_of t0)) eqn:E0; cbn [default from_option id].
  - destruct (py_truthy t0); eexists; reflexivity.
  - destruct (List.find _ rest) as [t | ] eqn:Ef; cbn [default from_option id].
    + apply List.find_some in Ef. destruct Ef as [Hin Hlang].
      destruct (py_truthy t) eqn:Et; [ eexists; reflexivity | ].
      assert (Htr : is_track t).
      { apply (proj1 (List.Forall_forall _ _) (Forall_inv_tail Ht)), Hin. }
      rewrite (falsy_track t Htr Et) in Hlang.
      cbn [lan_of assoc] in Hlang. apply py_in_str_of_empty in Hlang. subst lang.
      rewrite py_in_str_empty in E0. discriminate.
    + cbn [py_truthy]. eexists. reflexivity.
Qed.

Section Selection.

Variable make_request :
  string -> option (list (string * value)) -> bool -> result value.
Variable py_int : string -> result Z.

(** With a valid page and a non-empty list of tracks, the rest of
    [get_video_subtitle] runs on the chosen track. *)
Lemma get_video_subtitle_body_selects
      (video_id lang : string) (page : Z) (log1 log2 : list message)
      (parts tracks : list value) (the_page cid : value) :
  tracks <> [] -> Forall is_track tracks ->
  get_video_pages make_request py_int video_id = (log1, Ok (VList parts)) ->
  1 <= page <= Z.of_nat (length parts) ->
  parts !! Z.to_nat (page - 1) = Some the_page ->
  py_get the_page "cid" VNone = Ok cid ->
  get_subtitle_info make_request py_int video_id cid = (log2, Ok (VList tracks)) ->
  exists log3,
    get_video_subtitle_body make_request py_int video_id page lang
    = (let+ target := ((log1 ++ log2 ++ log3)%list, Ok (chosen lang tracks)) in
       fetch_text make_request target).
Proof.
  intros Hne Ht Hpages Hrange Hpage Hcid Htracks.
  destruct (select_subtitle_tracks lang tracks Hne Ht) as [log3 Hsel].
  exists log3. unfold get_video_subtitle_body. rewrite Hpages. cbn [io_bind].
  assert (Htruthy : py_truthy (VList parts) = true).
  { destruct parts; [ cbn in Hrange; lia | reflexivity ]. }
  rewrite Htruthy. cbn [negb py_len lift ret io_bind].
  replace (page >? Z.of_nat (length parts)) with false
    by (symmetry; rewrite Z.gtb_ltb; apply Z.ltb_ge; lia).
  cbn [py_subscript].
  rewrite (PyFacts.py_getitem_at parts (page - 1) the_page ltac:(lia) Hpage).
  cbn [io_bind]. rewrite Hcid. cbn [io_bind]. rewrite Htracks. cbn [io_bind].
  assert (Htr : py_truthy (VList tracks) = true).
  { destruct tracks; [ contradiction | reflexivity ]. }
  rewrite Htr. cbn [negb]. rewrite Hsel. cbn [io_bind].
  destruct (fetch_text make_request (chosen lang tracks)) as [log4 r].
  cbn [app]. rewrite <- !app_assoc. reflexivity.
Qed.

End Selection.

End TrackFacts.

(** C8.  On a non-empty list of tracks, [get_video_subtitle] picks the
    first track, in list order, whose language tag contains [lang] as an
    exact (case-sensitive) substring, and the first track of the list when
    no tag contains it; the text it returns is fetched from that track. *)
Theorem C8_track_selection
    (make_request : string -> option (list (string * value)) -> bool -> result value)
    (py_int : string -> result Z)
    (video_id lang : string) (page : Z) (log1 log2 : list Facade.message)
    (parts tracks : list value) (the_page cid : value) :
  tracks <> [] -> Forall Tracks.is_track tracks ->
  Facade.get_video_pages make_request py_int video_id = (log1, Ok (VList parts)) ->
  1 <= page <= Z.of_nat (length parts) ->
  parts !! Z.to_nat (page - 1) = Some the_page ->
  py_get the_page "cid" VNone = Ok cid ->
  Facade.get_subtitle_info make_request py_int video_id cid = (log2, Ok (VList tracks)) ->
  let picked :=
    default (hd VNone tracks)
            (List.find (fun track => py_in_str lang (Tracks.lan_of track)) tracks) in
  snd (Facade.select_subtitle lang (VList tracks)) = Ok picked /\
  exists log3,
    Facade.get_video_subtitle make_request py_int video_id page lang
    = Facade.try_except
        (Facade.io_bind ((log1 ++ log2 ++ log3)%list, Ok picked)
                        (Facade.fetch_text make_request))
        (fun e => Facade.io_bind (Facade.print (Facade.SubtitleTextFailed e))
                                 (fun _ => Facade.ret VNone)).
Proof.
  intros Hne Ht Hpages Hrange Hpage Hcid Htracks picked. split.
  - destruct (TrackFacts.select_subtitle_tracks lang tracks Hne Ht) as [log ->].
    reflexivity.
  - destruct (TrackFacts.get_video_subtitle_body_selects
                make_request py_int video_id lang page log1 log2 parts tracks
                the_page cid Hne Ht Hpages Hrange Hpage Hcid Htracks) as [log3 H].
    exists log3. unfold Facade.get_video_subtitle. rewrite H. reflexivity.
Qed.

Lemma C8_track_selection_witness :
  let run := Facade.get_video_subtitle Scenario.three_tracks Scenario.py_int
               "BV1GJ411x7h7" 1 in
  snd (run "zh") = Ok (VStr "generated chinese") /\
  snd (run "ZH") = Ok (VStr "english").
Proof.
  cbv zeta.
  set (tracks := [ Scenario.track "en-US" "English" "//subtitle.example/e.json";
                   Scenario.track "ai-zh" "Chinese (auto)" "//subtitle.example/a.json";
                   Scenario.track "zh-CN" "Chinese" "//subtitle.example/z.json" ]).
  set (part := VDict [("cid", VInt 101); ("page", VInt 1)]).
  assert (Ht : Forall Tracks.is_track tracks).
  { repeat (apply List.Forall_cons;
            [ eexists; split; [ reflexivity | right; eexists; reflexivity ] | ]).
    apply List.Forall_nil. }
  assert (Hne : tracks <> []) by discriminate.
  assert (Hpages : Facade.get_video_pages Scenario.three_tracks Scenario.py_int
                     "BV1GJ411x7h7" = ([], Ok (VList [part])))
    by (vm_compute; reflexivity).
  assert (Hrange : 1 <= 1 <= Z.of_nat (length [part])) by (cbn; lia).
  assert (Hpage : [part] !! Z.to_nat (1 - 1) = Some part) by reflexivity.
  assert (Hcid : py_get part "cid" VNone = Ok (VInt 101)) by reflexivity.
  assert (Htracks : Facade.get_subtitle_info Scenario.three_tracks Scenario.py_int
                      "BV1GJ411x7h7" (VInt 101) = ([], Ok (VList tracks)))
    by (vm_compute; reflexivity).
  split.
  - destruct (C8_track_selection Scenario.three_tracks Scenario.py_int
                "BV1GJ411x7h7" "zh" 1 [] [] [part] tracks part (VInt 101)
                Hne Ht Hpages Hrange Hpage Hcid Htracks) as [_ [log3 H]].
    rewrite H. vm_compute. reflexivity.
  - destruct (C8_track_selection Scenario.three_tracks Scenario.py_int
                "BV1GJ411x7h7" "ZH" 1 [] [] [part] tracks part (VInt 101)
                Hne Ht Hpages Hrange Hpage Hcid Htracks) as [_ [log3 H]].
    rewrite H. vm_compute. reflexivity.
Defined.

(** ** Request signing: order of the keys *)

Module SignerFacts.
Import Signer.


Lemma leb_iff (a b : string) :
  String.leb a b = true <-> a = b \/ String_as_OT.lt a b.
Proof.
  unfold String.leb.
  pose proof (String_as_OT.cmp_eq a b) as He.
  pose proof (String_as_OT.cmp_lt a b) as Hl.
  unfold String_as_OT.cmp in He, Hl.
  destruct (String.compare a b) eqn:E; split; intros H; try reflexivity;
    try discriminate.
  - left. apply He. reflexivity.
  - right. apply Hl. reflexivity.
  - destruct H as [H | H]; [ apply He in H | apply Hl in H ]; discriminate.
Qed.

Lemma leb_refl (a : string) : String.leb a a = true.
Proof. apply leb_iff. left. reflexivity. Qed.

Lemma leb_trans (a b c : string) :
  String.leb a b = true -> String.leb b c = true -> String.leb a c = true.
Proof.
  rewrite !leb_iff. intros [-> | H1] [-> | H2]; auto.
  right. eapply String_as_OT.lt_trans; eassumption.
Qed.

Lemma leb_false (a b : string) : String.leb a b = false -> String.leb b a = true.
Proof.
  intros H. destruct (String.leb_total a b) as [H' | H']; [ congruence | exact H' ].
Qed.

Section Sorting.

Context {V : Type}.

Lemma insert_item_perm (x : string * V) (l : list (string * V)) :
  insert_item x l ≡ₚ x :: l.
Proof.
  induction l as [ | y l IH]; cbn [insert_item]; [ reflexivity | ].
  destruct (String.leb (fst x) (fst y)); [ reflexivity | ].
  rewrite IH. apply Permutation_swap.
Qed.

Lemma py_sorted_perm (l : list (string * V)) : py_sorted l ≡ₚ l.
Proof.
  induction l as [ | x l IH]; cbn [py_sorted]; [ reflexivity | ].
  rewrite insert_item_perm, IH. reflexivity.
Qed.

Lemma insert_item_hd (a x : string * V) (l : list (string * V)) :
  key_le a x -> HdRel key_le a l -> HdRel key_le a (insert_item x l).
Proof.
  intros Hax Hal. destruct l as [ | y l]; cbn [insert_item].
  - constructor. exact Hax.
  - destruct (String.leb (fst x) (fst y)); constructor.
    + exact Hax.
    + inversion Hal; assumption.
Qed.

Lemma insert_item_sorted (x : string * V) (l : list (string * V)) :
  Sorted key_le l -> Sorted key_le (insert_item x l).
Proof.
  induction 1 as [ | y l Hs IH Hhd]; cbn [insert_item].
  - repeat constructor.
  - destruct (String.leb (fst x) (fst y)) eqn:E.
    + constructor; [ constructor; assumption | constructor; exact E ].
    + constructor; [ exact IH | ].
      apply insert_item_hd; [ apply leb_false, E | exact Hhd ].
Qed.

Lemma py_sorted_sorted (l : list (string * V)) : Sorted key_le (py_sorted l).
Proof.
  induction l as [ | x l IH]; cbn [py_sorted]; [ constructor | ].
  apply insert_item_sorted, IH.
Qed.

Lemma key_le_trans (x y z : string * V) : key_le x y -> key_le y z -> key_le x z.
Proof. unfold key_le. apply leb_trans. Qed.

(** Items with distinct keys have one sorted arrangement. *)
Lemma sorted_unique (l1 l2 : list (string * V)) :
  NoDup (map fst l1) ->
  Sorted key_le l1 -> Sorted key_le l2 -> l1 ≡ₚ l2 -> l1 = l2.
Proof.
  intros Hnd H1 H2 Hp.
  assert (Htr : Transitive (@key_le V)) by (intros x y z; apply key_le_trans).
  apply (Sorted_unique_strong key_le); try assumption.
  intros x1 x2 Hx1 Hx2 Hle1 Hle2.
  assert (Hk : fst x1 = fst x2) by (apply String.leb_antisym; assumption).
  rewrite <- Hp in Hx2.
  apply list_elem_of_In in Hx1. apply list_elem_of_In in Hx2.
  clear - Hnd Hx1 Hx2 Hk.
  induction l1 as [ | y l IH]; [ destruct Hx1 | ].
  cbn [map] in Hnd. apply NoDup_cons in Hnd. destruct Hnd as [Hy Hnd].
  destruct Hx1 as [-> | Hx1], Hx2 as [-> | Hx2].
  - reflexivity.
  - exfalso. apply Hy. rewrite Hk. apply list_elem_of_In, in_map, Hx2.
  - exfalso. apply Hy. rewrite <- Hk. apply list_elem_of_In, in_map, Hx1.
  - apply IH; assumption.
Qed.

Lemma py_sorted_canonical (l1 l2 : list (string * V)) :
  NoDup (map fst l1) -> l1 ≡ₚ l2 -> py_sorted l1 = py_sorted l2.
Proof.
  intros Hnd Hp. apply sorted_unique.
  - rewrite py_sorted_perm. exact Hnd.
  - apply py_sorted_sorted.
  - apply py_sorted_sorted.
  - rewrite !py_sorted_perm. exact Hp.
Qed.

End Sorting.

(** *** Dictionaries *)

Section Dicts.

Context {V : Type}.

Lemma dict_set_absent (d : dict V) (k : string) (v : V) :
  ~ In k (map fst d) -> dict_set d k v = (d ++ [(k, v)])%list.
Proof.
  induction d as [ | [k' v'] d IH]; intros Hk; cbn [dict_set app]; [ reflexivity | ].
  destruct (String.eqb_spec k' k) as [-> | Hne].
  - exfalso. apply Hk. left. reflexivity.
  - rewrite IH; [ reflexivity | ]. intros Hin. apply Hk. right. exact Hin.
Qed.

Lemma dict_set_keys (d : dict V) (k k0 : string) (v : V) :
  In k0 (map fst (dict_set d k v)) <-> k0 = k \/ In k0 (map fst d).
Proof.
  induction d as [ | [k' v'] d IH]; cbn [dict_set map In fst].
  - split; intros [H | H]; auto; destruct H.
  - destruct (String.eqb_spec k' k) as [-> | Hne]; cbn [map In fst].
    + split; intros H; [ tauto | ]. destruct H as [-> | H]; tauto.
    + rewrite IH. split; intros H; [ tauto | ].
      destruct H as [-> | [H | H]]; tauto.
Qed.

Lemma dict_set_NoDup (d : dict V) (k : string) (v : V) :
  NoDup (map fst d) -> NoDup (map fst (dict_set d k v)).
Proof.
  induction d as [ | [k' v'] d IH]; intros Hnd; cbn [dict_set map fst].
  - apply NoDup_singleton.
  - cbn [map fst] in Hnd. apply NoDup_cons in Hnd. destruct Hnd as [Hk' Hnd].
    destruct (String.eqb_spec k' k) as [-> | Hne]; cbn [map fst].
    + apply NoDup_cons. split; assumption.
    + apply NoDup_cons. split; [ | apply IH, Hnd ].
      intros Hin. apply list_elem_of_In, dict_set_keys in Hin.
      destruct Hin as [-> | Hin]; [ contradiction | ].
      apply Hk', list_elem_of_In, Hin.
Qed.

(** Up to order, [d[k] = v] removes the item of key [k] and adds [(k, v)]. *)
Lemma dict_set_perm (d : dict V) (k : string) (v : V) :
  NoDup (map fst d) ->
  dict_set d k v ≡ₚ (k, v) :: List.filter (fun kv => negb (String.eqb (fst kv) k)) d.
Proof.
  induction d as [ | [k' v'] d IH]; intros Hnd; cbn [dict_set List.filter fst].
  - reflexivity.
  - cbn [map fst] in Hnd. apply NoDup_cons in Hnd. destruct Hnd as [Hk' Hnd].
    destruct (String.eqb_spec k' k) as [-> | Hne]; cbn [negb].
    + apply Permutation_cons; [ reflexivity | ].
      clear IH Hnd. induction d as [ | [k1 v1] d IH]; [ reflexivity | ].
      cbn [List.filter fst]. destruct (String.eqb_spec k1 k) as [-> | Hne].
      * exfalso. apply Hk'. cbn. left.
      * cbn [negb]. apply Permutation_cons; [ reflexivity | ].
        apply IH. intros Hin. apply Hk'. cbn. right. exact Hin.
    + rewrite IH by exact Hnd. apply Permutation_swap.
Qed.

Lemma filter_perm (f : string * V -> bool) (l1 l2 : list (string * V)) :
  l1 ≡ₚ l2 -> List.filter f l1 ≡ₚ List.filter f l2.
Proof.
  induction 1 as [ | x l1 l2 _ IH | x y l | l1 l2 l3 _ IH1 _ IH2];
    cbn [List.filter].
  - reflexivity.
  - destruct (f x); [ apply Permutation_cons; [ reflexivity | exact IH ] | exact IH ].
  - destruct (f x), (f y); try reflexivity. apply Permutation_swap.
  - etransitivity; eassumption.
Qed.

Lemma dict_set_perm_proper (d1 d2 : dict V) (k : string) (v : V) :
  NoDup (map fst d1) -> d1 ≡ₚ d2 -> dict_set d1 k v ≡ₚ dict_set d2 k v.
Proof.
  intros Hnd Hp.
  assert (Hnd2 : NoDup (map fst d2)) by (rewrite <- Hp; exact Hnd).
  rewrite !dict_set_perm by assumption.
  apply Permutation_cons; [ reflexivity | ]. apply filter_perm, Hp.
Qed.

Lemma py_dict_from (items acc : list (string * V)) :
  NoDup (map fst (acc ++ items)) ->
  fold_left (fun d kv => dict_set d (fst kv) (snd kv)) items acc
  = (acc ++ items)%list.
Proof.
  revert acc. induction items as [ | [k v] items IH]; intros acc Hnd; cbn [fold_left fst snd].
  - rewrite app_nil_r. reflexivity.
  - replace (acc ++ (k, v) :: items)%list with ((acc ++ [(k, v)]) ++ items)%list in *
      by (rewrite <- app_assoc; reflexivity).
    rewrite dict_set_absent.
    + apply IH, Hnd.
    + rewrite !map_app in Hnd. apply NoDup_app in Hnd. destruct Hnd as (Hnd & _ & _).
      apply NoDup_app in Hnd. destruct Hnd as (_ & Hd & _).
      intros Hin. apply (Hd k); [ apply list_elem_of_In, Hin | ].
      cbn. left.
Qed.

(** [dict(items)] on items with distinct keys keeps them as they are. *)
Lemma py_dict_id (items : list (string * V)) :
  NoDup (map fst items) -> py_dict items = items.
Proof. intros Hnd. unfold py_dict. apply (py_dict_from items []), Hnd. Qed.

End Dicts.

End SignerFacts.

(** ** Request signing: the canonical parameters and the signature *)

Module EncWbiFacts.
Import Signer SignerFacts.


Lemma canonical_sorted (params : dict param) (t : Z) :
  NoDup (map fst params) ->
  canonical params t = map render (py_sorted (dict_set params "wts" (PInt t))).
Proof.
  intros Hnd. unfold canonical. cbv zeta. rewrite py_dict_id; [ reflexivity | ].
  rewrite py_sorted_perm. apply dict_set_NoDup, Hnd.
Qed.

Lemma canonical_keys (params : dict param) (t : Z) :
  NoDup (map fst params) ->
  map fst (canonical params t) = map fst (py_sorted (dict_set params "wts" (PInt t))).
Proof.
  intros Hnd. rewrite canonical_sorted by exact Hnd.
  rewrite List.map_map. reflexivity.
Qed.

Lemma sorted_keys {V : Type} (l : list (string * V)) :
  Sorted key_le l -> Sorted (fun a b => String.leb a b = true) (map fst l).
Proof.
  induction 1 as [ | x l Hs IH Hhd]; cbn [map]; constructor.
  - exact IH.
  - destruct Hhd as [ | y l Hxy]; cbn [map]; constructor. exact Hxy.
Qed.

Lemma strip_chars_clean (s : string) (c : ascii) :
  In c (list_ascii_of_string (strip_chars s)) ->
  ~ In c (list_ascii_of_string "!'()*").
Proof.
  unfold strip_chars. rewrite list_ascii_of_string_of_list_ascii.
  intros H. apply List.filter_In in H. destruct H as [_ H].
  apply negb_true_iff in H. intros Hin.
  assert (E : existsb (Ascii.eqb c) (list_ascii_of_string "!'()*") = true).
  { apply List.existsb_exists. exists c. split; [ exact Hin | apply Ascii.eqb_refl ]. }
  congruence.
Qed.

Lemma encWbi_unfold (urlencode : dict string -> string) (md5_hexdigest : string -> string)
      (params : dict param) (img_key sub_key mixin_key : string) (t : Z) :
  getMixinKey (img_key ++ sub_key) = Ok mixin_key ->
  encWbi urlencode md5_hexdigest params img_key sub_key t
  = Ok (dict_set (canonical params t) "w_rid"
                 (md5_hexdigest (urlencode (canonical params t) ++ mixin_key))).
Proof. intros H. unfold encWbi, canonical. rewrite H. reflexivity. Qed.

Lemma canonical_perm (params params' : dict param) (t : Z) :
  NoDup (map fst params) -> params ≡ₚ params' ->
  canonical params' t = canonical params t.
Proof.
  intros Hnd Hp.
  assert (Hnd' : NoDup (map fst params')) by (rewrite <- Hp; exact Hnd).
  rewrite !canonical_sorted by assumption. f_equal.
  symmetry. apply py_sorted_canonical.
  - apply dict_set_NoDup, Hnd.
  - apply dict_set_perm_proper; assumption.
Qed.

End EncWbiFacts.

(** C6.  For every parameter set, in every order of its keys, the
    canonicalization of [encWbi] produces the same parameters: the keys of
    the input and [wts], in lexicographic order and each once, every value
    turned into a string with the characters ! ' ( ) * removed.  [encWbi]
    signs these canonical parameters and returns them with the signature
    stored under [w_rid], which comes last when the input has no such key.
    In particular for the input {b: "x", a: "y!z"} the key a comes before b
    and the value of a is "yz" (the witness below). *)
Theorem C6_canonical_then_signature
    (urlencode : Signer.dict string -> string) (md5_hexdigest : string -> string)
    (params params' : Signer.dict Signer.param)
    (img_key sub_key mixin_key : string) (t : Z) :
  NoDup (map fst params) ->
  params ≡ₚ params' ->
  Signer.getMixinKey (img_key ++ sub_key) = Ok mixin_key ->
  let canon := Signer.canonical params t in
  let w_rid := md5_hexdigest (urlencode canon ++ mixin_key) in
  Signer.encWbi urlencode md5_hexdigest params img_key sub_key t
    = Ok (Signer.dict_set canon "w_rid" w_rid) /\
  Signer.encWbi urlencode md5_hexdigest params' img_key sub_key t
    = Signer.encWbi urlencode md5_hexdigest params img_key sub_key t /\
  Sorted (fun a b => String.leb a b = true) (map fst canon) /\
  NoDup (map fst canon) /\
  (forall k, In k (map fst canon) <-> k = "wts" \/ In k (map fst params)) /\
  (forall k v, In (k, v) canon ->
     (exists pv, In (k, pv) (Signer.dict_set params "wts" (Signer.PInt t)) /\
                 v = Signer.strip_chars (Signer.py_str pv)) /\
     (forall c, In c (list_ascii_of_string v) ->
                ~ In c (list_ascii_of_string "!'()*"))) /\
  (~ In "w_rid" (map fst params) ->
   Signer.dict_set canon "w_rid" w_rid = (canon ++ [("w_rid", w_rid)])%list).
Proof.
  intros Hnd Hp Hmix canon w_rid.
  assert (Hnd' : NoDup (map fst params')) by (rewrite <- Hp; exact Hnd).
  assert (Hkeys : map fst canon ≡ₚ map fst (Signer.dict_set params "wts" (Signer.PInt t))).
  { unfold canon. rewrite EncWbiFacts.canonical_keys by exact Hnd.
    apply Permutation_map, SignerFacts.py_sorted_perm. }
  assert (Hin : forall k, In k (map fst canon) <-> k = "wts" \/ In k (map fst params)).
  { intros k. rewrite <- SignerFacts.dict_set_keys. split; intros H.
    - apply list_elem_of_In. rewrite <- Hkeys. apply list_elem_of_In, H.
    - apply list_elem_of_In. rewrite Hkeys. apply list_elem_of_In, H. }
  split; [ apply EncWbiFacts.encWbi_unfold, Hmix | ].
  split.
  { rewrite !(EncWbiFacts.encWbi_unfold _ _ _ _ _ _ _ Hmix).
    rewrite (EncWbiFacts.canonical_perm params params' t Hnd Hp). reflexivity. }
  split.
  { unfold canon. rewrite EncWbiFacts.canonical_keys by exact Hnd.
    apply EncWbiFacts.sorted_keys, SignerFacts.py_sorted_sorted. }
  split.
  { rewrite Hkeys. apply SignerFacts.dict_set_NoDup, Hnd. }
  split; [ exact Hin | ].
  split.
  { intros k v Hkv. unfold canon in Hkv.
    rewrite EncWbiFacts.canonical_sorted in Hkv by exact Hnd.
    apply in_map_iff in Hkv. destruct Hkv as ([k' pv] & [= <- <-] & Hpv).
    split.
    - exists pv. split; [ | reflexivity ].
      apply list_elem_of_In. rewrite <- (SignerFacts.py_sorted_perm _).
      apply list_elem_of_In, Hpv.
    - intros c Hc. eapply EncWbiFacts.strip_chars_clean, Hc. }
  intros Hno. apply SignerFacts.dict_set_absent.
  rewrite Hin. intros [H | H]; [ discriminate | contradiction ].
Qed.

Lemma C6_canonical_then_signature_witness :
  let expected := [ ("a", "yz"); ("b", "x"); ("wts", "1730000000");
                    ("w_rid", "00000000000000000000000000000000") ] in
  Signer.encWbi Scenario.constant_query Scenario.constant_digest
    [("b", Signer.PStr "x"); ("a", Signer.PStr "y!z")]
    Scenario.img_key Scenario.sub_key 1730000000 = Ok expected /\
  Signer.encWbi Scenario.constant_query Scenario.constant_digest
    [("a", Signer.PStr "y!z"); ("b", Signer.PStr "x")]
    Scenario.img_key Scenario.sub_key 1730000000 = Ok expected.
Proof.
  cbv zeta.
  assert (Hnd : NoDup (map fst [("b", Signer.PStr "x"); ("a", Signer.PStr "y!z")])).
  { cbn [map fst]. apply NoDup_cons. split; [ | apply NoDup_singleton ].
    intros H. apply list_elem_of_In in H. destruct H as [H | []]. discriminate H. }
  assert (Hp : [("b", Signer.PStr "x"); ("a", Signer.PStr "y!z")]
               ≡ₚ [("a", Signer.PStr "y!z"); ("b", Signer.PStr "x")])
    by apply Permutation_swap.
  assert (Hmix : Signer.getMixinKey (Scenario.img_key ++ Scenario.sub_key)
                 = Ok "ea1db124af3c7062474693fa704f4ff8")
    by (vm_compute; reflexivity).
  destruct (C6_canonical_then_signature
              Scenario.constant_query Scenario.constant_digest
              _ _ Scenario.img_key Scenario.sub_key _ 1730000000 Hnd Hp Hmix)
    as (H1 & H2 & _).
  split.
  - rewrite H1. vm_compute. reflexivity.
  - rewrite H2, H1. vm_compute. reflexivity.
Defined.

(** The signature is added after the canonicalization: for the
    parameters above the keys of the result are a, b, wts, w_rid in that
    order, so the entry of the signature stands after [wts] although
    "w_rid" sorts before "wts". *)
Remark signature_stored_last :
  exists out,
    Signer.encWbi Scenario.constant_query Scenario.constant_digest
      [("b", Signer.PStr "x"); ("a", Signer.PStr "y!z")]
      Scenario.img_key Scenario.sub_key 1730000000 = Ok out /\
    map fst out = ["a"; "b"; "wts"; "w_rid"] /\
    String.ltb "w_rid" "wts" = true /\
    ~ Sorted (fun a b => String.leb a b = true) (map fst out).
Proof.
  eexists. split; [ vm_compute; reflexivity | ].
  split; [ reflexivity | ]. split; [ reflexivity | ].
  cbn [map fst]. intros H.
  apply Sorted_inv in H. destruct H as [H _].
  apply Sorted_inv in H. destruct H as [H _].
  apply Sorted_inv in H. destruct H as [_ H].
  apply HdRel_inv in H. vm_compute in H. discriminate H.
Qed.

(* ================================================================== *)
(** * Further properties of the code *)

(** ** Codec: the whole domain of the encoder and of the decoder *)

Module CodecRange.
Import Codec.

Lemma aid2bvid_loop_length (fuel : nat) (tmp bv_idx : Z) (l l' : list ascii) :
  aid2bvid_loop fuel tmp bv_idx l = Ok l' -> length l' = length l.
Proof.
  revert tmp bv_idx l. induction fuel as [ | fuel IH]; intros tmp bv_idx l H;
    cbn [aid2bvid_loop] in H; [ discriminate | ].
  destruct (tmp =? 0); [ injection H as <-; reflexivity | ].
  destruct (py_getitem data (tmp mod BASE)) as [c | e]; cbn [bind] in H;
    [ | discriminate ].
  destruct (py_setitem l bv_idx c) as [l1 | e] eqn:E; cbn [bind] in H;
    [ | discriminate ].
  apply PyFacts.py_setitem_ok in E. destruct E as [_ E].
  rewrite (IH _ _ _ H). exact E.
Qed.

Lemma aid2bvid_loop_exn (fuel : nat) (tmp bv_idx : Z) (l : list ascii) (e : exn) :
  aid2bvid_loop fuel tmp bv_idx l = Raise e -> e = IndexError \/ e = FuelExhausted.
Proof.
  revert tmp bv_idx l. induction fuel as [ | fuel IH]; intros tmp bv_idx l H;
    cbn [aid2bvid_loop] in H.
  - right. congruence.
  - destruct (tmp =? 0); [ discriminate | ].
    destruct (py_getitem data (tmp mod BASE)) as [c | e1] eqn:E1; cbn [bind] in H.
    + destruct (py_setitem l bv_idx c) as [l1 | e2] eqn:E2; cbn [bind] in H.
      * eapply IH, H.
      * left. injection H as <-. eapply PyFacts.py_setitem_exn, E2.
    + left. injection H as <-. eapply PyFacts.py_getitem_exn, E1.
Qed.

Lemma py_swap_length {A : Type} (l l' : list A) (i j : Z) :
  py_swap l i j = Ok l' -> length l' = length l.
Proof.
  unfold py_swap.
  destruct (py_getitem l j) as [a | e]; cbn [bind]; [ | discriminate ].
  destruct (py_getitem l i) as [b | e]; cbn [bind]; [ | discriminate ].
  destruct (py_setitem l i a) as [l1 | e] eqn:E1; cbn [bind]; [ | discriminate ].
  intros E2. apply PyFacts.py_setitem_ok in E1. apply PyFacts.py_setitem_ok in E2.
  lia.
Qed.

Lemma length_string_of_list (l : list ascii) :
  String.length (string_of_list_ascii l) = length l.
Proof.
  rewrite <- PyFacts.length_list_ascii, list_ascii_of_string_of_list_ascii.
  reflexivity.
Qed.

(** A negative value never reaches zero by floor division: the loop goes on
    until a store falls off the buffer. *)
Lemma aid2bvid_loop_negative (fuel : nat) (tmp bv_idx : Z) (l : list ascii) :
  tmp < 0 ->
  bv_idx + Z.of_nat (length l) + 1 < Z.of_nat (S fuel) ->
  aid2bvid_loop (S fuel) tmp bv_idx l = Raise IndexError.
Proof.
  revert tmp bv_idx l. induction fuel as [ | fuel IH]; intros tmp bv_idx l Hneg Hf;
    rewrite CodecFacts.aid2bvid_loop_step by lia;
    (rewrite CodecFacts.getitem_data by (apply Z.mod_pos_bound; reflexivity));
    cbn [bind];
    destruct (py_setitem l bv_idx (digit (tmp mod BASE))) as [l1 | e] eqn:E;
    cbn [bind].
  - apply PyFacts.py_setitem_ok in E. lia.
  - apply PyFacts.py_setitem_exn in E. subst e. reflexivity.
  - apply PyFacts.py_setitem_ok in E. destruct E as [Hb Hl]. apply IH.
    + apply Z.div_lt_upper_bound; [ reflexivity | ]. unfold BASE. lia.
    + rewrite Hl. lia.
  - apply PyFacts.py_setitem_exn in E. subst e. reflexivity.
Qed.

Lemma masked_range (tmp : Z) :
  0 <= Z.lxor (Z.land tmp MASK_CODE) XOR_CODE < 2 ^ 51.
Proof.
  apply CodecFacts.lxor_small.
  rewrite CodecFacts.MASK_CODE_ones, Z.land_ones by lia.
  apply Z.mod_pos_bound. reflexivity.
Qed.

Lemma in_data_dec (l : list ascii) :
  Forall (fun c => In c data) l \/ Exists (fun c => ~ In c data) l.
Proof.
  induction l as [ | c l IH].
  - left. constructor.
  - destruct (in_dec ascii_dec c data) as [Hc | Hc].
    + destruct IH as [IH | IH].
      * left. constructor; assumption.
      * right. apply Exists_cons_tl, IH.
    + right. apply Exists_cons_hd, Hc.
Qed.

End CodecRange.

(** X1.  Whatever string the decoder accepts, the number it returns lies in
    [0, 2^51): the accumulator is masked to 51 bits and the constant of the
    exclusive or is below [2^51]. *)
Theorem X1_decoder_range (s : string) (n : Z) :
  Codec.bvid2aid s = Ok n -> 0 <= n < 2 ^ 51.
Proof.
  rewrite CodecFacts.bvid2aid_via_tmp.
  destruct (Codec.bvid2aid_tmp s) as [tmp | e]; cbn [bind]; [ | discriminate ].
  intros [= <-]. apply CodecRange.masked_range.
Qed.

Lemma X1_decoder_range_witness : 0 <= 80433022 < 2 ^ 51.
Proof.
  apply (X1_decoder_range "BV1GJ411x7h7" 80433022). vm_compute. reflexivity.
Defined.

(** X2.  The encoder is injective on [0, 2^51): two different numeric
    ids of the range never get the same coded id. *)
Theorem X2_encoder_injective (a b : Z) :
  0 <= a < 2 ^ 51 -> 0 <= b < 2 ^ 51 -> a <> b ->
  Codec.aid2bvid a <> Codec.aid2bvid b.
Proof.
  intros Ha Hb Hne H. apply Hne.
  pose proof (CodecFacts.lxor_small a Ha) as Hxa.
  pose proof (CodecFacts.lxor_small b Hb) as Hxb.
  rewrite !CodecFacts.aid2bvid_coded in H by assumption.
  apply (f_equal (fun r => let* s := r in Codec.bvid2aid s)) in H.
  cbn [bind] in H.
  rewrite !CodecFacts.bvid2aid_coded in H
    by (change (58 ^ 9) with 7427658739644928;
        change (2 ^ 51) with 2251799813685248 in *; lia).
  rewrite !CodecFacts.decoder_unmask in H by assumption.
  congruence.
Qed.

Lemma X2_encoder_injective_witness :
  Codec.aid2bvid 170001 <> Codec.aid2bvid 80433022.
Proof.
  apply (X2_encoder_injective 170001 80433022);
    [ split; [ discriminate | reflexivity ] .. | discriminate ].
Defined.

(** X3.  The encoder does not check its range: bit 51 of the argument is
    set before anything else, so [2^51 + n] is encoded exactly as [n] is,
    for every [n] of [0, 2^51). *)
Theorem X3_encoder_aliases_bit_51 (n : Z) :
  0 <= n < 2 ^ 51 ->
  Codec.aid2bvid (2 ^ 51 + n) = Codec.aid2bvid n.
Proof.
  intros Hn. unfold Codec.aid2bvid. cbv zeta.
  rewrite <- (CodecFacts.top_plus n Hn), CodecFacts.MAX_AID_pow2.
  rewrite Z.lor_assoc, Z.lor_diag. reflexivity.
Qed.

Lemma X3_encoder_aliases_bit_51_witness :
  Codec.aid2bvid (2 ^ 51 + 170001) = Codec.aid2bvid 170001.
Proof.
  apply (X3_encoder_aliases_bit_51 170001). split; [ discriminate | reflexivity ].
Defined.

(** X4.  A negative argument makes the encoder raise [IndexError]: the
    value it divides is negative, floor division never brings it to zero,
    and the 25th store falls off the buffer. *)
Theorem X4_encoder_negative (aid : Z) :
  aid < 0 -> Codec.aid2bvid aid = Raise IndexError.
Proof.
  intros Ha. unfold Codec.aid2bvid. cbv zeta.
  change Codec.aid2bvid_fuel with (S 24).
  rewrite CodecRange.aid2bvid_loop_negative; [ reflexivity | | reflexivity ].
  assert (H1 : Z.lor Codec.MAX_AID aid < 0) by (apply Z.lor_neg; right; exact Ha).
  destruct (Z.lt_ge_cases (Z.lxor (Z.lor Codec.MAX_AID aid) Codec.XOR_CODE) 0)
    as [H | H]; [ exact H | ].
  apply Z.lxor_nonneg in H.
  assert (H2 : 0 <= Z.lor Codec.MAX_AID aid) by (apply H; discriminate).
  lia.
Qed.

Lemma X4_encoder_negative_witness : Codec.aid2bvid (-1) = Raise IndexError.
Proof. apply (X4_encoder_negative (-1)). reflexivity. Defined.

(** X5.  On every integer the encoder either returns a string of exactly
    12 characters or raises [IndexError]; it does nothing else. *)
Theorem X5_encoder_outcomes (aid : Z) :
  (exists s, Codec.aid2bvid aid = Ok s /\ String.length s = 12%nat) \/
  Codec.aid2bvid aid = Raise IndexError.
Proof.
  pose proof (CodecEdges.aid2bvid_never_out_of_fuel aid) as Hfuel.
  unfold Codec.aid2bvid in *. cbv zeta in *.
  destruct (Codec.aid2bvid_loop Codec.aid2bvid_fuel _ _ _) as [l | e] eqn:E;
    cbn [bind] in *.
  - apply CodecRange.aid2bvid_loop_length in E.
    destruct (py_swap l 3 9) as [l1 | e1] eqn:E1; cbn [bind] in *.
    + apply CodecRange.py_swap_length in E1.
      destruct (py_swap l1 4 7) as [l2 | e2] eqn:E2; cbn [bind] in *.
      * apply CodecRange.py_swap_length in E2. left. eexists. split; [ reflexivity | ].
        rewrite CodecRange.length_string_of_list, E2, E1, E. reflexivity.
      * right. apply PyFacts.py_swap_exn in E2. subst e2. reflexivity.
    + right. apply PyFacts.py_swap_exn in E1. subst e1. reflexivity.
  - right. apply CodecRange.aid2bvid_loop_exn in E. destruct E as [-> | ->];
      [ reflexivity | contradiction ].
Qed.

(** X6.  The decoder returns a number exactly on the strings of at least
    10 characters whose characters from position 3 on are all entries of
    the table; it checks neither an upper bound on the length nor the first
    three characters. *)
Theorem X6_decoder_accepts (s : string) :
  (exists n, Codec.bvid2aid s = Ok n) <->
  (10 <= String.length s)%nat /\
  Forall (fun c => In c Codec.data) (drop 3 (list_ascii_of_string s)).
Proof.
  split.
  - intros [n Hn].
    destruct (Nat.lt_ge_cases (String.length s) 10) as [Hs | Hl].
    { rewrite CodecEdges.bvid2aid_short in Hn by exact Hs. discriminate. }
    split; [ exact Hl | ].
    destruct (CodecRange.in_data_dec (drop 3 (list_ascii_of_string s))) as [H | H];
      [ exact H | ].
    rewrite (CodecEdges.bvid2aid_bad_char s Hl H) in Hn. discriminate.
  - intros [Hlen Hall].
    rewrite <- PyFacts.length_list_ascii in Hlen.
    rewrite <- (string_of_list_ascii_of_string s).
    destruct (CodecEdges.list_10 _ Hlen)
      as (a0 & a1 & a2 & a3 & a4 & a5 & a6 & a7 & a8 & a9 & rest & E).
    rewrite E in Hall |- *. cbn [drop] in Hall.
    rewrite CodecFacts.bvid2aid_via_tmp, CodecEdges.bvid2aid_tmp_10.
    destruct (CodecFacts.bvid2aid_loop_total
                (a9 :: a7 :: a5 :: a6 :: a4 :: a8 :: a3 :: rest) 0) as [r Hr].
    + rewrite List.Forall_forall in Hall |- *. intros c Hc. apply Hall.
      cbn [In] in Hc |- *. tauto.
    + rewrite Hr. eexists. reflexivity.
Qed.

(** ** Construction and the state of the credentials *)



(** ** Request signing: the mixed key and the two fields of the signature *)

Module MixinFacts.
Import Signer SignerSpec.

Lemma get_lookup (s : string) (n : nat) :
  String.get n s = list_ascii_of_string s !! n.
Proof.
  revert n. induction s as [ | c s IH]; intros [ | n]; cbn; try reflexivity.
  apply IH.
Qed.

Lemma getMixinKey_reduce_ok (orig : list ascii) (tab : list Z) (s : list ascii) :
  Forall (fun i => 0 <= i < Z.of_nat (length orig)) tab ->
  getMixinKey_reduce orig tab s = Ok (s ++ map (at_index orig) tab)%list.
Proof.
  intros H. revert s. induction H as [ | i tab Hi _ IH]; intros s;
    cbn [getMixinKey_reduce map].
  - rewrite app_nil_r. reflexivity.
  - destruct (orig !! Z.to_nat i) as [c | ] eqn:E.
    + rewrite (PyFacts.py_getitem_at orig i c) by (lia || exact E). cbn [bind].
      rewrite IH, <- app_assoc. unfold at_index at 2. rewrite E. reflexivity.
    + apply lookup_ge_None in E. lia.
Qed.

Lemma getMixinKey_reduce_inv (orig : list ascii) (tab : list Z) (s r : list ascii) :
  getMixinKey_reduce orig tab s = Ok r ->
  Forall (fun i => i < Z.of_nat (length orig)) tab.
Proof.
  revert s. induction tab as [ | i tab IH]; intros s H; cbn [getMixinKey_reduce] in H.
  - constructor.
  - unfold py_getitem in H.
    destruct (py_norm_index (length orig) i) as [n | e] eqn:E; cbn [bind] in H;
      [ | discriminate ].
    destruct (orig !! n) as [c | ]; [ | discriminate ].
    apply PyFacts.py_norm_index_ok in E.
    constructor; [ lia | eapply IH, H ].
Qed.

Lemma getMixinKey_reduce_exn (orig : list ascii) (tab : list Z) (s : list ascii) (e : exn) :
  getMixinKey_reduce orig tab s = Raise e -> e = IndexError.
Proof.
  revert s. induction tab as [ | i tab IH]; intros s H; cbn [getMixinKey_reduce] in H.
  - discriminate.
  - destruct (py_getitem orig i) as [c | e1] eqn:E; cbn [bind] in H.
    + eapply IH, H.
    + injection H as <-. eapply PyFacts.py_getitem_exn, E.
Qed.

Lemma table_range :
  Forall (fun i => 0 <= i < 64) mixinKeyEncTab.
Proof.
  apply List.Forall_forall. intros i Hi.
  assert (H : forallb (fun i => (0 <=? i) && (i <? 64)) mixinKeyEncTab = true)
    by reflexivity.
  rewrite forallb_forall in H. specialize (H i Hi).
  apply andb_true_iff in H. destruct H as [H1 H2].
  apply Z.leb_le in H1. apply Z.ltb_lt in H2. lia.
Qed.

Lemma getMixinKey_short (orig : string) :
  (String.length orig < 64)%nat -> getMixinKey orig = Raise IndexError.
Proof.
  intros H. unfold getMixinKey.
  destruct (getMixinKey_reduce (list_ascii_of_string orig) mixinKeyEncTab [])
    as [r | e] eqn:E; cbn [bind].
  - apply getMixinKey_reduce_inv in E. rewrite List.Forall_forall in E.
    specialize (E 63). rewrite PyFacts.length_list_ascii in E.
    assert (Hin : In 63 mixinKeyEncTab) by (vm_compute; tauto).
    specialize (E Hin). lia.
  - apply getMixinKey_reduce_exn in E. subst e. reflexivity.
Qed.

End MixinFacts.

(** X8.  On a string of at least 64 characters, [getMixinKey] returns a
    key of exactly 32 characters, and the character at position [j] of the
    key is the character of the input at position [mixinKeyEncTab[j]]. *)
Theorem X8_mixin_key (orig : string) :
  (64 <= String.length orig)%nat ->
  exists key,
    Signer.getMixinKey orig = Ok key /\
    String.length key = 32%nat /\
    forall j, (j < 32)%nat ->
      String.get j key = String.get (Z.to_nat (nth j Signer.mixinKeyEncTab 0)) orig.
Proof.
  intros Hlen. unfold Signer.getMixinKey.
  rewrite MixinFacts.getMixinKey_reduce_ok.
  2:{ eapply Forall_impl; [ apply MixinFacts.table_range | ].
      cbn beta. intros i Hi. rewrite PyFacts.length_list_ascii. lia. }
  cbn [bind app]. eexists. split; [ reflexivity | ].
  unfold Signer.mixinKeyEncTab. cbn [map take].
  split; [ reflexivity | ].
  intros j Hj.
  assert (Hat : forall i, 0 <= i < 64 ->
            Some (SignerSpec.at_index (list_ascii_of_string orig) i)
            = String.get (Z.to_nat i) orig).
  { intros i Hi. rewrite MixinFacts.get_lookup. unfold SignerSpec.at_index.
    destruct (list_ascii_of_string orig !! Z.to_nat i) as [c | ] eqn:E;
      [ reflexivity | ].
    apply lookup_ge_None in E. rewrite PyFacts.length_list_ascii in E. lia. }
  do 32 (destruct j as [ | j];
         [ cbn [string_of_list_ascii String.get nth]; apply Hat; lia | ]).
  lia.
Qed.

Lemma X8_mixin_key_witness :
  exists key,
    Signer.getMixinKey (Scenario.img_key ++ Scenario.sub_key) = Ok key /\
    String.length key = 32%nat /\
    forall j, (j < 32)%nat ->
      String.get j key =
      String.get (Z.to_nat (nth j Signer.mixinKeyEncTab 0))
                 (Scenario.img_key ++ Scenario.sub_key).
Proof.
  apply (X8_mixin_key (Scenario.img_key ++ Scenario.sub_key)).
  apply Nat.leb_le. reflexivity.
Defined.

(** X9.  When the two key fragments have fewer than 64 characters
    together, [encWbi] raises [IndexError], whatever the parameters: the
    table of [getMixinKey] is read to its end, and it holds the index 63. *)
Theorem X9_short_keys_rejected
    (urlencode : Signer.dict string -> string) (md5_hexdigest : string -> string)
    (params : Signer.dict Signer.param) (img_key sub_key : string) (t : Z) :
  (String.length (img_key ++ sub_key) < 64)%nat ->
  Signer.getMixinKey (img_key ++ sub_key) = Raise IndexError /\
  Signer.encWbi urlencode md5_hexdigest params img_key sub_key t = Raise IndexError.
Proof.
  intros H. pose proof (MixinFacts.getMixinKey_short _ H) as E.
  split; [ exact E | ]. unfold Signer.encWbi. rewrite E. reflexivity.
Qed.

Lemma X9_short_keys_rejected_witness :
  Signer.getMixinKey (Scenario.img_key ++ "4932caff0ff746eab6f01bf08b70ac4")
    = Raise IndexError /\
  Signer.encWbi Scenario.constant_query Scenario.constant_digest
    [("bvid", Signer.PStr "BV1GJ411x7h7")]
    Scenario.img_key "4932caff0ff746eab6f01bf08b70ac4" 1730000000 = Raise IndexError.
Proof.
  apply (X9_short_keys_rejected Scenario.constant_query Scenario.constant_digest
           [("bvid", Signer.PStr "BV1GJ411x7h7")]
           Scenario.img_key "4932caff0ff746eab6f01bf08b70ac4" 1730000000).
  apply Nat.ltb_lt. reflexivity.
Defined.

(** ** Request signing: the two fields of the signature *)

Module FieldFacts.
Import Signer SignerFacts.

Lemma dict_set_in {V : Type} (d : dict V) (k k' : string) (v v' : V) :
  NoDup (map fst d) ->
  In (k', v') (dict_set d k v) <->
  (k' = k /\ v' = v) \/ (k' <> k /\ In (k', v') d).
Proof.
  intros Hnd. pose proof (dict_set_perm d k v Hnd) as Hp.
  rewrite <- !list_elem_of_In, Hp, !list_elem_of_In.
  cbn [In]. rewrite List.filter_In. cbn [fst].
  rewrite negb_true_iff. split.
  - intros [[= <- <-] | [Hin Hk]]; [ left; split; reflexivity | right ].
    split; [ | exact Hin ]. intros ->. rewrite String.eqb_refl in Hk. discriminate.
  - intros [[-> ->] | [Hk Hin]]; [ left; reflexivity | right ].
    split; [ exact Hin | ]. apply String.eqb_neq, Hk.
Qed.

Lemma strip_chars_cons (c : ascii) (s : string) :
  existsb (Ascii.eqb c) (list_ascii_of_string "!'()*") = false ->
  strip_chars (String c s) = String c (strip_chars s).
Proof.
  intros H. unfold strip_chars.
  change (list_ascii_of_string (String c s)) with (c :: list_ascii_of_string s).
  cbn [List.filter]. rewrite H. reflexivity.
Qed.

Lemma strip_chars_uint (u : Decimal.uint) :
  strip_chars (NilEmpty.string_of_uint u) = NilEmpty.string_of_uint u.
Proof.
  induction u as [ | u IH | u IH | u IH | u IH | u IH | u IH | u IH | u IH | u IH | u IH ];
    cbn [NilEmpty.string_of_uint]; [ reflexivity | .. ];
    rewrite strip_chars_cons by reflexivity; rewrite IH; reflexivity.
Qed.

(** The decimal form of an integer has none of the five characters. *)
Lemma strip_chars_int (n : Z) : strip_chars (py_str_int n) = py_str_int n.
Proof.
  unfold py_str_int, NilZero.string_of_int.
  destruct (Z.to_int n) as [u | u].
  - destruct u; try reflexivity; apply strip_chars_uint.
  - rewrite strip_chars_cons by reflexivity. f_equal.
    destruct u; try reflexivity; apply strip_chars_uint.
Qed.

Lemma canonical_NoDup (params : dict param) (t : Z) :
  NoDup (map fst params) -> NoDup (map fst (canonical params t)).
Proof.
  intros Hnd. rewrite EncWbiFacts.canonical_keys by exact Hnd.
  rewrite py_sorted_perm. apply dict_set_NoDup, Hnd.
Qed.

Lemma canonical_in (params : dict param) (t : Z) (k v : string) :
  NoDup (map fst params) ->
  In (k, v) (canonical params t) <->
  exists pv, In (k, pv) (dict_set params "wts" (PInt t)) /\
             v = strip_chars (py_str pv).
Proof.
  intros Hnd. rewrite EncWbiFacts.canonical_sorted by exact Hnd.
  rewrite in_map_iff. split.
  - intros ([k' pv] & [= <- <-] & Hin). exists pv. split; [ | reflexivity ].
    apply list_elem_of_In. rewrite <- (py_sorted_perm _). apply list_elem_of_In, Hin.
  - intros (pv & Hin & ->). exists (k, pv). split; [ reflexivity | ].
    apply list_elem_of_In. rewrite py_sorted_perm. apply list_elem_of_In, Hin.
Qed.

End FieldFacts.

(** X10.  Whatever the caller put under [wts] and [w_rid], the result of
    [encWbi] holds under [wts] the decimal form of the current time and
    nothing else, and under [w_rid] the digest of the query string followed
    by the mixed key and nothing else. *)
Theorem X10_signature_fields
    (urlencode : Signer.dict string -> string) (md5_hexdigest : string -> string)
    (params : Signer.dict Signer.param) (img_key sub_key mixin_key : string) (t : Z) :
  NoDup (map fst params) ->
  Signer.getMixinKey (img_key ++ sub_key) = Ok mixin_key ->
  exists out,
    Signer.encWbi urlencode md5_hexdigest params img_key sub_key t = Ok out /\
    (forall v, In ("wts", v) out <-> v = py_str_int t) /\
    (forall v, In ("w_rid", v) out <->
               v = md5_hexdigest (urlencode (Signer.canonical params t) ++ mixin_key)).
Proof.
  intros Hnd Hmix. eexists. split; [ apply EncWbiFacts.encWbi_unfold, Hmix | ].
  pose proof (FieldFacts.canonical_NoDup params t Hnd) as Hc.
  split; intros v; rewrite (FieldFacts.dict_set_in _ _ _ _ _ Hc).
  - split.
    + intros [[H _] | [_ H]]; [ discriminate | ].
      apply FieldFacts.canonical_in in H; [ | exact Hnd ].
      destruct H as (pv & Hin & ->).
      apply FieldFacts.dict_set_in in Hin; [ | exact Hnd ].
      destruct Hin as [[_ ->] | [Hk _]]; [ | contradiction ].
      apply FieldFacts.strip_chars_int.
    + intros ->. right. split; [ discriminate | ].
      apply FieldFacts.canonical_in; [ exact Hnd | ].
      exists (Signer.PInt t). split.
      * apply FieldFacts.dict_set_in; [ exact Hnd | ]. left. split; reflexivity.
      * symmetry. apply FieldFacts.strip_chars_int.
  - split.
    + intros [[_ H] | [H _]]; [ exact H | contradiction ].
    + intros ->. left. split; reflexivity.
Qed.

Lemma X10_signature_fields_witness :
  exists out,
    Signer.encWbi Scenario.constant_query Scenario.constant_digest
      [("w_rid", Signer.PStr "mine"); ("wts", Signer.PInt 5)]
      Scenario.img_key Scenario.sub_key 1730000000 = Ok out /\
    (forall v, In ("wts", v) out <-> v = py_str_int 1730000000) /\
    (forall v, In ("w_rid", v) out <->
               v = Scenario.constant_digest
                     (Scenario.constant_query
                        (Signer.canonical [("w_rid", Signer.PStr "mine");
                                           ("wts", Signer.PInt 5)] 1730000000)
                      ++ "ea1db124af3c7062474693fa704f4ff8")).
Proof.
  apply (X10_signature_fields Scenario.constant_query Scenario.constant_digest
           [("w_rid", Signer.PStr "mine"); ("wts", Signer.PInt 5)]
           Scenario.img_key Scenario.sub_key "ea1db124af3c7062474693fa704f4ff8"
           1730000000).
  - cbn [map fst]. apply NoDup_cons. split; [ | apply NoDup_singleton ].
    intros H. apply list_elem_of_In in H. destruct H as [H | []]. discriminate H.
  - vm_compute. reflexivity.
Defined.

(** ** The signing keys: the file names of the two addresses *)

Module SplitFacts.

Lemma in_app_string (c : ascii) (a b : string) :
  In c (list_ascii_of_string (a ++ b)) <->
  In c (list_ascii_of_string a) \/ In c (list_ascii_of_string b).
Proof.
  induction a as [ | x a IH]; cbn [append list_ascii_of_string In].
  - tauto.
  - rewrite IH. tauto.
Qed.

Lemma absent_by_test (c : ascii) (s : string) :
  existsb (Ascii.eqb c) (list_ascii_of_string s) = false ->
  ~ In c (list_ascii_of_string s).
Proof.
  intros H Hin.
  assert (E : existsb (Ascii.eqb c) (list_ascii_of_string s) = true).
  { apply List.existsb_exists. exists c. split; [ exact Hin | apply Ascii.eqb_refl ]. }
  congruence.
Qed.

Lemma rsplit_once_absent (sep : ascii) (s : string) :
  ~ In sep (list_ascii_of_string s) -> rsplit_once sep s = None.
Proof.
  induction s as [ | c s IH]; cbn [list_ascii_of_string In rsplit_once]; intros H.
  - reflexivity.
  - rewrite IH by tauto.
    destruct (Ascii.eqb_spec c sep) as [-> | Hne]; [ tauto | reflexivity ].
Qed.

(** The split is at the last separator: what follows it has none. *)
Lemma rsplit_once_last (sep : ascii) (before after : string) :
  ~ In sep (list_ascii_of_string after) ->
  rsplit_once sep (before ++ String sep after) = Some (before, after).
Proof.
  intros H. induction before as [ | c before IH]; cbn [append rsplit_once].
  - rewrite rsplit_once_absent by exact H. rewrite Ascii.eqb_refl. reflexivity.
  - rewrite IH. reflexivity.
Qed.

(** The first piece ends at the first separator. *)
Lemma py_split_first (sep : ascii) (first rest : string) :
  ~ In sep (list_ascii_of_string first) ->
  exists pieces, py_split sep (first ++ String sep rest) = first :: pieces.
Proof.
  induction first as [ | c first IH]; cbn [append list_ascii_of_string In py_split];
    intros H.
  - rewrite Ascii.eqb_refl. eexists. reflexivity.
  - destruct (Ascii.eqb_spec c sep) as [-> | Hne]; [ tauto | ].
    destruct IH as [pieces ->]; [ tauto | ]. eexists. reflexivity.
Qed.

Lemma key_of_url_stem (dir stem ext : string) :
  ~ In "/"%char (list_ascii_of_string stem) ->
  ~ In "."%char (list_ascii_of_string stem) ->
  ~ In "/"%char (list_ascii_of_string ext) ->
  WbiKeys.key_of_url (VStr (dir ++ "/" ++ stem ++ "." ++ ext)) = Ok stem.
Proof.
  intros H1 H2 H3. unfold WbiKeys.key_of_url, py_rsplit1.
  change (dir ++ "/" ++ stem ++ "." ++ ext)
    with (dir ++ String "/" (stem ++ String "." ext)).
  rewrite rsplit_once_last.
  2:{ rewrite in_app_string. cbn [list_ascii_of_string In].
      intros [H | [H | H]]; [ tauto | discriminate | tauto ]. }
  cbn [py_getitem py_norm_index length Z.of_nat bind].
  change (py_getitem [dir; stem ++ String "." ext] 1)
    with (Ok (A := string) (stem ++ String "." ext)).
  cbn [bind].
  destruct (py_split_first "." stem ext H2) as [pieces ->].
  reflexivity.
Qed.


End SplitFacts.

(** X11.  When the document of the [nav] endpoint holds two addresses of
    the form directory/stem.extension, [getWbiKeys] returns the two stems,
    and [get_signed_params] is [encWbi] with these two stems as keys. *)
Theorem X11_keys_are_file_stems
    (urlencode : Signer.dict string -> string) (md5_hexdigest : string -> string)
    (document data wbi_img : list (string * value))
    (dir1 stem1 ext1 dir2 stem2 ext2 : string)
    (params : Signer.dict Signer.param) (t : Z) :
  assoc "data" document = Some (VDict data) ->
  assoc "wbi_img" data = Some (VDict wbi_img) ->
  assoc "img_url" wbi_img = Some (VStr (dir1 ++ "/" ++ stem1 ++ "." ++ ext1)) ->
  assoc "sub_url" wbi_img = Some (VStr (dir2 ++ "/" ++ stem2 ++ "." ++ ext2)) ->
  Forall (fun s => ~ In "/"%char (list_ascii_of_string s)) [stem1; ext1; stem2; ext2] ->
  Forall (fun s => ~ In "."%char (list_ascii_of_string s)) [stem1; stem2] ->
  WbiKeys.getWbiKeys (Ok (VDict document)) = Ok (stem1, stem2) /\
  WbiKeys.get_signed_params (Ok (VDict document)) urlencode md5_hexdigest params t
  = Signer.encWbi urlencode md5_hexdigest params stem1 stem2 t.
Proof.
  intros Hd Hw Hi Hs Hslash Hdot.
  rewrite List.Forall_forall in Hslash, Hdot. cbn [In] in Hslash, Hdot.
  assert (E : WbiKeys.getWbiKeys (Ok (VDict document)) = Ok (stem1, stem2)).
  { unfold WbiKeys.getWbiKeys. cbn [bind py_subscript_key].
    rewrite Hd. cbn [bind py_subscript_key]. rewrite Hw. cbn [bind py_subscript_key].
    rewrite Hi, Hs. cbn [bind].
    rewrite !SplitFacts.key_of_url_stem by (apply Hslash || apply Hdot; tauto).
    reflexivity. }
  split; [ exact E | ].
  unfold WbiKeys.get_signed_params. rewrite E. reflexivity.
Qed.

Lemma X11_keys_are_file_stems_witness :
  WbiKeys.getWbiKeys (Ok Scenario.nav_document)
  = Ok (Scenario.img_key, Scenario.sub_key) /\
  WbiKeys.get_signed_params (Ok Scenario.nav_document)
    Scenario.constant_query Scenario.constant_digest
    [("bvid", Signer.PStr "BV1GJ411x7h7")] 1730000000
  = Signer.encWbi Scenario.constant_query Scenario.constant_digest
      [("bvid", Signer.PStr "BV1GJ411x7h7")]
      Scenario.img_key Scenario.sub_key 1730000000.
Proof.
  unfold Scenario.nav_document.
  eapply (X11_keys_are_file_stems
            Scenario.constant_query Scenario.constant_digest
            _ _ _ "https://i0.hdslb.com/bfs/wbi" Scenario.img_key "png"
            "https://i0.hdslb.com/bfs/wbi" Scenario.sub_key "png");
    [ reflexivity | reflexivity | reflexivity | reflexivity | | ].
  - repeat (apply List.Forall_cons;
            [ apply SplitFacts.absent_by_test; reflexivity | ]).
    apply List.Forall_nil.
  - repeat (apply List.Forall_cons;
            [ apply SplitFacts.absent_by_test; reflexivity | ]).
    apply List.Forall_nil.
Defined.



(** ** The facade: the forms of a video identifier *)

Module IdFacts.

Lemma prefix_BV_first (video_id : string) :
  String.prefix "BV" video_id = true ->
  exists rest, video_id = String "B" rest.
Proof.
  destruct video_id as [ | c rest]; cbn [String.prefix]; [ discriminate | ].
  destruct (ascii_dec "B" c) as [<- | ]; [ | discriminate ].
  intros _. eexists. reflexivity.
Qed.

(** An identifier that starts with "BV" is not taken for a number. *)
Lemma coded_not_numeric (video_id : string) :
  String.prefix "BV" video_id = true ->
  String.prefix "av" video_id || py_isdigit video_id = false.
Proof.
  intros H. destruct (prefix_BV_first video_id H) as [rest ->]. reflexivity.
Qed.

(** A string of digits does not start with "BV". *)
Lemma numeric_not_coded (video_id : string) :
  py_isdigit video_id = true -> String.prefix "BV" video_id = false.
Proof.
  intros H. destruct (String.prefix "BV" video_id) eqn:E; [ | reflexivity ].
  destruct (prefix_BV_first video_id E) as [rest ->]. discriminate H.
Qed.

End IdFacts.

(** X13.  A numeric identifier may be written with or without the prefix
    "av": for every string of digits [d], [get_video_info] and
    [get_video_pages] do on "av" followed by [d] exactly what they do on
    [d]. *)
Theorem X13_av_prefix_optional
    (make_request : string -> option (list (string * value)) -> bool -> result value)
    (py_int : string -> result Z) (d : string) :
  py_isdigit d = true ->
  Facade.get_video_info make_request py_int ("av" ++ d)
  = Facade.get_video_info make_request py_int d /\
  Facade.get_video_pages make_request py_int ("av" ++ d)
  = Facade.get_video_pages make_request py_int d.
Proof.
  intros Hd. pose proof (IdFacts.numeric_not_coded d Hd) as Hb.
  assert (Hr : replace_av ("av" ++ d) = replace_av d) by reflexivity.
  assert (Hp : String.prefix "av" ("av" ++ d) = true).
  { cbn. destruct d; reflexivity. }
  assert (Hn : String.prefix "BV" ("av" ++ d) = false) by reflexivity.
  unfold Facade.get_video_info, Facade.get_video_info_body,
    Facade.get_video_pages, Facade.get_video_pages_body.
  rewrite Hb, Hd, Hp, Hn, Hr, orb_true_r. cbn [orb]. split; reflexivity.
Qed.

Lemma X13_av_prefix_optional_witness :
  Facade.get_video_info Scenario.two_parts Scenario.py_int ("av" ++ "80433022")
  = Facade.get_video_info Scenario.two_parts Scenario.py_int "80433022" /\
  Facade.get_video_pages Scenario.two_parts Scenario.py_int ("av" ++ "80433022")
  = Facade.get_video_pages Scenario.two_parts Scenario.py_int "80433022".
Proof.
  apply (X13_av_prefix_optional Scenario.two_parts Scenario.py_int "80433022").
  reflexivity.
Defined.

(** X14.  An identifier that starts with "BV" and has fewer than 10
    characters is stopped by the decoder before any request is made,
    whatever the remote side: [get_video_info] and [get_video_pages] print
    the [IndexError] and return [None], [get_player_info] prints it and
    raises it again, [get_subtitle_info] catches that, and
    [get_video_subtitle] reports an invalid page number. *)
Theorem X14_short_coded_id
    (make_request : string -> option (list (string * value)) -> bool -> result value)
    (py_int : string -> result Z)
    (video_id lang : string) (cid : value) (page : Z) :
  String.prefix "BV" video_id = true ->
  (String.length video_id < 10)%nat ->
  Facade.get_video_info make_request py_int video_id
  = ([Facade.VideoInfoFailed IndexError], Ok VNone) /\
  Facade.get_video_pages make_request py_int video_id
  = ([Facade.PagesFailed IndexError], Ok VNone) /\
  Facade.get_player_info make_request py_int video_id cid
  = ([Facade.PlayerInfoFailed IndexError], Raise IndexError) /\
  Facade.get_subtitle_info make_request py_int video_id cid
  = ([Facade.PlayerInfoFailed IndexError; Facade.SubtitleInfoFailed IndexError],
     Ok VNone) /\
  Facade.get_video_subtitle make_request py_int video_id page lang
  = ([Facade.PagesFailed IndexError; Facade.InvalidPage page], Ok VNone).
Proof.
  intros Hp Hlen.
  pose proof (CodecEdges.bvid2aid_short video_id Hlen) as Hdec.
  pose proof (IdFacts.coded_not_numeric video_id Hp) as Hnum.
  assert (Hpages : Facade.get_video_pages make_request py_int video_id
                   = ([Facade.PagesFailed IndexError], Ok VNone)).
  { unfold Facade.get_video_pages, Facade.get_video_pages_body.
    rewrite Hp, Hdec. reflexivity. }
  assert (Hplayer : Facade.get_player_info make_request py_int video_id cid
                    = ([Facade.PlayerInfoFailed IndexError], Raise IndexError)).
  { unfold Facade.get_player_info, Facade.get_player_info_handler.
    rewrite Hnum, Hdec. reflexivity. }
  split; [ | split; [ exact Hpages | split; [ exact Hplayer | split ] ] ].
  - unfold Facade.get_video_info, Facade.get_video_info_body.
    rewrite Hp, Hdec. reflexivity.
  - unfold Facade.get_subtitle_info, Facade.get_subtitle_info_body.
    rewrite Hplayer. reflexivity.
  - apply (FacadeFacts.get_video_subtitle_without_pages
             make_request py_int video_id lang page _ Hpages).
Qed.

Lemma X14_short_coded_id_witness :
  Facade.get_video_info Scenario.two_parts Scenario.py_int "BV1GJ411x"
  = ([Facade.VideoInfoFailed IndexError], Ok VNone) /\
  Facade.get_video_pages Scenario.two_parts Scenario.py_int "BV1GJ411x"
  = ([Facade.PagesFailed IndexError], Ok VNone) /\
  Facade.get_player_info Scenario.two_parts Scenario.py_int "BV1GJ411x" (VInt 101)
  = ([Facade.PlayerInfoFailed IndexError], Raise IndexError) /\
  Facade.get_subtitle_info Scenario.two_parts Scenario.py_int "BV1GJ411x" (VInt 101)
  = ([Facade.PlayerInfoFailed IndexError; Facade.SubtitleInfoFailed IndexError],
     Ok VNone) /\
  Facade.get_video_subtitle Scenario.two_parts Scenario.py_int "BV1GJ411x" 1 "zh"
  = ([Facade.PagesFailed IndexError; Facade.InvalidPage 1], Ok VNone).
Proof.
  apply (X14_short_coded_id Scenario.two_parts Scenario.py_int
           "BV1GJ411x" "zh" (VInt 101) 1).
  - reflexivity.
  - apply Nat.ltb_lt. reflexivity.
Defined.

(** ** The facade: the player information and its fallback *)

Module PlayerFacts.
Import Facade.

Lemma fallback_returns
    (make_request : string -> option (list (string * value)) -> bool -> result value)
    (aid : Z) (cid : value) :
  exists log v, _get_player_info_fallback make_request aid cid = (log, Ok v).
Proof. apply FacadeFacts.swallow_returns. Qed.

(** Once the numeric id is known, the handler ends in the fallback and
    raises nothing. *)
Lemma handler_known_returns
    (make_request : string -> option (list (string * value)) -> bool -> result value)
    (video_id : string) (cid : value) (aid : Z) (e : exn) :
  exists log v,
    get_player_info_handler make_request video_id cid (Some aid) e = (log, Ok v).
Proof.
  unfold get_player_info_handler. cbn [print ret io_bind].
  destruct (fallback_returns make_request aid cid) as (log & v & ->).
  eexists. eexists. reflexivity.
Qed.

Lemma handler_unknown
    (make_request : string -> option (list (string * value)) -> bool -> result value)
    (video_id : string) (cid : value) (e e' : exn) :
  snd (get_player_info_handler make_request video_id cid None e) = Raise e' <->
  Codec.bvid2aid video_id = Raise e'.
Proof.
  unfold get_player_info_handler. cbn [print lift io_bind].
  destruct (Codec.bvid2aid video_id) as [aid | e0]; cbn [io_bind].
  - destruct (fallback_returns make_request aid cid) as (log & v & ->).
    cbn [snd]. split; discriminate.
  - cbn [snd]. split; intros [= ->]; reflexivity.
Qed.

Lemma guarded_returns {A : Type} (body : io A) (handler : exn -> io A) :
  (forall e, exists log v, handler e = (log, Ok v)) ->
  exists log v, try_except body handler = (log, Ok v).
Proof.
  intros H. unfold try_except. destruct body as [log [v | e]].
  - eexists. eexists. reflexivity.
  - destruct (H e) as (log' & v & ->). eexists. eexists. reflexivity.
Qed.

End PlayerFacts.

(** X15.  [get_player_info] raises in one case only: the handler of its
    [try] block has no numeric id yet and calls the decoder on the
    identifier, which raises.  So it raises [e] exactly when [bvid2aid]
    raises [e] on the identifier and either the identifier is not of the
    numeric form or [int] has refused it. *)
Theorem X15_player_info_raises
    (make_request : string -> option (list (string * value)) -> bool -> result value)
    (py_int : string -> result Z) (video_id : string) (cid : value) (e : exn) :
  snd (Facade.get_player_info make_request py_int video_id cid) = Raise e <->
  Codec.bvid2aid video_id = Raise e /\
  (String.prefix "av" video_id || py_isdigit video_id = false \/
   exists e', py_int (replace_av video_id) = Raise e').
Proof.
  unfold Facade.get_player_info.
  destruct (String.prefix "av" video_id || py_isdigit video_id).
  - destruct (py_int (replace_av video_id)) as [aid | e0].
    + match goal with
      | |- context [Facade.try_except ?b ?h] =>
          destruct (PlayerFacts.guarded_returns b h
                      (PlayerFacts.handler_known_returns make_request video_id cid aid))
            as (log & v & ->)
      end.
      cbn [snd]. split; [ discriminate | ].
      intros [_ [H | [e' H]]]; discriminate.
    + rewrite PlayerFacts.handler_unknown. split.
      * intros H. split; [ exact H | ]. right. eexists. reflexivity.
      * intros [H _]. exact H.
  - destruct (Codec.bvid2aid video_id) as [aid | e0] eqn:E.
    + match goal with
      | |- context [Facade.try_except ?b ?h] =>
          destruct (PlayerFacts.guarded_returns b h
                      (PlayerFacts.handler_known_returns make_request video_id cid aid))
            as (log & v & ->)
      end.
      cbn [snd]. split; [ discriminate | ]. intros [H _]. discriminate.
    + rewrite PlayerFacts.handler_unknown, E. split.
      * intros H. split; [ exact H | ]. left. reflexivity.
      * intros [H _]. exact H.
Qed.



(** X17.  What [get_subtitle_info] makes of the player information: a
    false value ([None], an empty [dict]) gives [None]; a [dict] without the
    key [subtitle] gives the empty list; otherwise the list stored under
    [subtitle] and then [subtitles].  Nothing is printed in any of the
    three cases. *)
Theorem X17_tracks_of_player_info
    (make_request : string -> option (list (string * value)) -> bool -> result value)
    (py_int : string -> result Z) (video_id : string) (cid : value)
    (log : list Facade.message) (player_info : value) :
  Facade.get_player_info make_request py_int video_id cid = (log, Ok player_info) ->
  (py_truthy player_info = false ->
   Facade.get_subtitle_info make_request py_int video_id cid = (log, Ok VNone)) /\
  (forall items,
     player_info = VDict items -> items <> [] -> assoc "subtitle" items = None ->
     Facade.get_subtitle_info make_request py_int video_id cid = (log, Ok (VList []))) /\
  (forall items subtitle subtitles,
     player_info = VDict items ->
     assoc "subtitle" items = Some (VDict subtitle) ->
     assoc "subtitles" subtitle = Some subtitles ->
     Facade.get_subtitle_info make_request py_int video_id cid = (log, Ok subtitles)).
Proof.
  intros H. unfold Facade.get_subtitle_info, Facade.get_subtitle_info_body.
  rewrite H. cbn [Facade.io_bind]. repeat split.
  - intros ->. cbn. rewrite app_nil_r. reflexivity.
  - intros items -> Hne Hs. destruct items as [ | item items]; [ contradiction | ].
    cbn [py_truthy negb py_get Facade.lift Facade.io_bind]. rewrite Hs.
    cbn. rewrite app_nil_r. reflexivity.
  - intros items subtitle subtitles -> Hs Hl.
    destruct items as [ | item items]; [ discriminate | ].
    cbn [py_truthy negb py_get Facade.lift Facade.io_bind]. rewrite Hs.
    cbn [default from_option id py_get Facade.lift Facade.io_bind]. rewrite Hl.
    cbn. rewrite app_nil_r. reflexivity.
Qed.

Lemma X17_tracks_of_player_info_witness :
  Facade.get_subtitle_info Scenario.no_tracks Scenario.py_int "BV1GJ411x7h7" (VInt 101)
  = ([], Ok (VList [])).
Proof.
  destruct (X17_tracks_of_player_info Scenario.no_tracks Scenario.py_int
              "BV1GJ411x7h7" (VInt 101) []
              (VDict [("subtitle", VDict [("subtitles", VList [])])]))
    as (_ & _ & H).
  - vm_compute. reflexivity.
  - apply (H _ _ (VList []) eq_refl eq_refl eq_refl).
Defined.

(** ** The facade: the page number, over every list of parts *)

(** X18.  [get_video_subtitle] refuses the page, printing the page number
    and returning [None], whenever the page list it got is a false value
    ([None] after a failure of [get_video_pages], an empty list) or has
    fewer entries than the page number; a failure to list the parts is so
    reported as an invalid page number, whatever the page. *)
Theorem X18_page_refused
    (make_request : string -> option (list (string * value)) -> bool -> result value)
    (py_int : string -> result Z)
    (video_id lang : string) (page : Z) (log : list Facade.message) (pages : value) :
  Facade.get_video_pages make_request py_int video_id = (log, Ok pages) ->
  py_truthy pages = false \/ (exists n, py_len pages = Ok n /\ n < page) ->
  Facade.get_video_subtitle make_request py_int video_id page lang
  = ((log ++ [Facade.InvalidPage page])%list, Ok VNone).
Proof.
  intros Hp H. unfold Facade.get_video_subtitle, Facade.get_video_subtitle_body.
  rewrite Hp. cbn [Facade.io_bind].
  destruct (py_truthy pages) eqn:Et; cbn [negb].
  - destruct H as [H | (n & Hn & Hlt)]; [ discriminate | ].
    rewrite Hn. cbn [Facade.lift Facade.ret Facade.io_bind app].
    replace (page >? n) with true by (symmetry; apply Z.gtb_lt; lia).
    reflexivity.
  - reflexivity.
Qed.

Lemma X18_page_refused_witness :
  Facade.get_video_subtitle Scenario.unreachable Scenario.py_int "BV1GJ411x7h7" 1 "zh"
  = (([Facade.PagesFailed RequestFailed] ++ [Facade.InvalidPage 1])%list, Ok VNone) /\
  Facade.get_video_subtitle Scenario.two_parts Scenario.py_int "BV1GJ411x7h7" 3 "zh"
  = (([] ++ [Facade.InvalidPage 3])%list, Ok VNone).
Proof.
  split.
  - apply (X18_page_refused Scenario.unreachable Scenario.py_int
             "BV1GJ411x7h7" "zh" 1 [Facade.PagesFailed RequestFailed] VNone).
    + vm_compute. reflexivity.
    + left. reflexivity.
  - apply (X18_page_refused Scenario.two_parts Scenario.py_int
             "BV1GJ411x7h7" "zh" 3 []
             (VList [ VDict [("cid", VInt 101); ("page", VInt 1)];
                      VDict [("cid", VInt 102); ("page", VInt 2)] ])).
    + vm_compute. reflexivity.
    + right. exists 2. split; [ reflexivity | reflexivity ].
Defined.

(** X19.  The page number has no lower bound: on a list of [n] parts,
    every page number from [1 - n] to [0] is accepted and does exactly what
    the page number [page + n] does, the parts being counted from the
    end. *)
Theorem X19_page_counts_from_end
    (make_request : string -> option (list (string * value)) -> bool -> result value)
    (py_int : string -> result Z)
    (video_id lang : string) (page : Z) (log : list Facade.message)
    (parts : list value) :
  Facade.get_video_pages make_request py_int video_id = (log, Ok (VList parts)) ->
  1 - Z.of_nat (length parts) <= page <= 0 ->
  Facade.get_video_subtitle make_request py_int video_id page lang
  = Facade.get_video_subtitle make_request py_int video_id
      (page + Z.of_nat (length parts)) lang.
Proof.
  intros Hp Hr. unfold Facade.get_video_subtitle, Facade.get_video_subtitle_body.
  rewrite Hp. cbn [Facade.io_bind].
  assert (Ht : py_truthy (VList parts) = true).
  { destruct parts; [ cbn in Hr; lia | reflexivity ]. }
  rewrite Ht. cbn [negb py_len Facade.lift Facade.ret Facade.io_bind].
  replace (page >? Z.of_nat (length parts)) with false
    by (symmetry; rewrite Z.gtb_ltb; apply Z.ltb_ge; lia).
  replace (page + Z.of_nat (length parts) >? Z.of_nat (length parts)) with false
    by (symmetry; rewrite Z.gtb_ltb; apply Z.ltb_ge; lia).
  assert (Hs : py_subscript (VList parts) (page - 1)
               = py_subscript (VList parts) (page + Z.of_nat (length parts) - 1)).
  { cbn [py_subscript]. unfold py_getitem, py_norm_index.
    replace (0 <=? page - 1) with false by (symmetry; apply Z.leb_gt; lia).
    replace (- Z.of_nat (length parts) <=? page - 1) with true
      by (symmetry; apply Z.leb_le; lia).
    replace (page - 1 <? 0) with true by (symmetry; apply Z.ltb_lt; lia).
    replace (0 <=? page + Z.of_nat (length parts) - 1) with true
      by (symmetry; apply Z.leb_le; lia).
    replace (page + Z.of_nat (length parts) - 1 <? Z.of_nat (length parts)) with true
      by (symmetry; apply Z.ltb_lt; lia).
    cbn [andb bind].
    replace (Z.of_nat (length parts) + (page - 1))
      with (page + Z.of_nat (length parts) - 1) by lia.
    reflexivity. }
  rewrite Hs. reflexivity.
Qed.

Lemma X19_page_counts_from_end_witness :
  Facade.get_video_subtitle Scenario.two_parts Scenario.py_int "BV1GJ411x7h7" (-1) "zh"
  = Facade.get_video_subtitle Scenario.two_parts Scenario.py_int "BV1GJ411x7h7"
      (-1 + Z.of_nat (length [ VDict [("cid", VInt 101); ("page", VInt 1)];
                               VDict [("cid", VInt 102); ("page", VInt 2)] ])) "zh".
Proof.
  apply (X19_page_counts_from_end Scenario.two_parts Scenario.py_int
           "BV1GJ411x7h7" "zh" (-1) []).
  - vm_compute. reflexivity.
  - split; [ discriminate | discriminate ].
Defined.

(** X20.  On a list of [n >= 1] parts, a page number of [-n] or less
    passes the page test and fails on the subscript: the [IndexError] is
    printed as a failure to get the text and [None] is returned. *)
Theorem X20_page_below_range
    (make_request : string -> option (list (string * value)) -> bool -> result value)
    (py_int : string -> result Z)
    (video_id lang : string) (page : Z) (log : list Facade.message)
    (parts : list value) :
  Facade.get_video_pages make_request py_int video_id = (log, Ok (VList parts)) ->
  parts <> [] ->
  page <= - Z.of_nat (length parts) ->
  Facade.get_video_subtitle make_request py_int video_id page lang
  = ((log ++ [Facade.SubtitleTextFailed IndexError])%list, Ok VNone).
Proof.
  intros Hp Hne Hr. unfold Facade.get_video_subtitle, Facade.get_video_subtitle_body.
  rewrite Hp. cbn [Facade.io_bind].
  assert (Ht : py_truthy (VList parts) = true).
  { destruct parts; [ contradiction | reflexivity ]. }
  rewrite Ht. cbn [negb py_len Facade.lift Facade.ret Facade.io_bind].
  replace (page >? Z.of_nat (length parts)) with false
    by (symmetry; rewrite Z.gtb_ltb; apply Z.ltb_ge; lia).
  assert (Hs : py_subscript (VList parts) (page - 1) = Raise IndexError).
  { cbn [py_subscript]. unfold py_getitem, py_norm_index.
    replace (0 <=? page - 1) with false by (symmetry; apply Z.leb_gt; lia).
    replace (- Z.of_nat (length parts) <=? page - 1) with false
      by (symmetry; apply Z.leb_gt; lia).
    reflexivity. }
  rewrite Hs. cbn. rewrite app_nil_r. reflexivity.
Qed.

Lemma X20_page_below_range_witness :
  Facade.get_video_subtitle Scenario.two_parts Scenario.py_int "BV1GJ411x7h7" (-2) "zh"
  = (([] ++ [Facade.SubtitleTextFailed IndexError])%list, Ok VNone).
Proof.
  apply (X20_page_below_range Scenario.two_parts Scenario.py_int
           "BV1GJ411x7h7" "zh" (-2) []
           [ VDict [("cid", VInt 101); ("page", VInt 1)];
             VDict [("cid", VInt 102); ("page", VInt 2)] ]).
  - vm_compute. reflexivity.
  - discriminate.
  - discriminate.
Defined.

(** X21.  A video without subtitles is answered by [None] and by no
    message of [get_video_subtitle]: when the page is valid and
    [get_subtitle_info] returns a false value ([None] or the empty list),
    the result is [None] and the only things printed are those
    [get_video_pages] and [get_subtitle_info] printed. *)
Theorem X21_no_tracks_no_message
    (make_request : string -> option (list (string * value)) -> bool -> result value)
    (py_int : string -> result Z)
    (video_id lang : string) (page : Z) (log1 log2 : list Facade.message)
    (parts : list value) (the_page cid subtitle_info : value) :
  Facade.get_video_pages make_request py_int video_id = (log1, Ok (VList parts)) ->
  1 <= page <= Z.of_nat (length parts) ->
  parts !! Z.to_nat (page - 1) = Some the_page ->
  py_get the_page "cid" VNone = Ok cid ->
  Facade.get_subtitle_info make_request py_int video_id cid = (log2, Ok subtitle_info) ->
  py_truthy subtitle_info = false ->
  Facade.get_video_subtitle make_request py_int video_id page lang
  = ((log1 ++ log2)%list, Ok VNone).
Proof.
  intros Hp Hr Hpage Hcid Hinfo Hfalse.
  unfold Facade.get_video_subtitle, Facade.get_video_subtitle_body.
  rewrite Hp. cbn [Facade.io_bind].
  assert (Ht : py_truthy (VList parts) = true).
  { destruct parts; [ cbn in Hr; lia | reflexivity ]. }
  rewrite Ht. cbn [negb py_len Facade.lift Facade.ret Facade.io_bind].
  replace (page >? Z.of_nat (length parts)) with false
    by (symmetry; rewrite Z.gtb_ltb; apply Z.ltb_ge; lia).
  cbn [py_subscript].
  rewrite (PyFacts.py_getitem_at parts (page - 1) the_page ltac:(lia) Hpage).
  cbn [Facade.io_bind]. rewrite Hcid. cbn [Facade.io_bind]. rewrite Hinfo.
  cbn [Facade.io_bind]. rewrite Hfalse. cbn. rewrite !app_nil_r. reflexivity.
Qed.

Lemma X21_no_tracks_no_message_witness :
  Facade.get_video_subtitle Scenario.no_tracks Scenario.py_int "BV1GJ411x7h7" 1 "zh"
  = (([] ++ [])%list, Ok VNone).
Proof.
  apply (X21_no_tracks_no_message Scenario.no_tracks Scenario.py_int
           "BV1GJ411x7h7" "zh" 1 [] []
           [ VDict [("cid", VInt 101); ("page", VInt 1)] ]
           (VDict [("cid", VInt 101); ("page", VInt 1)]) (VInt 101) (VList [])).
  - vm_compute. reflexivity.
  - split; [ discriminate | discriminate ].
  - reflexivity.
  - reflexivity.
  - vm_compute. reflexivity.
  - reflexivity.
Defined.

(** ** The facade: the shape of the video information *)

Module InfoFacts.
Import Facade InfoSpec.

Lemma returns_info_none : returns_info (ret VNone).
Proof. intros log v [= _ <-]. left. reflexivity. Qed.

Lemma returns_info_dict (items : list (string * value)) :
  map fst items = info_keys -> returns_info (ret (VDict items)).
Proof. intros H log v [= _ <-]. right. exists items. split; [ reflexivity | exact H ]. Qed.

Lemma returns_info_bind {A : Type} (m : io A) (k : A -> io value) :
  (forall a, returns_info (k a)) -> returns_info (io_bind m k).
Proof.
  intros H log v. unfold io_bind. destruct m as [log1 [a | e]]; [ | discriminate ].
  destruct (k a) as [log2 r] eqn:E. intros [= _ ->]. eapply H, E.
Qed.

Lemma returns_info_try (body : io value) (handler : exn -> io value) :
  returns_info body -> (forall e, returns_info (handler e)) ->
  returns_info (try_except body handler).
Proof.
  intros Hb Hh log v. unfold try_except. destruct body as [log1 [a | e]].
  - intros [= _ <-]. eapply Hb. reflexivity.
  - destruct (handler e) as [log2 r] eqn:E. intros [= _ ->]. eapply Hh, E.
Qed.

End InfoFacts.

(** X23.  Whatever the identifier and whatever the remote side answers,
    what [get_video_info] returns is [None] or a [dict] with exactly the
    nine keys aid, bvid, title, desc, duration, pubdate, owner, stat and
    pages, in this order; a field the remote document lacks is [None] (an
    empty [dict] or list for the last three), not a missing key. *)
Theorem X23_video_info_shape
    (make_request : string -> option (list (string * value)) -> bool -> result value)
    (py_int : string -> result Z) (video_id : string)
    (log : list Facade.message) (v : value) :
  Facade.get_video_info make_request py_int video_id = (log, Ok v) ->
  v = VNone \/
  exists items,
    v = VDict items /\
    map fst items
    = [ "aid"; "bvid"; "title"; "desc"; "duration"; "pubdate"; "owner"; "stat"; "pages" ].
Proof.
  assert (HR : InfoSpec.returns_info
                 (Facade.get_video_info make_request py_int video_id));
    [ | intros H; exact (HR log v H) ].
  unfold Facade.get_video_info, Facade.get_video_info_body. cbv zeta beta.
  apply InfoFacts.returns_info_try.
  - repeat first
      [ apply InfoFacts.returns_info_none
      | apply InfoFacts.returns_info_bind; intros ?
      | match goal with
        | |- InfoSpec.returns_info (if ?b then _ else _) => destruct b
        end
      | apply InfoFacts.returns_info_dict; reflexivity ].
  - intros e. apply InfoFacts.returns_info_bind. intros _.
    apply InfoFacts.returns_info_none.
Qed.

Lemma X23_video_info_shape_witness :
  VDict [ ("aid", VInt 80433022); ("bvid", VNone); ("title", VStr "A title");
          ("desc", VNone); ("duration", VNone); ("pubdate", VNone);
          ("owner", VDict []); ("stat", VDict []); ("pages", VList []) ] = VNone \/
  exists items,
    VDict [ ("aid", VInt 80433022); ("bvid", VNone); ("title", VStr "A title");
            ("desc", VNone); ("duration", VNone); ("pubdate", VNone);
            ("owner", VDict []); ("stat", VDict []); ("pages", VList []) ]
    = VDict items /\
    map fst items
    = [ "aid"; "bvid"; "title"; "desc"; "duration"; "pubdate"; "owner"; "stat"; "pages" ].
Proof.
  apply (X23_video_info_shape Scenario.titled Scenario.py_int "BV1GJ411x7h7" []).
  vm_compute. reflexivity.
Defined.

(** ** The facade: the address of the subtitle file *)

(** X24.  [download_subtitle] never requests an address that starts with
    two slashes: its outcome does not depend on what the remote side would
    answer at such an address. *)
Theorem X24_download_never_protocol_relative
    (make_request make_request' :
       string -> option (list (string * value)) -> bool -> result value)
    (subtitle_url : value) :
  (forall url params use_wbi,
     String.prefix "//" url = false ->
     make_request url params use_wbi = make_request' url params use_wbi) ->
  Facade.download_subtitle make_request subtitle_url
  = Facade.download_subtitle make_request' subtitle_url.
Proof.
  intros H. unfold Facade.download_subtitle, Facade.download_subtitle_body.
  destruct subtitle_url as [ | b | n | url | l | items ]; try reflexivity.
  destruct (String.prefix "//" url) eqn:E.
  - rewrite (H ("https:" ++ url) None true eq_refl). reflexivity.
  - rewrite (H url None true E). reflexivity.
Qed.

Lemma X24_download_never_protocol_relative_witness :
  Facade.download_subtitle Scenario.two_parts (VStr "//subtitle.example/1.json")
  = Facade.download_subtitle
      (fun url params use_wbi =>
         if String.prefix "//" url then Ok VNone
         else Scenario.two_parts url params use_wbi)
      (VStr "//subtitle.example/1.json").
Proof.
  apply (X24_download_never_protocol_relative Scenario.two_parts
           (fun url params use_wbi =>
              if String.prefix "//" url then Ok VNone
              else Scenario.two_parts url params use_wbi)
           (VStr "//subtitle.example/1.json")).
  intros url params use_wbi H. rewrite H. reflexivity.
Defined.

(** ** The subtitle file read directly *)

Module ContentFacts.
Import Content.


End ContentFacts.



(** ** Text of any characters: trimming and joining *)

Module WideFacts.

Lemma py_lstrip_black (s : Wide.ustring) :
  Wide.starts_black s -> Wide.py_lstrip s = s.
Proof.
  destruct s as [ | c s]; cbn [Wide.starts_black Wide.py_lstrip]; [ tauto | ].
  intros ->. reflexivity.
Qed.

Lemma py_lstrip_form (s : Wide.ustring) :
  Wide.py_lstrip s = [] \/ Wide.starts_black (Wide.py_lstrip s).
Proof.
  induction s as [ | c s IH]; cbn [Wide.py_lstrip]; [ left; reflexivity | ].
  destruct (Wide.py_isspace c) eqn:E; [ exact IH | right; exact E ].
Qed.

Lemma py_lstrip_suffix (s : Wide.ustring) :
  exists pre, s = (pre ++ Wide.py_lstrip s)%list.
Proof.
  induction s as [ | c s IH]; cbn [Wide.py_lstrip]; [ exists []; reflexivity | ].
  destruct (Wide.py_isspace c).
  - destruct IH as [pre IH]. exists (c :: pre). cbn. congruence.
  - exists []. reflexivity.
Qed.

Lemma starts_black_app (a b : Wide.ustring) :
  Wide.starts_black a -> Wide.starts_black (a ++ b)%list.
Proof. destruct a; cbn; tauto. Qed.

Lemma starts_black_prefix (a b : Wide.ustring) :
  a <> [] -> Wide.starts_black (a ++ b)%list -> Wide.starts_black a.
Proof. destruct a; cbn; tauto. Qed.

(** What [strip] returns is empty or has no white space at either end. *)
Lemma py_strip_form (raw : Wide.ustring) :
  Wide.py_strip raw = [] \/ Wide.solid (Wide.py_strip raw).
Proof.
  unfold Wide.py_strip, Wide.solid.
  set (U := Wide.py_lstrip raw). set (W := Wide.py_lstrip (rev U)).
  destruct (py_lstrip_form (rev U)) as [HW | HW]; fold W in HW.
  - left. rewrite HW. reflexivity.
  - right. rewrite rev_involutive. split; [ | exact HW ].
    destruct (py_lstrip_suffix (rev U)) as [pre Hpre]. fold W in Hpre.
    apply (f_equal (@rev N)) in Hpre.
    rewrite rev_involutive, rev_app_distr in Hpre.
    assert (Hne : rev W <> []).
    { intros E. apply (f_equal (@rev N)) in E. rewrite rev_involutive in E.
      rewrite E in HW. exact HW. }
    apply (starts_black_prefix _ (rev pre) Hne).
    rewrite <- Hpre.
    destruct (py_lstrip_form raw) as [HU | HU]; fold U in HU; [ | exact HU ].
    rewrite HU in Hpre. destruct (rev W); [ contradiction | discriminate ].
Qed.


(** The fragments as the loops add them, each followed by a line feed. *)
Lemma concat_lines_join (c : Wide.ustring) (cs : list Wide.ustring) :
  concat (map (fun s => s ++ Wide.newline) (c :: cs))%list
  = (Wide.py_join Wide.newline (c :: cs) ++ Wide.newline)%list.
Proof.
  revert c. induction cs as [ | c' cs IH]; intros c.
  - cbn. rewrite app_nil_r. reflexivity.
  - change (concat (map (fun s => s ++ Wide.newline) (c :: c' :: cs))%list)
      with ((c ++ Wide.newline) ++ concat (map (fun s => s ++ Wide.newline) (c' :: cs)))%list.
    rewrite IH.
    change (Wide.py_join Wide.newline (c :: c' :: cs))
      with (c ++ Wide.newline ++ Wide.py_join Wide.newline (c' :: cs))%list.
    rewrite <- !app_assoc. reflexivity.
Qed.

Lemma join_solid (c : Wide.ustring) (cs : list Wide.ustring) :
  Forall Wide.solid (c :: cs) -> Wide.solid (Wide.py_join Wide.newline (c :: cs)).
Proof.
  revert c. induction cs as [ | c' cs IH]; intros c H.
  - apply Forall_inv in H. exact H.
  - change (Wide.py_join Wide.newline (c :: c' :: cs))
      with (c ++ Wide.newline ++ Wide.py_join Wide.newline (c' :: cs))%list.
    pose proof (Forall_inv H) as [Hc1 Hc2].
    pose proof (IH c' (Forall_inv_tail H)) as [Hr1 Hr2].
    split.
    + apply starts_black_app, Hc1.
    + rewrite !rev_app_distr. apply starts_black_app, starts_black_app, Hr2.
Qed.

(** The final [strip] removes the last line feed and nothing else. *)
Lemma py_strip_lines (cs : list Wide.ustring) :
  Forall Wide.solid cs ->
  Wide.py_strip (concat (map (fun s => s ++ Wide.newline) cs))%list = Wide.py_join Wide.newline cs.
Proof.
  intros H. destruct cs as [ | c cs]; [ reflexivity | ].
  rewrite concat_lines_join.
  destruct (join_solid c cs H) as [H1 H2].
  set (T := Wide.py_join Wide.newline (c :: cs)) in *.
  unfold Wide.py_strip.
  rewrite (py_lstrip_black (T ++ Wide.newline)%list) by (apply starts_black_app, H1).
  rewrite rev_app_distr.
  change (rev Wide.newline ++ rev T)%list with (10%N :: rev T).
  change (Wide.py_lstrip (10%N :: rev T)) with (Wide.py_lstrip (rev T)).
  rewrite (py_lstrip_black _ H2). apply rev_involutive.
Qed.

Lemma lines_of_solid (items : list Wide.uvalue) : Forall Wide.solid (Wide.lines_of items).
Proof.
  unfold Wide.lines_of. apply List.Forall_forall. intros s Hs.
  apply List.filter_In in Hs. destruct Hs as [Hin Hne].
  apply in_map_iff in Hin. destruct Hin as (item & <- & _).
  destruct (py_strip_form (Wide.content_of item)) as [E | E]; [ | exact E ].
  rewrite E in Hne. discriminate.
Qed.

(** The loop of [get_video_subtitle] adds the lines of the items to the
    text it started from. *)
Lemma join_contents_lines (items : list Wide.uvalue) (acc : Wide.ustring) :
  Forall Wide.is_line items ->
  Wide.join_contents items acc
  = Ok (acc ++ concat (map (fun s => s ++ Wide.newline) (Wide.lines_of items)))%list.
Proof.
  intros H. revert acc. induction H as [ | item items Hi _ IH]; intros acc.
  - cbn. rewrite app_nil_r. reflexivity.
  - cbn [Wide.join_contents].
    assert (E : Wide.py_get item (Wide.of_string "content") (Wide.UStr [])
                = Ok (Wide.UStr (Wide.content_of item))).
    { destruct Hi as (d & -> & [Hd | (s & Hd)]); cbn [Wide.py_get Wide.content_of];
        rewrite Hd; reflexivity. }
    rewrite E. cbn [bind].
    unfold Wide.lines_of. cbn [map List.filter].
    destruct (Wide.is_empty (Wide.py_strip (Wide.content_of item))); cbn [negb];
      rewrite IH; [ reflexivity | ].
    cbn [map concat]. unfold Wide.lines_of. rewrite <- !app_assoc. reflexivity.
Qed.




(** *** The narrow reading is the wide one on characters below 256 *)

Lemma of_string_app (a b : string) :
  Wide.of_string (a ++ b) = (Wide.of_string a ++ Wide.of_string b)%list.
Proof.
  unfold Wide.of_string. induction a as [ | c a IH]; cbn; congruence.
Qed.

Lemma of_string_rev (s : string) : Wide.of_string (string_rev s) = rev (Wide.of_string s).
Proof.
  unfold Wide.of_string, string_rev.
  rewrite list_ascii_of_string_of_list_ascii, map_rev. reflexivity.
Qed.

Lemma of_string_empty (s : string) : Wide.is_empty (Wide.of_string s) = String.eqb s "".
Proof. destruct s; reflexivity. Qed.

Lemma py_isspace_narrow (c : ascii) :
  Wide.py_isspace (N_of_ascii c) = py_isspace c.
Proof. destruct c as [[] [] [] [] [] [] [] []]; reflexivity. Qed.

Lemma py_lstrip_narrow (s : string) :
  Wide.py_lstrip (Wide.of_string s) = Wide.of_string (py_lstrip s).
Proof.
  induction s as [ | c s IH]; [ reflexivity | ].
  change (Wide.of_string (String c s)) with (N_of_ascii c :: Wide.of_string s).
  cbn [Wide.py_lstrip py_lstrip]. rewrite py_isspace_narrow.
  destruct (py_isspace c); [ exact IH | reflexivity ].
Qed.

(** [strip] on a text of characters below 256 is the [strip] of the
    facade. *)
Lemma py_strip_narrow (s : string) :
  Wide.py_strip (Wide.of_string s) = Wide.of_string (py_strip s).
Proof.
  unfold Wide.py_strip, py_strip.
  rewrite of_string_rev, <- py_lstrip_narrow, of_string_rev, <- py_lstrip_narrow.
  reflexivity.
Qed.

Lemma ustring_eqb_narrow (a b : string) :
  Wide.ustring_eqb (Wide.of_string a) (Wide.of_string b) = String.eqb a b.
Proof.
  revert b. induction a as [ | x a IH]; intros [ | y b]; try reflexivity.
  change (Wide.of_string (String x a)) with (N_of_ascii x :: Wide.of_string a).
  change (Wide.of_string (String y b)) with (N_of_ascii y :: Wide.of_string b).
  cbn [Wide.ustring_eqb String.eqb]. rewrite IH.
  destruct (Ascii.eqb_spec x y) as [-> | Hne].
  - rewrite N.eqb_refl. reflexivity.
  - destruct (N.eqb_spec (N_of_ascii x) (N_of_ascii y)) as [E | _]; [ | reflexivity ].
    exfalso. apply Hne.
    rewrite <- (ascii_N_embedding x), <- (ascii_N_embedding y), E. reflexivity.
Qed.

Lemma uassoc_narrow (k : string) (items : list (string * value)) :
  Wide.uassoc (Wide.of_string k) (map (fun kv => (Wide.of_string (fst kv), Wide.widen (snd kv))) items)
  = option_map Wide.widen (assoc k items).
Proof.
  induction items as [ | [k' v] items IH]; [ reflexivity | ].
  cbn [map Wide.uassoc assoc fst snd]. rewrite ustring_eqb_narrow.
  destruct (String.eqb k' k); [ reflexivity | exact IH ].
Qed.

(** The loop of [get_video_subtitle] in the facade is the loop above on
    values of the narrow reading. *)
Lemma join_contents_widen (items : list value) (acc : string) :
  Wide.join_contents (map Wide.widen items) (Wide.of_string acc)
  = Wide.widen_text (Facade.join_contents items acc).
Proof.
  revert acc. induction items as [ | item items IH]; intros acc; [ reflexivity | ].
  cbn [map Wide.join_contents Facade.join_contents].
  destruct item as [ | b | n | s | l | fields ]; try reflexivity.
  cbn [Wide.widen Wide.py_get py_get bind].
  change (Wide.of_string "content") with (Wide.of_string "content"%string).
  rewrite uassoc_narrow.
  destruct (assoc "content" fields) as [[ | b | n | s | l | d ] | ];
    cbn [option_map default from_option id Wide.widen]; try reflexivity.
  - change (Wide.UStr (Wide.of_string s)) with (Wide.UStr (Wide.of_string s)).
    rewrite py_strip_narrow, of_string_empty.
    destruct (String.eqb (py_strip s) ""); cbn [negb]; [ apply IH | ].
    rewrite <- IH, !of_string_app. reflexivity.
  - change (@nil N) with (Wide.of_string "").
    rewrite py_strip_narrow, of_string_empty.
    destruct (String.eqb (py_strip "") ""); cbn [negb]; [ apply IH | ].
    rewrite <- IH, !of_string_app. reflexivity.
Qed.

End WideFacts.

(** ** Text of any characters: the narrow reading inside the wide one *)

Module WidenFacts.

Lemma py_iter_widen (v : value) :
  Wide.py_iter (Wide.widen v)
  = match py_iter v with
    | Ok l => Ok (map Wide.widen l)
    | Raise e => Raise e
    end.
Proof.
  destruct v as [ | b | n | s | l | items ]; try reflexivity.
  - cbn [Wide.widen Wide.py_iter py_iter]. f_equal. unfold Wide.of_string.
    rewrite !List.map_map. reflexivity.
  - cbn [Wide.widen Wide.py_iter py_iter]. f_equal.
    rewrite !List.map_map. reflexivity.
Qed.

(** The end of [get_video_subtitle] in the facade is [Wide.flatten] on values
    of the narrow reading. *)
Lemma flatten_widen (subtitle_content : value) :
  Wide.flatten (Wide.widen subtitle_content)
  = Wide.widen_text (let* items := py_iter subtitle_content in
                let* subtitle_text := Facade.join_contents items "" in
                Ok (py_strip subtitle_text)).
Proof.
  unfold Wide.flatten. rewrite py_iter_widen.
  destruct (py_iter subtitle_content) as [items | e]; cbn [bind]; [ | reflexivity ].
  change (@nil N) with (Wide.of_string "").
  rewrite WideFacts.join_contents_widen.
  destruct (Facade.join_contents items "") as [t | e]; cbn [bind Wide.widen_text];
    [ | reflexivity ].
  rewrite WideFacts.py_strip_narrow. reflexivity.
Qed.

Lemma uprefix_narrow (a b : string) :
  Wide.uprefix (Wide.of_string a) (Wide.of_string b) = String.prefix a b.
Proof.
  revert b. induction a as [ | x a IH]; intros [ | y b]; try reflexivity.
  change (Wide.of_string (String x a)) with (N_of_ascii x :: Wide.of_string a).
  change (Wide.of_string (String y b)) with (N_of_ascii y :: Wide.of_string b).
  cbn [Wide.uprefix String.prefix]. rewrite IH.
  destruct (ascii_dec x y) as [-> | Hne].
  - rewrite N.eqb_refl. reflexivity.
  - destruct (N.eqb_spec (N_of_ascii x) (N_of_ascii y)) as [E | _]; [ | reflexivity ].
    exfalso. apply Hne.
    rewrite <- (ascii_N_embedding x), <- (ascii_N_embedding y), E. reflexivity.
Qed.

Lemma py_in_str_narrow (sub s : string) :
  Wide.py_in_str (Wide.of_string sub) (Wide.of_string s) = py_in_str sub s.
Proof.
  induction s as [ | c s IH].
  - change (Wide.py_in_str (Wide.of_string sub) (Wide.of_string ""))
      with (Wide.uprefix (Wide.of_string sub) (Wide.of_string "") || false).
    rewrite uprefix_narrow. reflexivity.
  - change (Wide.py_in_str (Wide.of_string sub) (Wide.of_string (String c s)))
      with (Wide.uprefix (Wide.of_string sub) (Wide.of_string (String c s))
            || Wide.py_in_str (Wide.of_string sub) (Wide.of_string s)).
    rewrite uprefix_narrow, IH. reflexivity.
Qed.

Lemma py_in_widen (x : string) (v : value) :
  Wide.py_in (Wide.of_string x) (Wide.widen v) = py_in x v.
Proof.
  destruct v as [ | b | n | s | l | items ]; try reflexivity.
  - cbn [Wide.widen Wide.py_in py_in]. rewrite py_in_str_narrow. reflexivity.
  - cbn [Wide.widen Wide.py_in py_in]. f_equal.
    induction l as [ | y l IH]; [ reflexivity | ].
    cbn [map existsb]. rewrite IH. f_equal.
    destruct y; try reflexivity. cbn [Wide.widen]. apply WideFacts.ustring_eqb_narrow.
  - cbn [Wide.widen Wide.py_in py_in]. f_equal.
    induction items as [ | [k v] items IH]; [ reflexivity | ].
    cbn [map existsb fst]. rewrite IH, WideFacts.ustring_eqb_narrow. reflexivity.
Qed.

Lemma py_subscript_key_widen (v : value) (k : string) :
  Wide.py_subscript_key (Wide.widen v) (Wide.of_string k)
  = match py_subscript_key v k with
    | Ok x => Ok (Wide.widen x)
    | Raise e => Raise e
    end.
Proof.
  destruct v as [ | b | n | s | l | items ]; try reflexivity.
  cbn [Wide.widen Wide.py_subscript_key py_subscript_key].
  rewrite WideFacts.uassoc_narrow.
  destruct (assoc k items); reflexivity.
Qed.

Lemma concat_contents_widen (items : list value) (acc : string) :
  Wide.concat_contents (map Wide.widen items) (Wide.of_string acc)
  = Wide.widen_text (Content.concat_contents items acc).
Proof.
  revert acc. induction items as [ | item items IH]; intros acc; [ reflexivity | ].
  cbn [map Wide.concat_contents Content.concat_contents].
  rewrite py_in_widen.
  destruct (py_in "content" item) as [[ | ] | e]; cbn [bind];
    [ | apply IH | reflexivity ].
  rewrite py_subscript_key_widen.
  destruct (py_subscript_key item "content") as [raw | e]; cbn [bind];
    [ | reflexivity ].
  destruct raw as [ | b | n | s | l | d ]; try reflexivity.
  cbn [Wide.widen Wide.add_newline Content.add_newline bind].
  rewrite <- IH, !WideFacts.of_string_app. reflexivity.
Qed.

(** The end of the [try] block of [get_subtitle_content] in the narrow
    reading is [Wide.text_of_document] on values of the narrow reading. *)
Lemma text_of_document_widen (subtitle_data : value) :
  Wide.text_of_document (Wide.widen subtitle_data)
  = Wide.widen_text
      (let* has_body := py_in "body" subtitle_data in
       let* subtitle_text :=
         if (has_body : bool) then
           let* body := py_subscript_key subtitle_data "body" in
           let* items := py_iter body in
           Content.concat_contents items ""
         else Ok "" in
       Ok (py_strip subtitle_text)).
Proof.
  unfold Wide.text_of_document. rewrite py_in_widen.
  destruct (py_in "body" subtitle_data) as [[ | ] | e]; cbn [bind];
    [ | reflexivity | reflexivity ].
  rewrite py_subscript_key_widen.
  destruct (py_subscript_key subtitle_data "body") as [body | e]; cbn [bind];
    [ | reflexivity ].
  rewrite py_iter_widen.
  destruct (py_iter body) as [items | e]; cbn [bind]; [ | reflexivity ].
  change (@nil N) with (Wide.of_string "").
  rewrite concat_contents_widen.
  destruct (Content.concat_contents items "") as [t | e]; cbn [bind Wide.widen_text];
    [ | reflexivity ].
  rewrite WideFacts.py_strip_narrow. reflexivity.
Qed.

End WidenFacts.

(** X22.  The text [get_video_subtitle] builds from a downloaded body, for
    text of any characters: every fragment is trimmed of the white space of
    Unicode, the fragments that are then empty are dropped, and the others
    are joined by single line feeds, with no line feed at the end. *)
Theorem X22_flattening (items : list Wide.uvalue) :
  Forall Wide.is_line items ->
  Wide.flatten (Wide.UList items)
  = Ok (Wide.py_join Wide.newline (Wide.lines_of items)).
Proof.
  intros Hl. unfold Wide.flatten. cbn [Wide.py_iter bind].
  rewrite (WideFacts.join_contents_lines items [] Hl). cbn [bind app].
  rewrite WideFacts.py_strip_lines by apply WideFacts.lines_of_solid.
  reflexivity.
Qed.

Lemma X22_flattening_witness :
  Wide.flatten
    (Wide.UList
       [ Wide.UDict [(Wide.of_string "content", Wide.UStr [12288; 20320; 22909; 32]%N)];
         Wide.UDict [(Wide.of_string "content", Wide.UStr [12288; 9]%N)];
         Wide.UDict [(Wide.of_string "from", Wide.UInt 3)];
         Wide.UDict [(Wide.of_string "content", Wide.UStr [19990; 30028]%N)] ])
  = Ok [20320; 22909; 10; 19990; 30028]%N.
Proof.
  rewrite X22_flattening; [ reflexivity | ].
  repeat (apply List.Forall_cons;
          [ eexists; split; [ reflexivity | ];
            first [ left; reflexivity | right; eexists; reflexivity ] | ]).
  apply List.Forall_nil.
Defined.


